(** * The button engine of libmcu (modules/button/src/button.c)

    A shallow embedding of the sampling, debouncing and click-counting
    state machine, followed by the properties of its specification.

    Conventions.
    - A C unsigned integer of [w] bits is a [Z] in [0, 2^w); every
      operation that can leave that range is wrapped explicitly.
    - A computation whose C behaviour is undefined (division by zero, a
      shift by at least the width of the operand, a call through a null
      function pointer) yields [None]; everything else yields [Some].
    - Pointers to functions and to user contexts are addresses ([Z], with
      [0] for NULL); a nullable [struct button *] is an [option button].
    - Calls that leave the module (the level reader and the event
      callback) are recorded in a trace and act on an abstract host
      state. *)

From stdpp Require Import base option list.
From Stdlib Require Import ZArith Lia Bool.

Local Open Scope Z_scope.

(** ** Machine arithmetic *)

Module Word.

Definition wrap (w x : Z) : Z := x mod 2 ^ w.

Definition wrap8 : Z -> Z := wrap 8.
Definition wrap16 : Z -> Z := wrap 16.
Definition wrap32 : Z -> Z := wrap 32.

(** [a - b] on [uint32_t]. *)
Definition sub32 (a b : Z) : Z := wrap32 (a - b).

(** [a << n] on [uint32_t], [n] of type [int]: undefined unless
    [0 <= n < 32]. *)
Definition shl32 (a n : Z) : option Z :=
  if (0 <=? n) && (n <? 32) then Some (wrap32 (Z.shiftl a n)) else None.

(** [a / b] on unsigned operands: undefined when [b] is zero. *)
Definition udiv (a b : Z) : option Z :=
  if b =? 0 then None else Some (a / b).

(** The truth value of an integer used as a C condition. *)
Definition nonzero (x : Z) : bool := negb (x =? 0).

End Word.

Import Word.

(** ** Data model *)

(** Modelled from the spec: [button_level_t] is declared in
    libmcu/button.h, which is not among the sources; the level reader
    yields 0 (up) or 1 (down). *)
Inductive button_level_t : Type :=
  | BUTTON_LEVEL_LOW
  | BUTTON_LEVEL_HIGH.

Definition level_code (l : button_level_t) : Z :=
  match l with
  | BUTTON_LEVEL_LOW => 0
  | BUTTON_LEVEL_HIGH => 1
  end.

(** Modelled from the spec: [button_event_t] is declared in
    libmcu/button.h; the code names [BUTTON_EVT_NONE] and the four events
    handed to the callback. *)
Inductive button_event_t : Type :=
  | BUTTON_EVT_NONE
  | BUTTON_EVT_PRESSED
  | BUTTON_EVT_RELEASED
  | BUTTON_EVT_HOLDING
  | BUTTON_EVT_CLICK.

(** Modelled from the spec: [button_error_t] is declared in
    libmcu/button.h; [BUTTON_ERROR_NONE] is the spec's [OK]. *)
Inductive button_error_t : Type :=
  | BUTTON_ERROR_NONE
  | BUTTON_ERROR_INVALID_PARAM
  | BUTTON_ERROR_INCORRECT_PARAM
  | BUTTON_ERROR_DISABLED.

#[global] Instance button_event_eq_dec : EqDecision button_event_t.
Proof. solve_decision. Defined.

#[global] Instance button_error_eq_dec : EqDecision button_error_t.
Proof. solve_decision. Defined.

Inductive button_state_t : Type :=
  | STATE_IDLE
  | STATE_PRESSED
  | STATE_RELEASED
  | STATE_DOWN
  | STATE_UP
  | STATE_DEBOUNCING.

#[global] Instance button_state_eq_dec : EqDecision button_state_t.
Proof. solve_decision. Defined.

Definition state_code (s : button_state_t) : Z :=
  match s with
  | STATE_IDLE => 0x00
  | STATE_PRESSED => 0x01
  | STATE_RELEASED => 0x02
  | STATE_DOWN => 0x04
  | STATE_UP => 0x08
  | STATE_DEBOUNCING => 0x10
  end.

(** Modelled from the spec: [struct button_param] is declared in
    libmcu/button.h; it holds the five durations, in milliseconds, as
    unsigned integers no wider than [uint32_t]. *)
Record button_param : Type := mk_param {
  sampling_interval_ms : Z;
  min_press_time_ms : Z;
  repeat_delay_ms : Z;
  repeat_rate_ms : Z;
  click_window_ms : Z
}.

Record button_data : Type := mk_data {
  waveform : Z;       (* waveform_t = uint32_t *)
  time_pressed : Z;   (* uint32_t *)
  time_released : Z;  (* uint32_t *)
  time_repeat : Z;    (* uint32_t *)
  clicks : Z          (* uint8_t *)
}.

Record button : Type := mk_button {
  data : button_data;
  param : button_param;
  get_state : Z;
  get_state_ctx : Z;
  callback : Z;
  callback_ctx : Z;
  timestamp : Z;      (* uint32_t *)
  allocated : bool;
  active : bool;
  pressed : bool
}.

(** Field updates, one per field the code assigns. *)

Definition set_waveform (v : Z) (d : button_data) : button_data :=
  mk_data v (time_pressed d) (time_released d) (time_repeat d) (clicks d).
Definition set_time_pressed (v : Z) (d : button_data) : button_data :=
  mk_data (waveform d) v (time_released d) (time_repeat d) (clicks d).
Definition set_time_released (v : Z) (d : button_data) : button_data :=
  mk_data (waveform d) (time_pressed d) v (time_repeat d) (clicks d).
Definition set_time_repeat (v : Z) (d : button_data) : button_data :=
  mk_data (waveform d) (time_pressed d) (time_released d) v (clicks d).
Definition set_clicks (v : Z) (d : button_data) : button_data :=
  mk_data (waveform d) (time_pressed d) (time_released d) (time_repeat d) v.

Definition with_data (f : button_data -> button_data) (b : button) : button :=
  mk_button (f (data b)) (param b) (get_state b) (get_state_ctx b)
    (callback b) (callback_ctx b) (timestamp b) (allocated b) (active b)
    (pressed b).
Definition set_param_block (p : button_param) (b : button) : button :=
  mk_button (data b) p (get_state b) (get_state_ctx b)
    (callback b) (callback_ctx b) (timestamp b) (allocated b) (active b)
    (pressed b).
Definition set_timestamp (v : Z) (b : button) : button :=
  mk_button (data b) (param b) (get_state b) (get_state_ctx b)
    (callback b) (callback_ctx b) v (allocated b) (active b) (pressed b).
Definition set_allocated (v : bool) (b : button) : button :=
  mk_button (data b) (param b) (get_state b) (get_state_ctx b)
    (callback b) (callback_ctx b) (timestamp b) v (active b) (pressed b).
Definition set_active (v : bool) (b : button) : button :=
  mk_button (data b) (param b) (get_state b) (get_state_ctx b)
    (callback b) (callback_ctx b) (timestamp b) (allocated b) v (pressed b).
Definition set_pressed (v : bool) (b : button) : button :=
  mk_button (data b) (param b) (get_state b) (get_state_ctx b)
    (callback b) (callback_ctx b) (timestamp b) (allocated b) (active b) v.
Definition bind_functions (f_get f_get_ctx cb cb_ctx : Z) (b : button)
  : button :=
  mk_button (data b) (param b) f_get f_get_ctx cb cb_ctx (timestamp b)
    (allocated b) (active b) (pressed b).

(** What [memset(btn, 0, sizeof( *btn))] leaves, which is also the initial
    value of every slot of the static pool. *)
Definition zero_button : button :=
  mk_button (mk_data 0 0 0 0 0) (mk_param 0 0 0 0 0) 0 0 0 0 0
    false false false.

(** ** Compile-time configuration (the defaults of button.c) *)

Definition BUTTON_MAX : nat := 8.
Definition BUTTON_SAMPLING_INTERVAL_MS : Z := 10.
Definition BUTTON_MIN_PRESS_TIME_MS : Z := 60.
Definition BUTTON_REPEAT_DELAY_MS : Z := 300.
Definition BUTTON_REPEAT_RATE_MS : Z := 200.
Definition BUTTON_CLICK_WINDOW_MS : Z := 500.

(** [sizeof(waveform_t) * 8] *)
Definition WAVEFORM_BITS : Z := 32.

Definition get_default_param : button_param :=
  mk_param BUTTON_SAMPLING_INTERVAL_MS BUTTON_MIN_PRESS_TIME_MS
    BUTTON_REPEAT_DELAY_MS BUTTON_REPEAT_RATE_MS BUTTON_CLICK_WINDOW_MS.

(** ** Calls that leave the module *)

Inductive call : Type :=
  | CallGetState (f ctx : Z)
  | CallCallback (f : Z) (event : button_event_t) (arg : Z) (ctx : Z).

(** ** Pure helpers of button.c *)

Definition get_min_pressed_pulse_count (btn : button) : option Z :=
  q ← udiv (min_press_time_ms (param btn)) (sampling_interval_ms (param btn));
  Some (wrap16 q).

Definition get_min_pressed_waveform (btn : button) : option Z :=
  n ← get_min_pressed_pulse_count btn;
  shl32 1 n.

Definition get_waveform_debouncing_mask (btn : button) : option Z :=
  n ← get_min_pressed_pulse_count btn;
  w ← shl32 1 n;
  Some (sub32 w 1).

Definition get_waveform_mask (btn : button) : option Z :=
  n ← get_min_pressed_pulse_count btn;
  w ← shl32 1 (n + 1);
  Some (sub32 w 1).

Definition get_waveform (btn : button) : option Z :=
  mask ← get_waveform_mask btn;
  Some (Z.land (waveform (data btn)) mask).

Definition update_waveform (w : Z) (level : button_level_t) : Z :=
  Z.lor (wrap32 (Z.shiftl w 1)) (level_code level).

Definition is_param_ok (p : button_param) (min_pulse_count : Z) : bool :=
  if negb (nonzero (sampling_interval_ms p))
     || negb (nonzero (repeat_delay_ms p))
     || negb (nonzero (repeat_rate_ms p))
     || negb (nonzero (click_window_ms p))
  then false
  else if min_press_time_ms p <? sampling_interval_ms p then false
  else if wrap16 (WAVEFORM_BITS - 2) <=? min_pulse_count then false
  else true.

Definition is_button_pressed (btn : button) : option bool :=
  if pressed btn then Some false
  else
    w ← get_min_pressed_waveform btn;
    let expected := sub32 w 1 in
    mask ← get_waveform_debouncing_mask btn;
    v ← get_waveform btn;
    Some (Z.land v mask =? expected).

Definition is_button_released (btn : button) : option bool :=
  if negb (pressed btn) then Some false
  else
    expected ← get_min_pressed_waveform btn;
    v ← get_waveform btn;
    Some (v =? expected).

Definition is_button_up (btn : button) : option bool :=
  mask ← get_waveform_debouncing_mask btn;
  v ← get_waveform btn;
  Some (Z.land v mask =? 0).

Definition is_button_down (btn : button) : option bool :=
  mask ← get_waveform_debouncing_mask btn;
  v ← get_waveform btn;
  Some (Z.land v mask =? mask).

Definition is_click_window_closed (btn : button) (time_ms : Z) : bool :=
  click_window_ms (param btn) <=? sub32 time_ms (time_released (data btn)).

Definition process_pressed (btn : button) (time_ms : Z) : bool * button :=
  let btn := with_data (set_time_pressed time_ms) btn in
  let btn := set_pressed true btn in
  (true, btn).

Definition process_released (btn : button) (time_ms : Z) : bool * button :=
  let btn := with_data (set_time_released time_ms) btn in
  let btn := set_pressed false btn in
  let btn := with_data (set_clicks (wrap8 (clicks (data btn) + 1))) btn in
  let btn := with_data (set_time_repeat 0) btn in
  (true, btn).

Definition process_holding (btn : button) (time_ms : Z) : bool * button :=
  let state_updated :=
    if nonzero (time_repeat (data btn))
    then repeat_rate_ms (param btn) <=? sub32 time_ms (time_repeat (data btn))
    else repeat_delay_ms (param btn) <=? sub32 time_ms (time_pressed (data btn))
  in
  if state_updated
  then (true, with_data (set_time_repeat time_ms) btn)
  else (false, btn).

Definition activity_mask : Z :=
  Z.lor (Z.lor (state_code STATE_PRESSED) (state_code STATE_DOWN))
    (state_code STATE_DEBOUNCING).

(** The [if / else if] chain of [process_button] (lines 259-276): the
    state and the event it selects, and the instance after the
    book-keeping of the selected branch. [w] is the value returned by
    [update_state]. *)
Definition process_button_classify (btn : button) (time_ms w : Z)
  : option (button_state_t * button_event_t * button) :=
  p ← is_button_pressed btn;
  if p : bool
  then Some (STATE_PRESSED, BUTTON_EVT_PRESSED, (process_pressed btn time_ms).2)
  else
    r ← is_button_released btn;
    if r : bool
    then Some (STATE_RELEASED, BUTTON_EVT_RELEASED,
               (process_released btn time_ms).2)
    else
      d ← is_button_down btn;
      if d : bool
      then
        let '(fired, btn) := process_holding btn time_ms in
        Some (STATE_DOWN,
              if fired : bool then BUTTON_EVT_HOLDING else BUTTON_EVT_NONE,
              btn)
      else
        u ← is_button_up btn;
        if u : bool
        then Some (STATE_UP, BUTTON_EVT_NONE, btn)
        else if nonzero w
             then Some (STATE_DEBOUNCING, BUTTON_EVT_NONE, btn)
             else Some (STATE_IDLE, BUTTON_EVT_NONE, btn).

(** The window-reset test of [process_button] (line 278). *)
Definition click_window_reset (state : button_state_t) (btn : button)
    (time_ms : Z) : bool :=
  negb (nonzero (Z.land (state_code state) activity_mask))
  && is_click_window_closed btn time_ms.

(** ** The engine, over an abstract host *)

Section Engine.

(** The state of everything outside the module. *)
Variable host : Type.

(** Calling the level reader at address [f] with context [ctx]. *)
Variable host_get_state : Z -> Z -> host -> button_level_t * host.

(** Calling the event callback at address [f]: it sees the instance, the
    event, its argument and the context. It does not re-enter the module
    for the instance it is called for. *)
Variable host_callback :
  Z -> button -> button_event_t -> Z -> Z -> host -> host.

(** The loop of [update_state]: [n] iterations. *)
Fixpoint update_state_loop (n : nat) (btn : button) (h : host)
  : option (button * host * list call) :=
  match n with
  | O => Some (btn, h, [])
  | S n' =>
      if get_state btn =? 0 then None
      else
        let '(level, h) :=
          host_get_state (get_state btn) (get_state_ctx btn) h in
        let btn :=
          with_data
            (set_waveform (update_waveform (waveform (data btn)) level))
            btn in
        '(btn, h, tr) ← update_state_loop n' btn h;
        Some (btn, h,
              CallGetState (get_state btn) (get_state_ctx btn) :: tr)
  end.

Definition update_state (btn : button) (pulses : Z) (h : host)
  : option (Z * button * host * list call) :=
  '(btn, h, tr) ← update_state_loop (Z.to_nat pulses) btn h;
  w ← get_waveform btn;
  Some (w, btn, h, tr).

Definition process_button (btn : button) (time_ms : Z) (h : host)
  : option (button_event_t * button * host * list call) :=
  let elapsed_ms := sub32 time_ms (timestamp btn) in
  pulses ← udiv elapsed_ms (sampling_interval_ms (param btn));
  if negb (nonzero pulses)
  then Some (BUTTON_EVT_NONE, btn, h, [])
  else
    '(w, btn, h, tr) ← update_state btn pulses h;
    '(state, event, btn) ← process_button_classify btn time_ms w;
    let btn :=
      if click_window_reset state btn time_ms
      then with_data (set_clicks 0) btn
      else btn in
    let btn := set_timestamp time_ms btn in
    Some (event, btn, h, tr).

Definition button_step (btn : option button) (time_ms : Z) (h : host)
  : option (button_error_t * option button * host * list call) :=
  match btn with
  | None => Some (BUTTON_ERROR_INVALID_PARAM, None, h, [])
  | Some btn =>
      if negb (active btn)
      then Some (BUTTON_ERROR_DISABLED, Some btn, h, [])
      else
        '(event, btn, h, tr) ← process_button btn time_ms h;
        if bool_decide (event <> BUTTON_EVT_NONE) && nonzero (callback btn)
        then
          let h :=
            host_callback (callback btn) btn event 0 (callback_ctx btn) h in
          let tr :=
            tr ++ [CallCallback (callback btn) event 0 (callback_ctx btn)] in
          if bool_decide (event = BUTTON_EVT_RELEASED)
          then
            let h :=
              host_callback (callback btn) btn BUTTON_EVT_CLICK
                (clicks (data btn)) (callback_ctx btn) h in
            let tr :=
              tr ++ [CallCallback (callback btn) BUTTON_EVT_CLICK
                       (clicks (data btn)) (callback_ctx btn)] in
            Some (BUTTON_ERROR_NONE, Some btn, h, tr)
          else Some (BUTTON_ERROR_NONE, Some btn, h, tr)
        else Some (BUTTON_ERROR_NONE, Some btn, h, tr)
  end.

End Engine.

(** ** The host stepping one instance *)

Section Runs.

Variable host : Type.
Variable host_get_state : Z -> Z -> host -> button_level_t * host.
Variable host_callback :
  Z -> button -> button_event_t -> Z -> Z -> host -> host.

(** Successive calls of [button_step] on one instance, at the times
    [ts]; the calls of all steps, in order. *)
Fixpoint button_steps (ts : list Z) (btn : button) (h : host)
  : option (button * host * list call) :=
  match ts with
  | [] => Some (btn, h, [])
  | time_ms :: ts =>
      '(_, ob, h, tr) ←
        button_step host host_get_state host_callback (Some btn) time_ms h;
      btn ← ob;
      '(btn, h, tr') ← button_steps ts btn h;
      Some (btn, h, tr ++ tr')
  end.

(** Whether the step at [time_ms] takes the branch of line 279: the test
    of line 278, on the state and the instance that [process_button] has
    when it gets there. A step without a pulse does not get there. *)
Definition window_reset_fires (btn : button) (time_ms : Z) (h : host)
  : bool :=
  match udiv (sub32 time_ms (timestamp btn))
          (sampling_interval_ms (param btn)) with
  | Some pulses =>
      nonzero pulses
      && match update_state host host_get_state btn pulses h with
         | Some (w, b1, _, _) =>
             match process_button_classify b1 time_ms w with
             | Some (state, _, b2) => click_window_reset state b2 time_ms
             | None => false
             end
         | None => false
         end
  | None => false
  end.

(** No step of the run at the times [ts] resets the click counter. *)
Fixpoint no_window_reset (ts : list Z) (btn : button) (h : host) : bool :=
  match ts with
  | [] => true
  | time_ms :: ts =>
      negb (window_reset_fires btn time_ms h)
      && match button_step host host_get_state host_callback (Some btn)
                 time_ms h with
         | Some (_, Some btn, h, _) => no_window_reset ts btn h
         | _ => true
         end
  end.

End Runs.

(** ** Operations that do not leave the module *)

Definition button_set_param (btn : option button) (p : option button_param)
  : option (button_error_t * option button) :=
  match btn, p with
  | Some b, Some p =>
      n ← get_min_pressed_pulse_count b;
      if negb (is_param_ok p n)
      then Some (BUTTON_ERROR_INCORRECT_PARAM, Some b)
      else Some (BUTTON_ERROR_NONE, Some (set_param_block p b))
  | _, _ => Some (BUTTON_ERROR_INVALID_PARAM, btn)
  end.

(** The second component is what the call leaves in [*param]. *)
Definition button_get_param (btn : option button) (p : option button_param)
  : button_error_t * option button_param :=
  match btn, p with
  | Some b, Some _ => (BUTTON_ERROR_NONE, Some (param b))
  | _, _ => (BUTTON_ERROR_INVALID_PARAM, p)
  end.

Definition button_busy (btn : button) : option bool :=
  u ← is_button_up btn;
  Some (negb u).

Definition button_enable (btn : option button)
  : button_error_t * option button :=
  match btn with
  | None => (BUTTON_ERROR_INVALID_PARAM, None)
  | Some b => (BUTTON_ERROR_NONE, Some (set_active true b))
  end.

Definition button_disable (btn : option button)
  : button_error_t * option button :=
  match btn with
  | None => (BUTTON_ERROR_INVALID_PARAM, None)
  | Some b => (BUTTON_ERROR_NONE, Some (set_active false b))
  end.

(** ** The static pool of [button_new] *)

Module Pool.

(** [static struct button btns[BUTTON_MAX]]: zero-initialised. A handle
    is the index of a slot; [None] is the NULL handle. *)
Definition initial : list button := replicate BUTTON_MAX zero_button.

(** The loop of [new_button], from index [i] with [n] iterations left.
    The array has [BUTTON_MAX] slots, so the lookup always succeeds. *)
Fixpoint new_button_loop (n i : nat) (btns : list button)
  : option nat * list button :=
  match n with
  | O => (None, btns)
  | S n' =>
      match btns !! i with
      | Some p =>
          if negb (allocated p)
          then (Some i, <[i := set_allocated true p]> btns)
          else new_button_loop n' (S i) btns
      | None => (None, btns)
      end
  end.

Definition new_button (btns : list button) : option nat * list button :=
  new_button_loop BUTTON_MAX 0 btns.

Definition free_button (i : nat) (btns : list button) : list button :=
  <[i := zero_button]> btns.

(** [button_lock] and [button_unlock] are the empty weak defaults of
    button_overrides.c. *)
Definition button_new (btns : list button) (f_get f_get_ctx cb cb_ctx : Z)
  : option nat * list button :=
  if f_get =? 0 then (None, btns)
  else
    match new_button btns with
    | (Some i, btns) =>
        (Some i,
         alter (fun b =>
                  set_param_block get_default_param
                    (bind_functions f_get f_get_ctx cb cb_ctx b)) i btns)
    | (None, btns) => (None, btns)
    end.

(** [button_delete(NULL)] hands NULL to [memset]: undefined. *)
Definition button_delete (btns : list button) (handle : option nat)
  : option (list button) :=
  match handle with
  | Some i => Some (free_button i btns)
  | None => None
  end.

(** Dereferencing a handle; a handle outside the array is not a pointer
    the module ever returned. *)
Definition deref (btns : list button) (handle : option nat)
  : option (option button) :=
  match handle with
  | None => Some None
  | Some i => b ← btns !! i; Some (Some b)
  end.

(** Writing back what a call left in the slot behind [handle]. *)
Definition store (btns : list button) (handle : option nat)
    (b : option button) : list button :=
  match handle, b with
  | Some i, Some b => <[i := b]> btns
  | _, _ => btns
  end.

(** A call of the public interface, by handle. *)
Inductive api_call : Type :=
  | ApiNew (f_get f_get_ctx cb cb_ctx : Z)
  | ApiDelete (handle : option nat)
  | ApiEnable (handle : option nat)
  | ApiDisable (handle : option nat)
  | ApiSetParam (handle : option nat) (p : option button_param)
  | ApiStep (handle : option nat) (time_ms : Z).

Inductive api_result : Type :=
  | RetHandle (handle : option nat)
  | RetVoid
  | RetError (e : button_error_t).

Section Run.

Variable host : Type.
Variable host_get_state : Z -> Z -> host -> button_level_t * host.
Variable host_callback :
  Z -> button -> button_event_t -> Z -> Z -> host -> host.

Definition exec (c : api_call) (btns : list button) (h : host)
  : option (api_result * list button * host * list call) :=
  match c with
  | ApiNew f_get f_get_ctx cb cb_ctx =>
      let '(r, btns) := button_new btns f_get f_get_ctx cb cb_ctx in
      Some (RetHandle r, btns, h, [])
  | ApiDelete handle =>
      btns ← button_delete btns handle;
      Some (RetVoid, btns, h, [])
  | ApiEnable handle =>
      b ← deref btns handle;
      let '(e, b) := button_enable b in
      Some (RetError e, store btns handle b, h, [])
  | ApiDisable handle =>
      b ← deref btns handle;
      let '(e, b) := button_disable b in
      Some (RetError e, store btns handle b, h, [])
  | ApiSetParam handle p =>
      b ← deref btns handle;
      '(e, b) ← button_set_param b p;
      Some (RetError e, store btns handle b, h, [])
  | ApiStep handle time_ms =>
      b ← deref btns handle;
      '(e, b, h, tr) ←
        button_step host host_get_state host_callback b time_ms h;
      Some (RetError e, store btns handle b, h, tr)
  end.

(** A sequence of calls; the results and traces are kept per call. *)
Fixpoint run (cs : list api_call) (btns : list button) (h : host)
  : option (list (api_result * list call) * list button * host) :=
  match cs with
  | [] => Some ([], btns, h)
  | c :: cs =>
      '(r, btns, h, tr) ← exec c btns h;
      '(rs, btns, h) ← run cs btns h;
      Some ((r, tr) :: rs, btns, h)
  end.

End Run.

(** The handle a call passes, if it passes one. *)
Definition handle_of (c : api_call) : option nat :=
  match c with
  | ApiNew _ _ _ _ => None
  | ApiDelete handle | ApiEnable handle | ApiDisable handle
  | ApiSetParam handle _ | ApiStep handle _ => handle
  end.

(** A handle is live while its slot is in use. *)
Definition live (btns : list button) (i : nat) : bool :=
  match btns !! i with
  | Some b => allocated b
  | None => false
  end.

(** The handle of a call, when there is one, is live. *)
Definition handle_live (c : api_call) (btns : list button) : bool :=
  match handle_of c with
  | Some i => live btns i
  | None => true
  end.

Section Protocol.

Variable host : Type.
Variable host_get_state : Z -> Z -> host -> button_level_t * host.
Variable host_callback :
  Z -> button -> button_event_t -> Z -> Z -> host -> host.

(** A client that keeps to the life cycle of section 3: every call
    passes a handle that [button_new] returned and [button_delete] has
    not yet taken back, and every call is defined. *)
Fixpoint protocol_ok (cs : list api_call) (btns : list button) (h : host)
  : bool :=
  match cs with
  | [] => true
  | c :: cs =>
      handle_live c btns
      && match exec host host_get_state host_callback c btns h with
         | Some (_, btns, h, _) => protocol_ok cs btns h
         | None => false
         end
  end.

End Protocol.

(** Invariant 4 of the specification: a slot that is not in use is
    zeroed. *)
Definition pool_inv (btns : list button) : Prop :=
  forall (i : nat) (b : button),
    btns !! i = Some b -> allocated b = false -> b = zero_button.

(** The slot behind handle [i] holds a disabled instance. *)
Definition slot_inactive (btns : list button) (i : nat) : Prop :=
  exists b, btns !! i = Some b /\ active b = false.

End Pool.

(** ** Vocabulary of the specification *)

(** The pulse count [N] of a parameter block: the quotient, as the
    [uint16_t] that [get_min_pressed_pulse_count] returns. It is the plain
    quotient whenever that fits 16 bits ([pulse_count_quotient]). *)
Definition pulse_count (p : button_param) : Z :=
  wrap16 (min_press_time_ms p / sampling_interval_ms p).

(** The parameter blocks on which the helpers are defined: the divisions
    have a non-zero divisor and [N + 1] is a valid shift count for the
    waveform. *)
Definition param_defined (p : button_param) : Prop :=
  sampling_interval_ms p <> 0
  /\ pulse_count p < WAVEFORM_BITS - 1.

(** The instances on which every computation of a step is defined: the
    parameters are, and the level reader is bound. *)
Definition well_formed (btn : button) : Prop :=
  param_defined (param btn) /\ get_state btn <> 0.

(** The number of sampling intervals elapsed at [time_ms]. *)
Definition elapsed_pulses (btn : button) (time_ms : Z) : Z :=
  sub32 time_ms (timestamp btn) / sampling_interval_ms (param btn).

(** The low [n] bits of [w] are all 1. *)
Definition low_bits_set (n w : Z) : Prop :=
  forall i, 0 <= i < n -> Z.testbit w i = true.

(** The waveform after the samples [levels] went in, oldest first. *)
Definition shift_in (w : Z) (levels : list button_level_t) : Z :=
  fold_left update_waveform levels w.

(** The instance once [levels] went into its waveform. *)
Definition after_sampling (btn : button) (levels : list button_level_t)
  : button :=
  with_data (set_waveform (shift_in (waveform (data btn)) levels)) btn.

(** The discriminator of the specification (section 4.1), on an instance
    whose waveform already holds the fresh samples: the state, the event
    and the instance after the book-keeping of that state. *)
Inductive classified (btn : button) (time_ms : Z)
  : button_state_t -> button_event_t -> button -> Prop :=
  | classified_pressed :
      pressed btn = false ->
      low_bits_set (pulse_count (param btn)) (waveform (data btn)) ->
      classified btn time_ms STATE_PRESSED BUTTON_EVT_PRESSED
        (process_pressed btn time_ms).2
  | classified_released :
      pressed btn = true ->
      Z.land (waveform (data btn)) (Z.ones (pulse_count (param btn) + 1))
      = 2 ^ pulse_count (param btn) ->
      classified btn time_ms STATE_RELEASED BUTTON_EVT_RELEASED
        (process_released btn time_ms).2
  | classified_down :
      pressed btn = true ->
      low_bits_set (pulse_count (param btn)) (waveform (data btn)) ->
      Z.land (waveform (data btn)) (Z.ones (pulse_count (param btn) + 1))
      <> 2 ^ pulse_count (param btn) ->
      classified btn time_ms STATE_DOWN
        (if (process_holding btn time_ms).1
         then BUTTON_EVT_HOLDING else BUTTON_EVT_NONE)
        (process_holding btn time_ms).2
  | classified_quiet state :
      state = STATE_UP \/ state = STATE_DEBOUNCING \/ state = STATE_IDLE ->
      ~ low_bits_set (pulse_count (param btn)) (waveform (data btn)) ->
      ~ (pressed btn = true
         /\ Z.land (waveform (data btn)) (Z.ones (pulse_count (param btn) + 1))
            = 2 ^ pulse_count (param btn)) ->
      (state = STATE_UP <->
       Z.land (waveform (data btn)) (Z.ones (pulse_count (param btn))) = 0) ->
      classified btn time_ms state BUTTON_EVT_NONE btn.

(** The callback invocations that close a step whose event is [event], on
    the instance [btn] the step leaves (section 4.2, item 7). *)
Definition step_callbacks (btn : button) (event : button_event_t)
  : list call :=
  if nonzero (callback btn)
  then
    match event with
    | BUTTON_EVT_NONE => []
    | BUTTON_EVT_RELEASED =>
        [CallCallback (callback btn) BUTTON_EVT_RELEASED 0 (callback_ctx btn);
         CallCallback (callback btn) BUTTON_EVT_CLICK (clicks (data btn))
           (callback_ctx btn)]
    | _ => [CallCallback (callback btn) event 0 (callback_ctx btn)]
    end
  else [].

(** What no operation on an instance but [button_new], [button_delete],
    [button_enable], [button_disable] and [button_set_param] changes. *)
Definition same_binding (b b' : button) : Prop :=
  param b' = param b
  /\ get_state b' = get_state b
  /\ get_state_ctx b' = get_state_ctx b
  /\ callback b' = callback b
  /\ callback_ctx b' = callback_ctx b
  /\ allocated b' = allocated b
  /\ active b' = active b.

(** The RELEASED invocations of a trace, counted, and the arguments of
    its CLICK invocations, in order. *)
Fixpoint released_count (tr : list call) : nat :=
  match tr with
  | [] => O
  | CallCallback _ BUTTON_EVT_RELEASED _ _ :: tr => S (released_count tr)
  | _ :: tr => released_count tr
  end.

Fixpoint click_args (tr : list call) : list Z :=
  match tr with
  | [] => []
  | CallCallback _ BUTTON_EVT_CLICK arg _ :: tr => arg :: click_args tr
  | _ :: tr => click_args tr
  end.

(** The trace holds a callback invocation with [event] and [arg]. *)
Definition emits (tr : list call) (event : button_event_t) (arg : Z) : Prop :=
  exists f ctx, In (CallCallback f event arg ctx) tr.

Definition is_sample (c : call) : Prop :=
  match c with
  | CallGetState _ _ => True
  | CallCallback _ _ _ _ => False
  end.



Section Sampling.

Variable host : Type.
Variable host_get_state : Z -> Z -> host -> button_level_t * host.

(** [n] successive reads of the level reader [f]. *)
Fixpoint read_levels (n : nat) (f ctx : Z) (h : host)
  : list button_level_t * host :=
  match n with
  | O => ([], h)
  | S n' =>
      let '(level, h) := host_get_state f ctx h in
      let '(levels, h) := read_levels n' f ctx h in
      (level :: levels, h)
  end.

End Sampling.

(** ** A scripted host *)

Module Script.

(** The host state is the list of levels still to be read; the reader
    yields low once the script is exhausted. The callback leaves the
    script alone. *)
Definition host : Type := list button_level_t.

Definition get_state (f ctx : Z) (h : host) : button_level_t * host :=
  match h with
  | [] => (BUTTON_LEVEL_LOW, [])
  | level :: h => (level, h)
  end.

Definition on_event (f : Z) (b : button) (event : button_event_t)
    (arg ctx : Z) (h : host) : host := h.

Definition step := button_step host get_state on_event.
Definition process := process_button host get_state.

(** The instance [button_new] hands out, reader at address 1 and
    callback at address 2, once enabled. *)
Definition fresh : button :=
  set_active true
    (set_param_block get_default_param
       (bind_functions 1 0 2 0 (set_allocated true zero_button))).

(** [n] steps, one every [dt] milliseconds from time [t] on. *)
Fixpoint times (n : nat) (dt t : Z) : list Z :=
  match n with
  | O => []
  | S n' => t :: times n' dt (wrap32 (t + dt))
  end.

Definition steps (n : nat) (dt t : Z) (b : button) (h : host)
  : option (button * host * list call) :=
  button_steps host get_state on_event (times n dt t) b h.

(** One full click: [n] samples down, then [n] samples up. *)
Definition click (n : nat) : host :=
  replicate n BUTTON_LEVEL_HIGH ++ replicate n BUTTON_LEVEL_LOW.

Fixpoint clicks_script (k n : nat) : host :=
  match k with
  | O => []
  | S k' => click n ++ clicks_script k' n
  end.

(** The instance after the [n] first samples of script [h], stepped
    every 10 ms from time 10 on. *)
Definition reached (n : nat) (h : host) : button :=
  match steps n 10 10 fresh h with
  | Some (b, _, _) => b
  | None => zero_button
  end.

(** Five samples down: one more qualifies the press. *)
Definition armed : button :=
  Eval vm_compute in reached 5 (replicate 5 BUTTON_LEVEL_HIGH).

(** Pressed at time 60 and held. *)
Definition held : button :=
  Eval vm_compute in reached 6 (replicate 6 BUTTON_LEVEL_HIGH).


(** The same after the sixth sample up, at time 120. *)
Definition let_go : button :=
  Eval vm_compute in reached 12 (click 6).

(** 255 clicks in a row, then a press and five samples up. *)
Definition worn : button :=
  Eval vm_compute in reached (12 * 255 + 11) (clicks_script 256 6).

(** The same after the sixth sample up, at time 30720. *)
Definition worn_out : button :=
  Eval vm_compute in reached (12 * 256) (clicks_script 256 6).

End Script.

(** ** A recording host *)

Module Recorder.

(** The host state is the script of levels still to be read and the log
    of what the callback was called with, oldest first. *)
Definition host : Type := list button_level_t * list (button_event_t * Z).

Definition get_state (f ctx : Z) (h : host) : button_level_t * host :=
  match h.1 with
  | [] => (BUTTON_LEVEL_LOW, h)
  | level :: levels => (level, (levels, h.2))
  end.

Definition on_event (f : Z) (b : button) (event : button_event_t)
    (arg ctx : Z) (h : host) : host :=
  (h.1, h.2 ++ [(event, arg)]).

End Recorder.

(** ** Sample history *)

(** The bit a level contributes to the waveform. *)
Definition level_bit (l : button_level_t) : bool :=
  match l with
  | BUTTON_LEVEL_LOW => false
  | BUTTON_LEVEL_HIGH => true
  end.

(** The [j]-th most recent of the samples [levels], 0 for the newest. *)
Definition recent (levels : list button_level_t) (j : nat)
  : option button_level_t :=
  reverse levels !! j.

(** Every field of the instance that is a C integer is within its type. *)
Definition in_range (btn : button) : Prop :=
  0 <= waveform (data btn) < 2 ^ 32
  /\ 0 <= time_pressed (data btn) < 2 ^ 32
  /\ 0 <= time_released (data btn) < 2 ^ 32
  /\ 0 <= time_repeat (data btn) < 2 ^ 32
  /\ 0 <= clicks (data btn) < 2 ^ 8
  /\ 0 <= timestamp btn < 2 ^ 32.

(** ** The conversions of libmcu/pwm.h *)

Module Pwm.

(** [PWM_PCT_TO_MILLI(pct)] and [PWM_MILLI_TO_PCT(millipct)], at the type
    [uint32_t] that [pwm_start] and [pwm_update_duty] take for a duty
    cycle: the product wraps at 32 bits. *)
Definition PWM_PCT_TO_MILLI (pct : Z) : Z := wrap32 (pct * 1000).

Definition PWM_MILLI_TO_PCT (millipct : Z) : Z := millipct / 1000.

End Pwm.

(** * Properties *)

(** ** Machine arithmetic *)

Lemma wrap_small (w x : Z) : 0 <= x < 2 ^ w -> wrap w x = x.
Proof. intros Hx. unfold wrap. now apply Z.mod_small. Qed.

Lemma wrap_range (w x : Z) : 0 <= w -> 0 <= wrap w x < 2 ^ w.
Proof.
  intros Hw. unfold wrap. apply Z.mod_pos_bound.
  now apply Z.pow_pos_nonneg.
Qed.

Lemma pow2_lt_32 (n : Z) : 0 <= n < 32 -> 0 < 2 ^ n < 2 ^ 32.
Proof.
  intros [Hn Hlt]. split.
  - now apply Z.pow_pos_nonneg.
  - apply Z.pow_lt_mono_r; lia.
Qed.

Lemma shl32_one (n : Z) : 0 <= n < 32 -> shl32 1 n = Some (2 ^ n).
Proof.
  intros Hn. unfold shl32.
  replace ((0 <=? n) && (n <? 32)) with true
    by (symmetry; apply andb_true_iff; lia).
  rewrite Z.shiftl_1_l. unfold wrap32. rewrite wrap_small; [reflexivity|].
  pose proof (pow2_lt_32 n Hn). lia.
Qed.

Lemma sub32_pow2_one (n : Z) : 0 <= n < 32 -> sub32 (2 ^ n) 1 = Z.ones n.
Proof.
  intros Hn. unfold sub32, wrap32. rewrite Z.ones_equiv.
  rewrite wrap_small; [lia|]. pose proof (pow2_lt_32 n Hn). lia.
Qed.

Lemma udiv_defined (a b : Z) : b <> 0 -> udiv a b = Some (a / b).
Proof. intros Hb. unfold udiv. now destruct (Z.eqb_spec b 0). Qed.

Lemma nonzero_true (x : Z) : nonzero x = true <-> x <> 0.
Proof. unfold nonzero. destruct (Z.eqb_spec x 0); simpl; split; congruence. Qed.

Lemma nonzero_false (x : Z) : nonzero x = false <-> x = 0.
Proof. unfold nonzero. destruct (Z.eqb_spec x 0); simpl; split; congruence. Qed.

(** ** Bits of the masked waveform *)

Lemma land_ones_ones (w n : Z) :
  0 <= n -> Z.land (Z.land w (Z.ones (n + 1))) (Z.ones n) = Z.land w (Z.ones n).
Proof.
  intros Hn. rewrite <- Z.land_assoc. f_equal.
  apply Z.bits_inj'. intros i Hi. rewrite Z.land_spec.
  destruct (Z.lt_ge_cases i n) as [Hlt|Hge].
  - rewrite !Z.ones_spec_low by lia. reflexivity.
  - rewrite (Z.ones_spec_high n i) by lia. apply andb_false_r.
Qed.

Lemma land_ones_full (w n : Z) :
  0 <= n -> (Z.land w (Z.ones n) = Z.ones n <-> low_bits_set n w).
Proof.
  intros Hn. split.
  - intros Heq i Hi.
    assert (Hb : Z.testbit (Z.land w (Z.ones n)) i = Z.testbit (Z.ones n) i)
      by now rewrite Heq.
    rewrite Z.land_spec, Z.ones_spec_low in Hb by lia.
    now rewrite andb_true_r in Hb.
  - intros Hset. apply Z.bits_inj'. intros i Hi. rewrite Z.land_spec.
    destruct (Z.lt_ge_cases i n) as [Hlt|Hge].
    + rewrite Z.ones_spec_low by lia. rewrite Hset by lia. reflexivity.
    + rewrite Z.ones_spec_high by lia. apply andb_false_r.
Qed.

(** ** The helpers on defined parameters *)

Section Defined.

Variable btn : button.
Hypothesis Hdef : param_defined (param btn).

Let N : Z := pulse_count (param btn).
Let w : Z := waveform (data btn).

Lemma pulse_count_range : 0 <= N < 31.
Proof.
  destruct Hdef as (Hs & Hn). subst N. unfold WAVEFORM_BITS in Hn.
  split; [|lia]. unfold pulse_count, wrap16. apply wrap_range. lia.
Qed.

Lemma get_min_pressed_pulse_count_defined :
  get_min_pressed_pulse_count btn = Some N.
Proof.
  unfold get_min_pressed_pulse_count.
  rewrite udiv_defined by (destruct Hdef; assumption). reflexivity.
Qed.

Lemma get_min_pressed_waveform_defined :
  get_min_pressed_waveform btn = Some (2 ^ N).
Proof.
  pose proof pulse_count_range as HN.
  unfold get_min_pressed_waveform.
  rewrite get_min_pressed_pulse_count_defined. simpl.
  apply shl32_one. lia.
Qed.

Lemma get_waveform_debouncing_mask_defined :
  get_waveform_debouncing_mask btn = Some (Z.ones N).
Proof.
  pose proof pulse_count_range as HN.
  unfold get_waveform_debouncing_mask.
  rewrite get_min_pressed_pulse_count_defined. simpl.
  rewrite shl32_one by lia. simpl.
  rewrite sub32_pow2_one by lia. reflexivity.
Qed.

Lemma get_waveform_mask_defined :
  get_waveform_mask btn = Some (Z.ones (N + 1)).
Proof.
  pose proof pulse_count_range as HN.
  unfold get_waveform_mask.
  rewrite get_min_pressed_pulse_count_defined. simpl.
  rewrite shl32_one by lia. simpl.
  rewrite sub32_pow2_one by lia. reflexivity.
Qed.

Lemma get_waveform_defined :
  get_waveform btn = Some (Z.land w (Z.ones (N + 1))).
Proof.
  unfold get_waveform. rewrite get_waveform_mask_defined. reflexivity.
Qed.

Lemma is_button_pressed_defined :
  is_button_pressed btn
  = Some (negb (pressed btn) && (Z.land w (Z.ones N) =? Z.ones N)).
Proof.
  pose proof pulse_count_range as HN.
  unfold is_button_pressed. destruct (pressed btn); [reflexivity|].
  rewrite get_min_pressed_waveform_defined. simpl.
  rewrite get_waveform_debouncing_mask_defined. simpl.
  rewrite get_waveform_defined. simpl.
  rewrite sub32_pow2_one by lia.
  rewrite land_ones_ones by lia. reflexivity.
Qed.

Lemma is_button_released_defined :
  is_button_released btn
  = Some (pressed btn && (Z.land w (Z.ones (N + 1)) =? 2 ^ N)).
Proof.
  unfold is_button_released. destruct (pressed btn); [|reflexivity].
  simpl. rewrite get_min_pressed_waveform_defined. simpl.
  rewrite get_waveform_defined. reflexivity.
Qed.

Lemma is_button_up_defined :
  is_button_up btn = Some (Z.land w (Z.ones N) =? 0).
Proof.
  pose proof pulse_count_range as HN.
  unfold is_button_up.
  rewrite get_waveform_debouncing_mask_defined. simpl.
  rewrite get_waveform_defined. simpl.
  rewrite land_ones_ones by lia. reflexivity.
Qed.

Lemma is_button_down_defined :
  is_button_down btn = Some (Z.land w (Z.ones N) =? Z.ones N).
Proof.
  pose proof pulse_count_range as HN.
  unfold is_button_down.
  rewrite get_waveform_debouncing_mask_defined. simpl.
  rewrite get_waveform_defined. simpl.
  rewrite land_ones_ones by lia. reflexivity.
Qed.

(** The chain of [process_button] never fails on defined parameters. *)
Lemma process_button_classify_defined (time_ms v : Z) :
  exists state event btn',
    process_button_classify btn time_ms v = Some (state, event, btn').
Proof.
  unfold process_button_classify.
  rewrite is_button_pressed_defined. simpl.
  destruct (negb (pressed btn) && _); [eauto|].
  rewrite is_button_released_defined. simpl.
  destruct (pressed btn && _); [eauto|].
  rewrite is_button_down_defined. simpl.
  destruct (Z.land w (Z.ones N) =? Z.ones N).
  { destruct (process_holding btn time_ms). eauto. }
  rewrite is_button_up_defined. simpl.
  destruct (Z.land w (Z.ones N) =? 0); [eauto|].
  destruct (nonzero v); eauto.
Qed.

End Defined.

(** ** Sampling *)

Lemma with_data_id (btn : button) :
  with_data (set_waveform (waveform (data btn))) btn = btn.
Proof. destruct btn as [[] ?]. reflexivity. Qed.

Lemma after_sampling_nil (btn : button) : after_sampling btn [] = btn.
Proof. apply with_data_id. Qed.

Lemma after_sampling_cons (btn : button) (l : button_level_t)
    (ls : list button_level_t) :
  after_sampling btn (l :: ls)
  = after_sampling
      (with_data (set_waveform (update_waveform (waveform (data btn)) l)) btn)
      ls.
Proof. reflexivity. Qed.

Section SamplingFacts.

Variable host : Type.
Variable host_get_state : Z -> Z -> host -> button_level_t * host.
Variable host_callback :
  Z -> button -> button_event_t -> Z -> Z -> host -> host.

Let levels_of (btn : button) (n : nat) (h : host) :=
  read_levels host host_get_state n (get_state btn) (get_state_ctx btn) h.

Lemma read_levels_length (n : nat) (f ctx : Z) (h : host) :
  length (read_levels host host_get_state n f ctx h).1 = n.
Proof.
  revert h. induction n as [|n IH]; intros h; simpl; [reflexivity|].
  destruct (host_get_state f ctx h) as [l h1].
  specialize (IH h1).
  destruct (read_levels host host_get_state n f ctx h1). simpl in *.
  now rewrite IH.
Qed.

(** The loop reads the level [n] times and shifts each sample in; it
    touches nothing but the waveform. *)
Lemma update_state_loop_defined (n : nat) (btn : button) (h : host) :
  get_state btn <> 0 ->
  update_state_loop host host_get_state n btn h
  = Some (after_sampling btn (levels_of btn n h).1,
          (levels_of btn n h).2,
          replicate n (CallGetState (get_state btn) (get_state_ctx btn))).
Proof.
  subst levels_of. revert btn h.
  induction n as [|n IH]; intros btn h Hget; simpl.
  - now rewrite after_sampling_nil.
  - destruct (Z.eqb_spec (get_state btn) 0) as [|_]; [contradiction|].
    destruct (host_get_state (get_state btn) (get_state_ctx btn) h)
      as [l h1].
    rewrite IH by exact Hget. simpl.
    destruct (read_levels host host_get_state n (get_state btn)
                (get_state_ctx btn) h1) as [ls h2].
    reflexivity.
Qed.

Lemma update_state_defined (btn : button) (pulses : Z) (h : host) :
  well_formed btn ->
  let n := Z.to_nat pulses in
  update_state host host_get_state btn pulses h
  = Some (Z.land (shift_in (waveform (data btn)) (levels_of btn n h).1)
            (Z.ones (pulse_count (param btn) + 1)),
          after_sampling btn (levels_of btn n h).1,
          (levels_of btn n h).2,
          replicate n (CallGetState (get_state btn) (get_state_ctx btn))).
Proof.
  intros [Hdef Hget] n. unfold update_state.
  rewrite update_state_loop_defined by exact Hget. simpl.
  fold (levels_of btn n h).
  rewrite get_waveform_defined by exact Hdef. reflexivity.
Qed.

(** A step with at least one pulse: sampling, then the chain, then the
    window reset and the time stamp. *)
Lemma process_button_defined (btn : button) (time_ms : Z) (h : host) :
  well_formed btn ->
  elapsed_pulses btn time_ms <> 0 ->
  let n := Z.to_nat (elapsed_pulses btn time_ms) in
  let b1 := after_sampling btn (levels_of btn n h).1 in
  let v := Z.land (waveform (data b1)) (Z.ones (pulse_count (param btn) + 1)) in
  exists state event b2,
    process_button_classify b1 time_ms v = Some (state, event, b2)
    /\ process_button host host_get_state btn time_ms h
       = Some (event,
               set_timestamp time_ms
                 (if click_window_reset state b2 time_ms
                  then with_data (set_clicks 0) b2 else b2),
               (levels_of btn n h).2,
               replicate n
                 (CallGetState (get_state btn) (get_state_ctx btn))).
Proof.
  intros Hwf Hp n b1 v.
  destruct (process_button_classify_defined b1 (proj1 Hwf) time_ms v)
    as (state & event & b2 & Hc).
  exists state, event, b2. split; [exact Hc|].
  unfold process_button.
  rewrite udiv_defined by (destruct Hwf as [(? & _) _]; assumption). simpl.
  fold (elapsed_pulses btn time_ms).
  rewrite (proj2 (nonzero_true _) Hp). simpl.
  rewrite update_state_defined by exact Hwf. simpl.
  fold n. fold b1.
  change (Z.land (shift_in _ _) _) with v. rewrite Hc. reflexivity.
Qed.

End SamplingFacts.

(** ** The discriminator *)

Lemma process_button_classify_classified (btn : button) (time_ms v : Z)
    (state : button_state_t) (event : button_event_t) (btn' : button) :
  param_defined (param btn) ->
  process_button_classify btn time_ms v = Some (state, event, btn') ->
  classified btn time_ms state event btn'.
Proof.
  intros Hdef. pose proof (pulse_count_range btn Hdef) as HN.
  unfold process_button_classify.
  rewrite is_button_pressed_defined by exact Hdef. simpl.
  destruct (pressed btn) eqn:Hp; simpl.
  - (* latch set: released, down, or quiet *)
    rewrite is_button_released_defined by exact Hdef. rewrite Hp. simpl.
    destruct (Z.eqb_spec
                (Z.land (waveform (data btn))
                   (Z.ones (pulse_count (param btn) + 1)))
                (2 ^ pulse_count (param btn))) as [Hrel|Hrel].
    { intros [= <- <- <-]. now apply classified_released. }
    rewrite is_button_down_defined by exact Hdef. simpl.
    destruct (Z.eqb_spec
                (Z.land (waveform (data btn))
                   (Z.ones (pulse_count (param btn))))
                (Z.ones (pulse_count (param btn)))) as [Hdown|Hdown].
    { destruct (process_holding btn time_ms) as [fired b] eqn:Hh.
      intros [= <- <- <-].
      change fired with (fired, b).1. change b with (fired, b).2 at 2.
      rewrite <- Hh.
      apply classified_down; [exact Hp| |exact Hrel].
      apply land_ones_full; [lia|exact Hdown]. }
    rewrite is_button_up_defined by exact Hdef. simpl.
    assert (Hlow : ~ low_bits_set (pulse_count (param btn))
                     (waveform (data btn)))
      by (intros Hs; apply Hdown, land_ones_full; [lia|exact Hs]).
    destruct (Z.eqb_spec
                (Z.land (waveform (data btn))
                   (Z.ones (pulse_count (param btn)))) 0) as [Hup|Hup].
    { intros [= <- <- <-].
      apply classified_quiet; [tauto|exact Hlow|tauto|tauto]. }
    destruct (nonzero v); intros [= <- <- <-];
      (apply classified_quiet;
       [tauto|exact Hlow|tauto|split; [discriminate|contradiction]]).
  - (* latch clear: pressed or quiet *)
    destruct (Z.eqb_spec
                (Z.land (waveform (data btn))
                   (Z.ones (pulse_count (param btn))))
                (Z.ones (pulse_count (param btn)))) as [Hdown|Hdown].
    { intros [= <- <- <-]. apply classified_pressed; [exact Hp|].
      apply land_ones_full; [lia|exact Hdown]. }
    rewrite is_button_released_defined by exact Hdef. rewrite Hp. simpl.
    rewrite is_button_down_defined by exact Hdef. simpl.
    destruct (Z.eqb_spec
                (Z.land (waveform (data btn))
                   (Z.ones (pulse_count (param btn))))
                (Z.ones (pulse_count (param btn)))) as [|_]; [contradiction|].
    rewrite is_button_up_defined by exact Hdef. simpl.
    assert (Hlow : ~ low_bits_set (pulse_count (param btn))
                     (waveform (data btn)))
      by (intros Hs; apply Hdown, land_ones_full; [lia|exact Hs]).
    destruct (Z.eqb_spec
                (Z.land (waveform (data btn))
                   (Z.ones (pulse_count (param btn)))) 0) as [Hup|Hup].
    { intros [= <- <- <-].
      apply classified_quiet; [tauto|exact Hlow| |tauto].
      intros [? _]; congruence. }
    destruct (nonzero v); intros [= <- <- <-];
      (apply classified_quiet;
       [tauto|exact Hlow|intros [? _]; congruence
       |split; [discriminate|contradiction]]).
Qed.

(** What the discriminator leaves alone. *)
Lemma classified_frame (btn : button) (time_ms : Z) (state : button_state_t)
    (event : button_event_t) (btn' : button) :
  classified btn time_ms state event btn' ->
  param btn' = param btn
  /\ get_state btn' = get_state btn
  /\ get_state_ctx btn' = get_state_ctx btn
  /\ callback btn' = callback btn
  /\ callback_ctx btn' = callback_ctx btn
  /\ timestamp btn' = timestamp btn
  /\ allocated btn' = allocated btn
  /\ active btn' = active btn
  /\ waveform (data btn') = waveform (data btn).
Proof.
  destruct 1; simpl; try tauto.
  unfold process_holding.
  destruct (if nonzero (time_repeat (data btn)) then _ else _); simpl; tauto.
Qed.

Lemma process_button_classify_event (btn : button) (time_ms v : Z)
    (state : button_state_t) (event : button_event_t) (btn' : button) :
  process_button_classify btn time_ms v = Some (state, event, btn') ->
  event <> BUTTON_EVT_CLICK.
Proof.
  unfold process_button_classify.
  destruct (is_button_pressed btn) as [[|]|]; simpl; try discriminate.
  { intros [= <- <- <-]. discriminate. }
  destruct (is_button_released btn) as [[|]|]; simpl; try discriminate.
  { intros [= <- <- <-]. discriminate. }
  destruct (is_button_down btn) as [[|]|]; simpl; try discriminate.
  { destruct (process_holding btn time_ms) as [[|] b];
      intros [= <- <- <-]; discriminate. }
  destruct (is_button_up btn) as [[|]|]; simpl; try discriminate.
  { intros [= <- <- <-]. discriminate. }
  destruct (nonzero v); intros [= <- <- <-]; discriminate.
Qed.

(** ** Callbacks in a trace *)

Lemma low_bits_set_masked (n w : Z) :
  0 <= n ->
  low_bits_set n (Z.land w (Z.ones (n + 1))) <-> low_bits_set n w.
Proof.
  intros Hn. unfold low_bits_set.
  split; intros Hs i Hi; specialize (Hs i Hi).
  - rewrite Z.land_spec, Z.ones_spec_low, andb_true_r in Hs by lia. exact Hs.
  - rewrite Z.land_spec, Z.ones_spec_low, andb_true_r by lia. exact Hs.
Qed.

Lemma emits_app (tr tr' : list call) (event : button_event_t) (arg : Z) :
  Forall is_sample tr ->
  emits (tr ++ tr') event arg <-> emits tr' event arg.
Proof.
  intros Hs. unfold emits. split.
  - intros (f & ctx & Hin). exists f, ctx.
    apply in_app_or in Hin. destruct Hin as [Hin|Hin]; [|exact Hin].
    rewrite Forall_forall in Hs. apply list_elem_of_In, Hs in Hin.
    destruct Hin.
  - intros (f & ctx & Hin). exists f, ctx. apply in_or_app. now right.
Qed.

(** With a callback bound, the event of the step is the event emitted
    with argument 0. *)
Lemma emits_step_callbacks (btn : button) (event e : button_event_t) :
  callback btn <> 0 ->
  event <> BUTTON_EVT_CLICK ->
  e <> BUTTON_EVT_NONE ->
  e <> BUTTON_EVT_CLICK ->
  emits (step_callbacks btn event) e 0 <-> event = e.
Proof.
  intros Hcb Hev He1 He2. unfold emits, step_callbacks.
  rewrite (proj2 (nonzero_true _) Hcb). split.
  - intros (f & ctx & Hin).
    destruct event; simpl in Hin;
      repeat (destruct Hin as [Hin|Hin]; [inversion Hin; congruence|]);
      destruct Hin.
  - intros <-. exists (callback btn), (callback_ctx btn).
    destruct event; simpl; try congruence; auto.
Qed.

(** ** Book-keeping of the branches *)

Lemma sub32_diag (t : Z) : sub32 t t = 0.
Proof. unfold sub32, wrap32, wrap. now rewrite Z.sub_diag. Qed.

Lemma process_holding_fires (btn : button) (time_ms : Z) :
  (process_holding btn time_ms).1 = true <->
  (time_repeat (data btn) = 0
   /\ repeat_delay_ms (param btn) <= sub32 time_ms (time_pressed (data btn)))
  \/ (time_repeat (data btn) <> 0
      /\ repeat_rate_ms (param btn)
         <= sub32 time_ms (time_repeat (data btn))).
Proof.
  unfold process_holding.
  destruct (nonzero (time_repeat (data btn))) eqn:Hr.
  - apply nonzero_true in Hr.
    destruct (Z.leb_spec (repeat_rate_ms (param btn))
                (sub32 time_ms (time_repeat (data btn)))); simpl;
      split; try tauto; try discriminate; intros [[? ?]|[? ?]]; try lia;
      contradiction.
  - apply nonzero_false in Hr.
    destruct (Z.leb_spec (repeat_delay_ms (param btn))
                (sub32 time_ms (time_pressed (data btn)))); simpl;
      split; try tauto; try discriminate; intros [[? ?]|[? ?]]; try lia;
      contradiction.
Qed.

Lemma process_holding_instance (btn : button) (time_ms : Z) :
  (process_holding btn time_ms).2
  = if (process_holding btn time_ms).1
    then with_data (set_time_repeat time_ms) btn
    else btn.
Proof.
  unfold process_holding.
  destruct (if nonzero (time_repeat (data btn)) then _ else _); reflexivity.
Qed.

(** The window-reset test, in the words of the specification. *)
Lemma click_window_reset_iff (state : button_state_t) (btn : button)
    (time_ms : Z) :
  click_window_reset state btn time_ms = true <->
  (state <> STATE_PRESSED /\ state <> STATE_DOWN
   /\ state <> STATE_DEBOUNCING)
  /\ click_window_ms (param btn)
     <= sub32 time_ms (time_released (data btn)).
Proof.
  unfold click_window_reset, is_click_window_closed.
  rewrite andb_true_iff, Z.leb_le.
  destruct state; simpl; split; intros [H1 H2];
    try discriminate; try (split; [repeat split; discriminate|exact H2]);
    try (split; [reflexivity|exact H2]); tauto.
Qed.

Lemma click_window_open_on_release (btn : button) (time_ms : Z) :
  0 < click_window_ms (param btn) ->
  click_window_reset STATE_RELEASED (process_released btn time_ms).2 time_ms
  = false.
Proof.
  intros Hw. apply not_true_is_false. rewrite click_window_reset_iff.
  simpl. rewrite sub32_diag. lia.
Qed.


(** ** The step *)

Section EngineFacts.

Variable host : Type.
Variable host_get_state : Z -> Z -> host -> button_level_t * host.
Variable host_callback :
  Z -> button -> button_event_t -> Z -> Z -> host -> host.

Let step := button_step host host_get_state host_callback.
Let process := process_button host host_get_state.
Let levels_of (btn : button) (time_ms : Z) (h : host) :=
  (read_levels host host_get_state
     (Z.to_nat (elapsed_pulses btn time_ms))
     (get_state btn) (get_state_ctx btn) h).1.

Lemma update_state_loop_samples (n : nat) (btn btn' : button)
    (h h' : host) (tr : list call) :
  update_state_loop host host_get_state n btn h = Some (btn', h', tr) ->
  Forall is_sample tr.
Proof.
  revert btn h btn' h' tr.
  induction n as [|n IH]; intros btn h btn' h' tr; simpl.
  - intros [= <- <- <-]. constructor.
  - destruct (get_state btn =? 0); [discriminate|].
    destruct (host_get_state (get_state btn) (get_state_ctx btn) h)
      as [l h1].
    destruct (update_state_loop host host_get_state n _ h1)
      as [[[b2 h2] tr2]|] eqn:Hloop; simpl; [|discriminate].
    intros [= <- <- <-]. constructor; [exact I|].
    eapply IH. exact Hloop.
Qed.

(** [process_button] calls nothing but the level reader, and its event
    is never [CLICK]. *)
Lemma process_button_samples (btn btn' : button) (time_ms : Z)
    (h h' : host) (event : button_event_t) (tr : list call) :
  process btn time_ms h = Some (event, btn', h', tr) ->
  Forall is_sample tr /\ event <> BUTTON_EVT_CLICK.
Proof.
  subst process. unfold process_button.
  destruct (udiv _ _) as [pulses|]; simpl; [|discriminate].
  destruct (negb (nonzero pulses)).
  { intros [= <- <- <- <-]. split; [constructor|discriminate]. }
  unfold update_state.
  destruct (update_state_loop host host_get_state _ btn h)
    as [[[b1 h1] tr1]|] eqn:Hloop; simpl; [|discriminate].
  destruct (get_waveform b1) as [v|]; simpl; [|discriminate].
  destruct (process_button_classify b1 time_ms v)
    as [[[state ev] b2]|] eqn:Hc; simpl; [|discriminate].
  intros [= <- <- <- <-]. split.
  - eapply update_state_loop_samples. exact Hloop.
  - eapply process_button_classify_event. exact Hc.
Qed.

(** An enabled step is [process_button] followed by the callbacks. *)
Lemma button_step_active (btn btn' : button) (time_ms : Z) (h h1 : host)
    (event : button_event_t) (tr : list call) :
  active btn = true ->
  process btn time_ms h = Some (event, btn', h1, tr) ->
  exists h',
    step (Some btn) time_ms h
    = Some (BUTTON_ERROR_NONE, Some btn', h', tr ++ step_callbacks btn' event).
Proof.
  subst step process. intros Hact Hp. unfold button_step.
  rewrite Hact. simpl. rewrite Hp. simpl. unfold step_callbacks.
  destruct (nonzero (callback btn')).
  - destruct event; simpl; rewrite <- ?app_assoc, ?app_nil_r;
      eexists; reflexivity.
  - rewrite andb_false_r, app_nil_r. eexists; reflexivity.
Qed.

(** A defined, enabled step with at least one pulse, in full. *)
Lemma button_step_defined (btn : button) (time_ms : Z) (h : host) :
  active btn = true ->
  well_formed btn ->
  elapsed_pulses btn time_ms <> 0 ->
  let b1 := after_sampling btn (levels_of btn time_ms h) in
  let v :=
    Z.land (waveform (data b1)) (Z.ones (pulse_count (param btn) + 1)) in
  exists state event b2 h1 h' tr,
    process_button_classify b1 time_ms v = Some (state, event, b2)
    /\ classified b1 time_ms state event b2
    /\ Forall is_sample tr
    /\ let btn' :=
         set_timestamp time_ms
           (if click_window_reset state b2 time_ms
            then with_data (set_clicks 0) b2 else b2) in
       process btn time_ms h = Some (event, btn', h1, tr)
       /\ step (Some btn) time_ms h
          = Some (BUTTON_ERROR_NONE, Some btn', h',
                  tr ++ step_callbacks btn' event).
Proof.
  intros Hact Hwf Hp b1 v.
  destruct (process_button_defined host host_get_state btn time_ms h Hwf Hp)
    as (state & event & b2 & Hc & Hpb).
  fold (levels_of btn time_ms h) in Hc, Hpb. fold b1 in Hc, Hpb.
  fold v in Hc.
  destruct (button_step_active _ _ _ _ _ _ _ Hact Hpb) as [h' Hstep].
  exists state, event, b2. do 3 eexists.
  split; [exact Hc|]. split.
  { eapply process_button_classify_classified; [|exact Hc]. apply Hwf. }
  split; [|split; [exact Hpb|exact Hstep]].
  apply (proj1 (process_button_samples _ _ _ _ _ _ _ Hpb)).
Qed.

(** C1. An enabled instance stepped with at least one elapsed sampling
    interval: once the fresh samples are in the waveform, the step
    classifies PRESSED, and emits it when a callback is bound, exactly
    when the pressed latch is false and the low [N] bits of the masked
    waveform are all 1; it classifies and emits RELEASED exactly when
    the latch is true and the waveform under the [N+1]-bit mask equals
    [1 << N]. *)
Theorem step_classifies_pressed_and_released
    (btn : button) (time_ms : Z) (h : host) :
  active btn = true ->
  well_formed btn ->
  elapsed_pulses btn time_ms <> 0 ->
  let N := pulse_count (param btn) in
  let w' := shift_in (waveform (data btn)) (levels_of btn time_ms h) in
  let masked := Z.land w' (2 ^ (N + 1) - 1) in
  exists event btn' h1 tr1 h' tr,
    process btn time_ms h = Some (event, btn', h1, tr1)
    /\ step (Some btn) time_ms h
       = Some (BUTTON_ERROR_NONE, Some btn', h', tr)
    /\ waveform (data btn') = w'
    /\ (event = BUTTON_EVT_PRESSED <->
        pressed btn = false /\ low_bits_set N masked)
    /\ (event = BUTTON_EVT_RELEASED <->
        pressed btn = true /\ masked = 2 ^ N)
    /\ (callback btn <> 0 ->
        (emits tr BUTTON_EVT_PRESSED 0 <-> event = BUTTON_EVT_PRESSED)
        /\ (emits tr BUTTON_EVT_RELEASED 0 <-> event = BUTTON_EVT_RELEASED)).
Proof.
  intros Hact Hwf Hp N w' masked.
  pose proof (pulse_count_range btn (proj1 Hwf)) as HN. fold N in HN.
  destruct (button_step_defined btn time_ms h Hact Hwf Hp)
    as (state & event & b2 & h1 & h' & tr & Hc & Hcls & Hs & Hpb & Hstep).
  pose proof (classified_frame _ _ _ _ _ Hcls) as
    (Hpar & _ & _ & Hcb & _ & _ & _ & _ & Hw).
  assert (Hmask : masked = Z.land w' (Z.ones (N + 1))).
  { subst masked. rewrite Z.ones_equiv. reflexivity. }
  assert (Hlow : low_bits_set N masked <-> low_bits_set N w').
  { rewrite Hmask. apply low_bits_set_masked. lia. }
  assert (Hne : event <> BUTTON_EVT_CLICK)
    by (eapply process_button_classify_event; exact Hc).
  exists event. do 5 eexists.
  split; [exact Hpb|]. split; [exact Hstep|]. split.
  { simpl. destruct (click_window_reset state b2 time_ms); simpl; exact Hw. }
  rewrite Hlow, Hmask.
  assert (Hev :
    (event = BUTTON_EVT_PRESSED <->
     pressed btn = false /\ low_bits_set N w')
    /\ (event = BUTTON_EVT_RELEASED <->
        pressed btn = true /\ Z.land w' (Z.ones (N + 1)) = 2 ^ N)).
  { clear - Hcls. subst N w'.
    inversion Hcls; subst; simpl in *;
      try destruct (process_holding _ _).1;
      repeat split;
      try (intros; discriminate); try tauto;
      try (intros [? ?]; congruence). }
  split; [apply Hev|]. split; [apply Hev|].
  - intros Hcbz.
    assert (Hcb' : callback
              (set_timestamp time_ms
                 (if click_window_reset state b2 time_ms
                  then with_data (set_clicks 0) b2 else b2)) <> 0).
    { simpl. destruct (click_window_reset state b2 time_ms); simpl;
        rewrite Hcb; exact Hcbz. }
    split; rewrite (emits_app _ _ _ _ Hs);
      apply emits_step_callbacks; try assumption; discriminate.
Qed.

(** A step without a pulse, in full. *)
Lemma button_step_without_pulse (btn : button) (time_ms : Z) (h : host) :
  active btn = true ->
  sampling_interval_ms (param btn) <> 0 ->
  elapsed_pulses btn time_ms = 0 ->
  process btn time_ms h = Some (BUTTON_EVT_NONE, btn, h, [])
  /\ step (Some btn) time_ms h = Some (BUTTON_ERROR_NONE, Some btn, h, []).
Proof.
  intros Hact Hs Hp.
  assert (Hpb : process btn time_ms h = Some (BUTTON_EVT_NONE, btn, h, [])).
  { subst process. unfold process_button.
    rewrite udiv_defined by exact Hs. simpl.
    fold (elapsed_pulses btn time_ms). rewrite Hp. reflexivity. }
  split; [exact Hpb|].
  subst step process. unfold button_step. rewrite Hact. simpl.
  rewrite Hpb. reflexivity.
Qed.

(** C6. On an enabled instance, when no whole sampling interval has
    elapsed, [(now_ms - timestamp) / sampling_interval_ms = 0], the step
    returns OK, produces no event, calls nothing, and leaves the
    instance, every field of it, as it was. *)
Theorem step_without_pulse_is_noop (btn : button) (time_ms : Z) (h : host) :
  active btn = true ->
  sampling_interval_ms (param btn) <> 0 ->
  elapsed_pulses btn time_ms = 0 ->
  process btn time_ms h = Some (BUTTON_EVT_NONE, btn, h, [])
  /\ step (Some btn) time_ms h = Some (BUTTON_ERROR_NONE, Some btn, h, []).
Proof. apply button_step_without_pulse. Qed.

(** Every defined, enabled step returns. *)
Lemma button_step_total (btn : button) (time_ms : Z) (h : host) :
  active btn = true ->
  well_formed btn ->
  exists btn' h' tr,
    step (Some btn) time_ms h = Some (BUTTON_ERROR_NONE, Some btn', h', tr).
Proof.
  intros Hact Hwf.
  destruct (Z.eq_dec (elapsed_pulses btn time_ms) 0) as [Hp|Hp].
  - exists btn, h, [].
    apply button_step_without_pulse; [exact Hact|apply Hwf|exact Hp].
  - destruct (button_step_defined btn time_ms h Hact Hwf Hp)
      as (state & event & b2 & h1 & h' & tr & _ & _ & _ & _ & Hstep).
    eauto.
Qed.

(** C7. A step returns INVALID_PARAM exactly for the null handle;
    otherwise DISABLED exactly when the active flag is false; otherwise
    OK. In the first two cases the instance is handed back as it was,
    the level reader is not called and no callback runs. *)
Theorem step_error_codes (btn : option button) (time_ms : Z) (h : host) :
  (btn = None ->
   step btn time_ms h = Some (BUTTON_ERROR_INVALID_PARAM, None, h, []))
  /\ (forall b, btn = Some b -> active b = false ->
      step btn time_ms h = Some (BUTTON_ERROR_DISABLED, Some b, h, []))
  /\ (forall b, btn = Some b -> active b = true -> well_formed b ->
      exists b' h' tr,
        step btn time_ms h = Some (BUTTON_ERROR_NONE, Some b', h', tr))
  /\ (forall e b' h' tr,
      step btn time_ms h = Some (e, b', h', tr) ->
      (e = BUTTON_ERROR_INVALID_PARAM <-> btn = None)
      /\ (e = BUTTON_ERROR_DISABLED <->
          exists b, btn = Some b /\ active b = false)
      /\ (e = BUTTON_ERROR_NONE <->
          exists b, btn = Some b /\ active b = true)
      /\ (e <> BUTTON_ERROR_NONE -> b' = btn /\ h' = h /\ tr = [])).
Proof.
  split; [|split; [|split]].
  - intros ->. reflexivity.
  - intros b -> Hact. subst step. unfold button_step. now rewrite Hact.
  - intros b -> Hact Hwf. now apply button_step_total.
  - intros e b' h' tr. subst step. destruct btn as [b|]; simpl.
    + destruct (active b) eqn:Hact; simpl.
      * destruct (process_button host host_get_state b time_ms h)
          as [[[[ev b1] h1] tr1]|]; simpl; [|discriminate].
        intros Hres.
        assert (He : e = BUTTON_ERROR_NONE).
        { destruct (bool_decide (ev <> BUTTON_EVT_NONE)
                    && nonzero (callback b1));
            [destruct (bool_decide (ev = BUTTON_EVT_RELEASED))|];
            now inversion Hres. }
        subst e. repeat split; try discriminate; try congruence.
        -- intros (b0 & [= <-] & Hb0). congruence.
        -- eauto.
      * intros [= <- <- <- <-].
        repeat split; try discriminate; try congruence; eauto.
        intros (b0 & [= <-] & Hb0). congruence.
    + intros [= <- <- <- <-].
      repeat split; try discriminate; try congruence.
      * intros (b0 & Hb0 & _). discriminate.
      * intros (b0 & Hb0 & _). discriminate.
Qed.

(** C4. In a step whose classification is DOWN, HOLDING fires exactly
    when either no repeat was issued yet ([time_repeat = 0]) and
    [now_ms - time_pressed >= repeat_delay_ms], or one was and
    [now_ms - time_repeat >= repeat_rate_ms]; when it fires,
    [time_repeat] becomes [now_ms]. DOWN means the latch is set, the low
    [N] bits are all 1 and the waveform is not the release pattern. *)
Theorem holding_fires_on_schedule
    (btn : button) (time_ms : Z) (h : host)
    (event : button_event_t) (b2 : button) :
  active btn = true ->
  well_formed btn ->
  elapsed_pulses btn time_ms <> 0 ->
  let N := pulse_count (param btn) in
  let b1 := after_sampling btn (levels_of btn time_ms h) in
  let v := Z.land (waveform (data b1)) (Z.ones (N + 1)) in
  process_button_classify b1 time_ms v = Some (STATE_DOWN, event, b2) ->
  let due :=
    (time_repeat (data btn) = 0
     /\ repeat_delay_ms (param btn)
        <= sub32 time_ms (time_pressed (data btn)))
    \/ (time_repeat (data btn) <> 0
        /\ repeat_rate_ms (param btn)
           <= sub32 time_ms (time_repeat (data btn))) in
  exists btn' h1 tr1 h' tr,
    process btn time_ms h = Some (event, btn', h1, tr1)
    /\ step (Some btn) time_ms h
       = Some (BUTTON_ERROR_NONE, Some btn', h', tr)
    /\ (pressed btn = true /\ low_bits_set N (waveform (data btn'))
        /\ v <> 2 ^ N)
    /\ (event = BUTTON_EVT_HOLDING \/ event = BUTTON_EVT_NONE)
    /\ (event = BUTTON_EVT_HOLDING <-> due)
    /\ (event = BUTTON_EVT_HOLDING -> time_repeat (data btn') = time_ms)
    /\ (event = BUTTON_EVT_NONE ->
        time_repeat (data btn') = time_repeat (data btn))
    /\ (callback btn <> 0 -> (emits tr BUTTON_EVT_HOLDING 0 <-> due)).
Proof.
  intros Hact Hwf Hp N b1 v Hdown due.
  destruct (button_step_defined btn time_ms h Hact Hwf Hp)
    as (state & ev & b2' & h1 & h' & tr & Hc & Hcls & Hs & Hpb & Hstep).
  fold b1 in Hc, Hcls. fold N in Hc. fold v in Hc.
  rewrite Hdown in Hc. injection Hc as <- <- <-.
  change (click_window_reset STATE_DOWN b2 time_ms) with false
    in Hpb, Hstep.
  assert (Hne : event <> BUTTON_EVT_CLICK)
    by (eapply process_button_classify_event; exact Hdown).
  pose proof (process_holding_fires b1 time_ms) as Hfires.
  pose proof (process_holding_instance b1 time_ms) as Hinst.
  simpl in Hfires. fold due in Hfires.
  assert (Hfacts :
    pressed btn = true
    /\ low_bits_set N (waveform (data b1))
    /\ v <> 2 ^ N
    /\ event = (if (process_holding b1 time_ms).1
                then BUTTON_EVT_HOLDING else BUTTON_EVT_NONE)
    /\ b2 = (process_holding b1 time_ms).2).
  { clear - Hcls. subst v N. inversion Hcls; subst; simpl in *.
    - tauto.
    - destruct H as [[=]|[[=]|[=]]]. }
  destruct Hfacts as (Hlatch & Hlow & Hv & Hev & Hb2).
  assert (Hdue : event = BUTTON_EVT_HOLDING <-> due).
  { rewrite <- Hfires, Hev.
    destruct (process_holding b1 time_ms).1; split;
      congruence || discriminate. }
  exists (set_timestamp time_ms b2), h1, tr, h'. eexists.
  split; [exact Hpb|]. split; [exact Hstep|].
  rewrite Hb2, Hinst. split.
  { split; [exact Hlatch|]. split; [|exact Hv].
    destruct (process_holding b1 time_ms).1; exact Hlow. }
  split; [rewrite Hev; destruct (process_holding b1 time_ms).1; auto|].
  split; [exact Hdue|].
  split; [|split].
  - rewrite Hev. destruct (process_holding b1 time_ms).1;
      [reflexivity|discriminate].
  - rewrite Hev. destruct (process_holding b1 time_ms).1;
      [discriminate|reflexivity].
  - intros Hcb. rewrite <- Hdue, (emits_app _ _ _ _ Hs).
    apply emits_step_callbacks; try assumption; try discriminate.
    destruct (process_holding b1 time_ms).1; exact Hcb.
Qed.

(** C5. In a step that processes at least one pulse, [clicks] is set
    to 0 exactly when the state the classification produced is none of
    PRESSED, DOWN, DEBOUNCING and [now_ms - time_released >=
    click_window_ms], with [time_released] as the classification left
    it; otherwise [clicks] is as before the step, but for the increment
    done on RELEASED. *)
Theorem clicks_reset_rule (btn : button) (time_ms : Z) (h : host) :
  active btn = true ->
  well_formed btn ->
  elapsed_pulses btn time_ms <> 0 ->
  let b1 := after_sampling btn (levels_of btn time_ms h) in
  let v :=
    Z.land (waveform (data b1)) (Z.ones (pulse_count (param btn) + 1)) in
  exists state event b2 btn' h1 tr1 h' tr,
    process_button_classify b1 time_ms v = Some (state, event, b2)
    /\ process btn time_ms h = Some (event, btn', h1, tr1)
    /\ step (Some btn) time_ms h
       = Some (BUTTON_ERROR_NONE, Some btn', h', tr)
    /\ time_released (data b2)
       = (if decide (state = STATE_RELEASED)
          then time_ms else time_released (data btn))
    /\ let reset :=
         (state <> STATE_PRESSED /\ state <> STATE_DOWN
          /\ state <> STATE_DEBOUNCING)
         /\ click_window_ms (param btn)
            <= sub32 time_ms (time_released (data b2)) in
       (click_window_reset state b2 time_ms = true <-> reset)
       /\ (reset -> clicks (data btn') = 0)
       /\ (~ reset ->
           clicks (data btn')
           = if decide (state = STATE_RELEASED)
             then wrap8 (clicks (data btn) + 1)
             else clicks (data btn)).
Proof.
  intros Hact Hwf Hp b1 v.
  destruct (button_step_defined btn time_ms h Hact Hwf Hp)
    as (state & event & b2 & h1 & h' & tr & Hc & Hcls & Hs & Hpb & Hstep).
  fold b1 in Hc, Hcls. fold v in Hc.
  pose proof (classified_frame _ _ _ _ _ Hcls) as (Hpar & _).
  pose proof (click_window_reset_iff state b2 time_ms) as Hiff.
  rewrite Hpar in Hiff. simpl in Hiff.
  exists state, event, b2. do 5 eexists.
  split; [exact Hc|]. split; [exact Hpb|]. split; [exact Hstep|].
  assert (Hfields :
    time_released (data b2)
    = (if decide (state = STATE_RELEASED)
       then time_ms else time_released (data btn))
    /\ clicks (data b2)
       = (if decide (state = STATE_RELEASED)
          then wrap8 (clicks (data btn) + 1) else clicks (data btn))).
  { clear - Hcls. inversion Hcls; subst; simpl.
    - tauto.
    - tauto.
    - rewrite process_holding_instance.
      destruct (process_holding b1 time_ms).1; simpl; tauto.
    - destruct H as [-> | [-> | ->]]; simpl; tauto. }
  destruct Hfields as [Htr Hcl].
  split; [exact Htr|]. split; [exact Hiff|]. split.
  - intros Hreset. apply Hiff in Hreset. rewrite Hreset. reflexivity.
  - intros Hreset.
    destruct (click_window_reset state b2 time_ms) eqn:Hr.
    + exfalso. apply Hreset, Hiff. reflexivity.
    + simpl. exact Hcl.
Qed.

(** A step whose event is RELEASED, on parameters with an open click
    window: the counter is incremented, not reset, and the callbacks
    follow the samples. *)
Lemma released_step (btn btn' : button) (time_ms : Z) (h h1 : host)
    (tr1 : list call) :
  active btn = true ->
  well_formed btn ->
  0 < click_window_ms (param btn) ->
  process btn time_ms h = Some (BUTTON_EVT_RELEASED, btn', h1, tr1) ->
  Forall is_sample tr1
  /\ clicks (data btn') = wrap8 (clicks (data btn) + 1)
  /\ callback btn' = callback btn
  /\ callback_ctx btn' = callback_ctx btn
  /\ exists h',
      step (Some btn) time_ms h
      = Some (BUTTON_ERROR_NONE, Some btn', h',
              tr1 ++ step_callbacks btn' BUTTON_EVT_RELEASED).
Proof.
  intros Hact Hwf Hw Hrel.
  assert (Hp : elapsed_pulses btn time_ms <> 0).
  { intros Hp.
    destruct (button_step_without_pulse btn time_ms h Hact
                (proj1 (proj1 Hwf)) Hp) as [Hnone _].
    rewrite Hnone in Hrel. discriminate. }
  destruct (button_step_defined btn time_ms h Hact Hwf Hp)
    as (state & event & b2 & h1' & h' & tr & Hc & Hcls & Hs & Hpb & Hstep).
  rewrite Hrel in Hpb. injection Hpb as <- -> <- <-.
  assert (Hb2 : state = STATE_RELEASED
                /\ b2 = (process_released
                           (after_sampling btn (levels_of btn time_ms h))
                           time_ms).2).
  { clear - Hcls. inversion Hcls as [| |? ? ? Hev|]; subst.
    - tauto.
    - destruct (process_holding _ _).1; discriminate. }
  destruct Hb2 as [-> ->].
  rewrite click_window_open_on_release in * by exact Hw.
  split; [exact Hs|]. do 3 (split; [reflexivity|]).
  exists h'. exact Hstep.
Qed.


(** [clicks] is an 8-bit counter: a step whose event is RELEASED leaves
    [(clicks + 1) mod 256]; from 255 it wraps to 0 and the CLICK callback
    of that step carries 0. *)
Lemma release_from_255_wraps (btn btn' : button) (time_ms : Z) (h h1 : host)
    (tr1 : list call) :
  active btn = true ->
  well_formed btn ->
  0 < click_window_ms (param btn) ->
  process btn time_ms h = Some (BUTTON_EVT_RELEASED, btn', h1, tr1) ->
  clicks (data btn') = (clicks (data btn) + 1) mod 256
  /\ (clicks (data btn) = 255 ->
      clicks (data btn') = 0
      /\ (callback btn <> 0 ->
          exists h',
            step (Some btn) time_ms h
            = Some (BUTTON_ERROR_NONE, Some btn', h',
                    tr1 ++
                    [CallCallback (callback btn) BUTTON_EVT_RELEASED 0
                       (callback_ctx btn);
                     CallCallback (callback btn) BUTTON_EVT_CLICK 0
                       (callback_ctx btn)]))).
Proof.
  intros Hact Hwf Hw Hrel.
  destruct (released_step _ _ _ _ _ _ Hact Hwf Hw Hrel)
    as (Hs & Hcl & Hcb' & Hctx & h' & Hstep).
  split; [exact Hcl|]. intros H255.
  assert (H0 : clicks (data btn') = 0) by (rewrite Hcl, H255; reflexivity).
  split; [exact H0|]. intros Hcb. exists h'. rewrite Hstep.
  unfold step_callbacks. rewrite Hcb', Hctx, H0.
  rewrite (proj2 (nonzero_true _) Hcb). reflexivity.
Qed.

End EngineFacts.

(** ** Parameter management *)

Lemma get_min_pressed_pulse_count_divisor (btn : button) :
  sampling_interval_ms (param btn) <> 0 ->
  get_min_pressed_pulse_count btn = Some (pulse_count (param btn)).
Proof.
  intros Hs. unfold get_min_pressed_pulse_count.
  rewrite udiv_defined by exact Hs. reflexivity.
Qed.

(** The quotient of the claim is the pulse count whenever it fits the
    [uint16_t] the code returns. *)
Lemma pulse_count_quotient (p : button_param) :
  0 <= min_press_time_ms p / sampling_interval_ms p < 2 ^ 16 ->
  pulse_count p = min_press_time_ms p / sampling_interval_ms p.
Proof. intros Hq. unfold pulse_count, wrap16. now apply wrap_small. Qed.

(** What [is_param_ok] accepts: four non-zero durations, a press time not
    below the sampling interval, and a pulse count, the one it is handed,
    below [bits(waveform) - 2]. *)
Lemma is_param_ok_iff (p : button_param) (min_pulse_count : Z) :
  is_param_ok p min_pulse_count = true <->
  sampling_interval_ms p <> 0
  /\ repeat_delay_ms p <> 0
  /\ repeat_rate_ms p <> 0
  /\ click_window_ms p <> 0
  /\ sampling_interval_ms p <= min_press_time_ms p
  /\ min_pulse_count < WAVEFORM_BITS - 2.
Proof.
  unfold is_param_ok, nonzero, WAVEFORM_BITS, wrap16, wrap.
  change ((32 - 2) mod 2 ^ 16) with 30. rewrite !negb_involutive.
  destruct (Z.eqb_spec (sampling_interval_ms p) 0);
    destruct (Z.eqb_spec (repeat_delay_ms p) 0);
    destruct (Z.eqb_spec (repeat_rate_ms p) 0);
    destruct (Z.eqb_spec (click_window_ms p) 0); simpl;
    try (split; [discriminate|tauto]).
  destruct (Z.ltb_spec (min_press_time_ms p) (sampling_interval_ms p));
    [split; [discriminate|lia]|].
  destruct (Z.leb_spec 30 min_pulse_count);
    [split; [discriminate|lia]|].
  split; [intros _; repeat split; assumption || lia|reflexivity].
Qed.

(** C8. When the validation of [set_param] fails, it returns
    INCORRECT_PARAM and the instance is as before the call; when it
    succeeds, the five fields of the candidate are copied into the
    instance, nothing else changes, and OK is returned; a null instance
    or a null parameter pointer yields INVALID_PARAM and nothing
    changes. *)
Theorem set_param_validates_then_copies
    (btn : option button) (p : option button_param) :
  (btn = None \/ p = None ->
   button_set_param btn p = Some (BUTTON_ERROR_INVALID_PARAM, btn))
  /\ (forall b q,
       btn = Some b -> p = Some q ->
       sampling_interval_ms (param b) <> 0 ->
       (is_param_ok q (pulse_count (param b)) = false ->
        button_set_param btn p = Some (BUTTON_ERROR_INCORRECT_PARAM, Some b))
       /\ (is_param_ok q (pulse_count (param b)) = true ->
           exists b',
             button_set_param btn p = Some (BUTTON_ERROR_NONE, Some b')
             /\ sampling_interval_ms (param b') = sampling_interval_ms q
             /\ min_press_time_ms (param b') = min_press_time_ms q
             /\ repeat_delay_ms (param b') = repeat_delay_ms q
             /\ repeat_rate_ms (param b') = repeat_rate_ms q
             /\ click_window_ms (param b') = click_window_ms q
             /\ data b' = data b
             /\ get_state b' = get_state b
             /\ get_state_ctx b' = get_state_ctx b
             /\ callback b' = callback b
             /\ callback_ctx b' = callback_ctx b
             /\ timestamp b' = timestamp b
             /\ allocated b' = allocated b
             /\ active b' = active b
             /\ pressed b' = pressed b)).
Proof.
  split.
  - intros [->| ->]; [reflexivity|]. destruct btn; reflexivity.
  - intros b q -> -> Hs. unfold button_set_param.
    rewrite get_min_pressed_pulse_count_divisor by exact Hs. simpl.
    split; intros Hok; rewrite Hok; simpl; [reflexivity|].
    eexists. split; [reflexivity|]. simpl. tauto.
Qed.

(** C2, at a failing input: a candidate with [N = 100] handed to an
    instance that holds the defaults ([N = 6]) is installed with OK,
    because the pulse count that [button_set_param] has checked is the one
    of the parameters in place. The next step of that instance shifts by
    101 and is undefined. *)
Example set_param_installs_long_press :
  let cand := mk_param 10 1000 300 200 500 in
  min_press_time_ms cand / sampling_interval_ms cand = 100
  /\ button_set_param (Some Script.fresh) (Some cand)
     = Some (BUTTON_ERROR_NONE, Some (set_param_block cand Script.fresh))
  /\ Script.step (Some (set_param_block cand Script.fresh)) 10 [] = None.
Proof. repeat split. Qed.

(** X10. [button_set_param] hands [is_param_ok] the pulse count of the
    instance, not of the candidate: a candidate is installed exactly when
    its four checked durations are non-zero, its press time is not below
    its sampling interval, and the pulse count of the parameters in place
    is below [bits(waveform) - 2]. *)
Lemma set_param_checks_instance_pulse_count (b : button) (q : button_param) :
  sampling_interval_ms (param b) <> 0 ->
  button_set_param (Some b) (Some q)
  = Some (BUTTON_ERROR_NONE, Some (set_param_block q b)) <->
  sampling_interval_ms q <> 0
  /\ repeat_delay_ms q <> 0
  /\ repeat_rate_ms q <> 0
  /\ click_window_ms q <> 0
  /\ sampling_interval_ms q <= min_press_time_ms q
  /\ pulse_count (param b) < WAVEFORM_BITS - 2.
Proof.
  intros Hs. rewrite <- is_param_ok_iff. unfold button_set_param.
  rewrite get_min_pressed_pulse_count_divisor by exact Hs. simpl.
  destruct (is_param_ok q (pulse_count (param b))); simpl;
    split; congruence.
Qed.

(** ** What a step leaves alone, defined parameters or not *)

Lemma process_button_classify_frame (btn : button) (time_ms v : Z)
    (state : button_state_t) (event : button_event_t) (btn' : button) :
  process_button_classify btn time_ms v = Some (state, event, btn') ->
  same_binding btn btn'.
Proof.
  unfold process_button_classify, same_binding.
  destruct (is_button_pressed btn) as [[|]|]; simpl; try discriminate.
  { intros [= <- <- <-]. simpl. tauto. }
  destruct (is_button_released btn) as [[|]|]; simpl; try discriminate.
  { intros [= <- <- <-]. simpl. tauto. }
  destruct (is_button_down btn) as [[|]|]; simpl; try discriminate.
  { pose proof (process_holding_instance btn time_ms) as Hi.
    destruct (process_holding btn time_ms) as [[|] b]; simpl in Hi;
      intros [= <- <- <-]; subst b; simpl; tauto. }
  destruct (is_button_up btn) as [[|]|]; simpl; try discriminate.
  { intros [= <- <- <-]. tauto. }
  destruct (nonzero v); intros [= <- <- <-]; tauto.
Qed.

Section Frame.

Variable host : Type.
Variable host_get_state : Z -> Z -> host -> button_level_t * host.
Variable host_callback :
  Z -> button -> button_event_t -> Z -> Z -> host -> host.

Lemma update_state_loop_frame (n : nat) (btn btn' : button)
    (h h' : host) (tr : list call) :
  update_state_loop host host_get_state n btn h = Some (btn', h', tr) ->
  exists w, btn' = with_data (set_waveform w) btn.
Proof.
  revert btn h btn' h' tr.
  induction n as [|n IH]; intros btn h btn' h' tr; simpl.
  - intros [= <- <- <-]. exists (waveform (data btn)).
    symmetry. apply with_data_id.
  - destruct (get_state btn =? 0); [discriminate|].
    destruct (host_get_state (get_state btn) (get_state_ctx btn) h)
      as [l h1].
    destruct (update_state_loop host host_get_state n _ h1)
      as [[[b2 h2] tr2]|] eqn:Hloop; simpl; [|discriminate].
    intros [= <- <- <-]. apply IH in Hloop as [w ->].
    exists w. reflexivity.
Qed.

Lemma process_button_frame (btn btn' : button) (time_ms : Z)
    (h h' : host) (event : button_event_t) (tr : list call) :
  process_button host host_get_state btn time_ms h
  = Some (event, btn', h', tr) ->
  same_binding btn btn'.
Proof.
  unfold process_button.
  destruct (udiv _ _) as [pulses|]; simpl; [|discriminate].
  destruct (negb (nonzero pulses)).
  { intros [= <- <- <- <-]. unfold same_binding. tauto. }
  unfold update_state.
  destruct (update_state_loop host host_get_state _ btn h)
    as [[[b1 h1] tr1]|] eqn:Hloop; simpl; [|discriminate].
  destruct (get_waveform b1) as [v|]; simpl; [|discriminate].
  destruct (process_button_classify b1 time_ms v)
    as [[[state ev] b2]|] eqn:Hc; simpl; [|discriminate].
  intros [= <- <- <- <-].
  apply update_state_loop_frame in Hloop as [w ->].
  apply process_button_classify_frame in Hc.
  unfold same_binding in *.
  destruct (click_window_reset state b2 time_ms); simpl in *; tauto.
Qed.

Lemma button_step_frame (btn : button) (ob : option button)
    (time_ms : Z) (h h' : host) (e : button_error_t) (tr : list call) :
  button_step host host_get_state host_callback (Some btn) time_ms h
  = Some (e, ob, h', tr) ->
  exists btn', ob = Some btn' /\ same_binding btn btn'.
Proof.
  unfold button_step. destruct (negb (active btn)).
  { intros [= <- <- <- <-]. exists btn. unfold same_binding. tauto. }
  destruct (process_button host host_get_state btn time_ms h)
    as [[[[ev b1] h1] tr1]|] eqn:Hpb; simpl; [|discriminate].
  apply process_button_frame in Hpb.
  destruct (bool_decide (ev <> BUTTON_EVT_NONE) && nonzero (callback b1));
    [destruct (bool_decide (ev = BUTTON_EVT_RELEASED))|];
    intros [= <- <- <- <-]; eauto.
Qed.

End Frame.

(** ** Runs of steps *)

Lemma released_count_app (tr tr' : list call) :
  released_count (tr ++ tr') = (released_count tr + released_count tr')%nat.
Proof.
  induction tr as [|c tr IH]; [reflexivity|].
  destruct c as [|f [] a ctx]; simpl; rewrite IH; reflexivity.
Qed.

Lemma click_args_app (tr tr' : list call) :
  click_args (tr ++ tr') = click_args tr ++ click_args tr'.
Proof.
  induction tr as [|c tr IH]; [reflexivity|].
  destruct c as [|f [] a ctx]; simpl; rewrite IH; reflexivity.
Qed.

Lemma samples_hold_no_callback (tr : list call) :
  Forall is_sample tr -> released_count tr = O /\ click_args tr = [].
Proof.
  induction 1 as [|c tr Hc _ IH]; [auto|].
  destruct c; [exact IH|destruct Hc].
Qed.

Lemma wrap8_succ (c : Z) (j : nat) :
  wrap8 (wrap8 (c + 1) + Z.of_nat j) = wrap8 (c + Z.of_nat (S j)).
Proof.
  unfold wrap8, wrap. rewrite Z.add_mod_idemp_l by discriminate.
  f_equal. lia.
Qed.

Lemma same_binding_well_formed (b b' : button) :
  same_binding b b' -> well_formed b -> well_formed b'.
Proof.
  intros (Hp & Hg & _) [Hdef Hget]. split; congruence.
Qed.

Section RunFacts.

Variable host : Type.
Variable host_get_state : Z -> Z -> host -> button_level_t * host.
Variable host_callback :
  Z -> button -> button_event_t -> Z -> Z -> host -> host.

Let step := button_step host host_get_state host_callback.
Let steps := button_steps host host_get_state host_callback.
Let fires := window_reset_fires host host_get_state.
Let quiet := no_window_reset host host_get_state host_callback.

(** One step that does not reset the counter: either it delivers no
    RELEASED and no CLICK and keeps [clicks], or it delivers one of each,
    the CLICK carrying the incremented counter. *)
Lemma step_counts_release (btn : button) (ob : option button)
    (time_ms : Z) (h h1 : host) (e : button_error_t) (tr : list call) :
  active btn = true ->
  well_formed btn ->
  callback btn <> 0 ->
  fires btn time_ms h = false ->
  step (Some btn) time_ms h = Some (e, ob, h1, tr) ->
  exists btn',
    ob = Some btn'
    /\ same_binding btn btn'
    /\ ((released_count tr = O /\ click_args tr = []
         /\ clicks (data btn') = clicks (data btn))
        \/ (released_count tr = 1%nat
            /\ click_args tr = [wrap8 (clicks (data btn) + 1)]
            /\ clicks (data btn') = wrap8 (clicks (data btn) + 1))).
Proof.
  subst step fires. intros Hact Hwf Hcb Hq Hstep.
  destruct (button_step_frame _ _ _ _ _ _ _ _ _ _ Hstep)
    as (btn' & -> & Hsame).
  exists btn'. split; [reflexivity|]. split; [exact Hsame|].
  destruct (Z.eq_dec (elapsed_pulses btn time_ms) 0) as [Hp|Hp].
  { destruct (button_step_without_pulse host host_get_state host_callback
                btn time_ms h Hact (proj1 (proj1 Hwf)) Hp) as [_ Hnoop].
    rewrite Hnoop in Hstep. injection Hstep as <- <- <- <-. auto. }
  destruct (button_step_defined host host_get_state host_callback
              btn time_ms h Hact Hwf Hp)
    as (state & event & b2 & h1' & h' & tr1 & Hc & Hcls & Hs & Hpb & Hstep').
  (* the test of line 278 came out false *)
  assert (Hr : click_window_reset state b2 time_ms = false).
  { unfold window_reset_fires in Hq.
    rewrite udiv_defined in Hq by apply Hwf.
    fold (elapsed_pulses btn time_ms) in Hq.
    rewrite (proj2 (nonzero_true _) Hp) in Hq.
    rewrite update_state_defined in Hq by exact Hwf.
    cbv zeta in Hq. simpl in Hq.
    change (Z.land (shift_in _ _) _)
      with (Z.land
              (waveform
                 (data
                    (after_sampling btn
                       (read_levels host host_get_state
                          (Z.to_nat (elapsed_pulses btn time_ms))
                          (get_state btn) (get_state_ctx btn) h).1)))
              (Z.ones (pulse_count (param btn) + 1))) in Hq.
    rewrite Hc in Hq. exact Hq. }
  rewrite Hr in Hstep'. rewrite Hstep in Hstep'.
  injection Hstep' as -> -> -> ->.
  rewrite released_count_app, click_args_app.
  destruct (samples_hold_no_callback _ Hs) as [-> ->].
  simpl (0 + _)%nat. simpl ([] ++ _).
  pose proof (classified_frame _ _ _ _ _ Hcls) as
    (_ & _ & _ & Hcb2 & _).
  unfold step_callbacks. simpl (callback _). rewrite Hcb2. simpl (callback _).
  rewrite (proj2 (nonzero_true _) Hcb).
  clear - Hcls. inversion Hcls; subst; simpl.
  - left. auto.
  - right. auto.
  - rewrite process_holding_instance.
    destruct (process_holding _ _).1; simpl; left; auto.
  - left. auto.
Qed.

Lemma run_counts_releases (ts : list Z) (btn btn' : button) (h h' : host)
    (tr : list call) :
  active btn = true ->
  well_formed btn ->
  callback btn <> 0 ->
  0 <= clicks (data btn) < 256 ->
  quiet ts btn h = true ->
  steps ts btn h = Some (btn', h', tr) ->
  clicks (data btn')
  = wrap8 (clicks (data btn) + Z.of_nat (released_count tr))
  /\ click_args tr
     = map (fun j => wrap8 (clicks (data btn) + Z.of_nat j))
         (seq 1 (released_count tr)).
Proof.
  subst steps quiet. revert btn h tr.
  induction ts as [|time_ms ts IH]; intros btn h tr Hact Hwf Hcb Hrange Hq.
  - intros [= <- <- <-]. simpl. split; [|reflexivity].
    rewrite Z.add_0_r. unfold wrap8. now rewrite wrap_small.
  - cbn -[button_step window_reset_fires] in Hq.
    apply andb_true_iff in Hq as [Hfires Hq].
    apply negb_true_iff in Hfires.
    cbn -[button_step].
    destruct (button_step host host_get_state host_callback (Some btn)
                time_ms h) as [[[[e ob] h1] tr1]|] eqn:Hstep;
      [|discriminate].
    destruct (step_counts_release btn ob time_ms h h1 e tr1
                Hact Hwf Hcb Hfires Hstep)
      as (b1 & -> & Hsame & Hcount).
    cbn -[button_step].
    destruct (button_steps host host_get_state host_callback ts b1 h1)
      as [[[b2 h2] tr2]|] eqn:Hrun; [|discriminate].
    intros [= <- <- <-].
    pose proof (same_binding_well_formed _ _ Hsame Hwf) as Hwf1.
    destruct Hsame as (_ & _ & _ & Hcb1 & _ & _ & Hact1).
    rewrite released_count_app, click_args_app.
    destruct Hcount as [(Hn & Ha & Hc)|(Hn & Ha & Hc)];
      rewrite Hn, Ha.
    + destruct (IH b1 h1 tr2) as [IHc IHa]; try congruence.
      rewrite Hc in IHc, IHa. auto.
    + assert (Hrange1 : 0 <= clicks (data b1) < 256).
      { rewrite Hc. unfold wrap8. apply (wrap_range 8). lia. }
      destruct (IH b1 h1 tr2) as [IHc IHa]; try congruence.
      rewrite Hc in IHc, IHa. split.
      * rewrite IHc. apply wrap8_succ.
      * rewrite IHa. simpl. f_equal.
        rewrite <- (seq_shift _ 1), map_map. apply map_ext.
        intros j. apply wrap8_succ.
Qed.

(** C10. [clicks] counts the releases modulo 256. Along any run of steps
    in which the click window never resets it, the counter ends at the
    initial value plus the number of RELEASED events, modulo 256, and the
    k-th CLICK carries the initial value plus k, modulo 256. From 0, the
    256th release leaves 0 in the counter and its CLICK carries 0. *)
Theorem clicks_count_releases_modulo_256
    (ts : list Z) (btn btn' : button) (h h' : host) (tr : list call) :
  active btn = true ->
  well_formed btn ->
  callback btn <> 0 ->
  0 <= clicks (data btn) < 256 ->
  quiet ts btn h = true ->
  steps ts btn h = Some (btn', h', tr) ->
  clicks (data btn')
  = (clicks (data btn) + Z.of_nat (released_count tr)) mod 256
  /\ click_args tr
     = map (fun j => (clicks (data btn) + Z.of_nat j) mod 256)
         (seq 1 (released_count tr))
  /\ (clicks (data btn) = 0 ->
      released_count tr = 256%nat ->
      clicks (data btn') = 0 /\ last (click_args tr) = Some 0).
Proof.
  intros Hact Hwf Hcb Hrange Hq Hrun.
  destruct (run_counts_releases ts btn btn' h h' tr
              Hact Hwf Hcb Hrange Hq Hrun) as [Hc Ha].
  split; [exact Hc|]. split; [exact Ha|].
  intros H0 H256. rewrite Hc, Ha, H0, H256. split; reflexivity.
Qed.

End RunFacts.

(** ** The pool *)

Import Pool.

Lemma pool_inv_initial : pool_inv initial.
Proof.
  intros i b Hl _. unfold initial in Hl.
  apply lookup_replicate in Hl as [-> _]. reflexivity.
Qed.

Lemma pool_inv_insert (btns : list button) (j : nat) (b' : button) :
  pool_inv btns ->
  (allocated b' = false -> b' = zero_button) ->
  pool_inv (<[j := b']> btns).
Proof.
  intros Hinv Hb' i b Hl Ha. rewrite list_lookup_insert in Hl.
  destruct (decide (j = i /\ (j < length btns)%nat)) as [_|_].
  - injection Hl as <-. auto.
  - eauto.
Qed.

Lemma slot_inactive_insert (btns : list button) (i j : nat) (b' : button) :
  slot_inactive btns i ->
  (j = i -> active b' = false) ->
  slot_inactive (<[j := b']> btns) i.
Proof.
  intros (b & Hl & Hb) Hj. unfold slot_inactive.
  destruct (decide (j = i)) as [->|Hne].
  - exists b'. split; [|auto].
    apply list_lookup_insert_eq. eapply lookup_lt_Some. exact Hl.
  - exists b. split; [|exact Hb]. rewrite list_lookup_insert_ne; auto.
Qed.

Lemma new_button_loop_found (n i j : nat) (btns btns' : list button) :
  new_button_loop n i btns = (Some j, btns') ->
  exists b,
    btns !! j = Some b /\ allocated b = false
    /\ btns' = <[j := set_allocated true b]> btns.
Proof.
  revert i. induction n as [|n IH]; intros i; simpl; [discriminate|].
  destruct (btns !! i) as [p|] eqn:Hl; [|discriminate].
  destruct (allocated p) eqn:Ha; simpl.
  - apply IH.
  - intros [= <- <-]. eauto.
Qed.

Lemma new_button_loop_full (n i : nat) (btns btns' : list button) :
  new_button_loop n i btns = (None, btns') -> btns' = btns.
Proof.
  revert i. induction n as [|n IH]; intros i; simpl; [congruence|].
  destruct (btns !! i) as [p|]; [|congruence].
  destruct (allocated p); simpl; [apply IH|discriminate].
Qed.

Lemma alter_insert (f : button -> button) (btns : list button) (j : nat)
    (b : button) :
  alter f j (<[j := b]> btns) = <[j := f b]> btns.
Proof.
  rewrite !list_insert_alter, list_alter_alter_eq. reflexivity.
Qed.

Lemma button_new_found (btns btns' : list button)
    (f_get f_get_ctx cb cb_ctx : Z) (j : nat) :
  button_new btns f_get f_get_ctx cb cb_ctx = (Some j, btns') ->
  f_get <> 0
  /\ exists b,
      btns !! j = Some b /\ allocated b = false
      /\ btns' = <[j := set_param_block get_default_param
                          (bind_functions f_get f_get_ctx cb cb_ctx
                             (set_allocated true b))]> btns.
Proof.
  unfold button_new, new_button.
  destruct (Z.eqb_spec f_get 0) as [|Hf]; [discriminate|].
  destruct (new_button_loop BUTTON_MAX 0 btns) as [[i|] btns1] eqn:Hloop;
    [|discriminate].
  intros [= <- <-]. split; [exact Hf|].
  apply new_button_loop_found in Hloop as (b & Hl & Ha & ->).
  exists b. rewrite alter_insert. auto.
Qed.

Lemma button_new_failed (btns btns' : list button)
    (f_get f_get_ctx cb cb_ctx : Z) :
  button_new btns f_get f_get_ctx cb cb_ctx = (None, btns') ->
  btns' = btns.
Proof.
  unfold button_new, new_button.
  destruct (f_get =? 0); [congruence|].
  destruct (new_button_loop BUTTON_MAX 0 btns) as [[i|] btns1] eqn:Hloop;
    [discriminate|].
  intros [= <-]. eapply new_button_loop_full. exact Hloop.
Qed.

(** On a pool that keeps invariant 4, [button_new] hands out a zeroed
    slot: the instance is disabled, released, with no clicks, and holds
    the default parameters and the functions it was given. *)
Lemma button_new_instance (btns btns' : list button)
    (f_get f_get_ctx cb cb_ctx : Z) (j : nat) :
  pool_inv btns ->
  button_new btns f_get f_get_ctx cb cb_ctx = (Some j, btns') ->
  btns' !! j
  = Some (set_param_block get_default_param
            (bind_functions f_get f_get_ctx cb cb_ctx
               (set_allocated true zero_button)))
  /\ pool_inv btns'.
Proof.
  intros Hinv Hnew.
  apply button_new_found in Hnew as (_ & b & Hl & Ha & ->).
  rewrite (Hinv j b Hl Ha). split.
  - apply list_lookup_insert_eq. eapply lookup_lt_Some. exact Hl.
  - apply pool_inv_insert; [exact Hinv|]. discriminate.
Qed.

Lemma store_keeps (btns : list button) (i j : nat) (b b' : button) :
  pool_inv btns ->
  slot_inactive btns i ->
  btns !! j = Some b ->
  allocated b' = true ->
  (j = i -> active b' = false) ->
  pool_inv (store btns (Some j) (Some b'))
  /\ slot_inactive (store btns (Some j) (Some b')) i.
Proof.
  intros Hinv Hin Hl Ha Hact. simpl. split.
  - apply pool_inv_insert; [exact Hinv|congruence].
  - apply slot_inactive_insert; assumption.
Qed.

Lemma slot_inactive_lookup (btns : list button) (i : nat) (b : button) :
  slot_inactive btns i -> btns !! i = Some b -> active b = false.
Proof. intros (b0 & Hl0 & Hb0) Hl. congruence. Qed.

Section PoolFacts.

Variable host : Type.
Variable host_get_state : Z -> Z -> host -> button_level_t * host.
Variable host_callback :
  Z -> button -> button_event_t -> Z -> Z -> host -> host.

Let exec := Pool.exec host host_get_state host_callback.
Let run := Pool.run host host_get_state host_callback.
Let protocol_ok := Pool.protocol_ok host host_get_state host_callback.

Lemma exec_step_at (btns : list button) (j : nat) (time_ms : Z)
    (h : host) :
  exec (ApiStep (Some j) time_ms) btns h
  = match btns !! j with
    | Some b =>
        match button_step host host_get_state host_callback (Some b)
                time_ms h with
        | Some (e, ob, h1, tr) =>
            Some (RetError e, store btns (Some j) ob, h1, tr)
        | None => None
        end
    | None => None
    end.
Proof.
  subst exec. unfold Pool.exec, deref.
  destruct (btns !! j) as [b|]; [|reflexivity].
  cbn -[button_step].
  destruct (button_step host host_get_state host_callback (Some b)
              time_ms h) as [[[[e ob] h1] tr]|]; reflexivity.
Qed.

(** Every call on a live handle keeps invariant 4. *)
Lemma exec_keeps_pool_inv (c : api_call) (btns btns' : list button)
    (h h' : host) (r : api_result) (tr : list call) :
  pool_inv btns ->
  handle_live c btns = true ->
  exec c btns h = Some (r, btns', h', tr) ->
  pool_inv btns'.
Proof.
  intros Hinv Hlive Hex.
  destruct c as [f_get f_get_ctx cb cb_ctx|handle|handle|handle
                |handle p|handle time_ms];
    [simpl in Hex..|].
  - destruct (button_new btns f_get f_get_ctx cb cb_ctx)
      as [[j|] btns1] eqn:Hnew; injection Hex as <- <- <- <-.
    + eapply button_new_instance; eauto.
    + apply button_new_failed in Hnew as ->. exact Hinv.
  - destruct handle as [j|]; simpl in Hex; [|discriminate].
    injection Hex as <- <- <- <-. apply pool_inv_insert; auto.
  - destruct handle as [j|]; simpl in Hex;
      [|injection Hex as <- <- <- <-; auto].
    unfold handle_live, live in Hlive. simpl in Hlive.
    destruct (btns !! j) as [b|] eqn:Hl; simpl in Hex; [|discriminate].
    injection Hex as <- <- <- <-.
    apply pool_inv_insert; [exact Hinv|]. simpl. congruence.
  - destruct handle as [j|]; simpl in Hex;
      [|injection Hex as <- <- <- <-; auto].
    unfold handle_live, live in Hlive. simpl in Hlive.
    destruct (btns !! j) as [b|] eqn:Hl; simpl in Hex; [|discriminate].
    injection Hex as <- <- <- <-.
    apply pool_inv_insert; [exact Hinv|]. simpl. congruence.
  - destruct handle as [j|]; simpl in Hex.
    + unfold handle_live, live in Hlive. simpl in Hlive.
      destruct (btns !! j) as [b|] eqn:Hl; simpl in Hex; [|discriminate].
      destruct p as [q|]; simpl in Hex.
      * destruct (get_min_pressed_pulse_count b) as [n|]; simpl in Hex;
          [|discriminate].
        destruct (negb (is_param_ok q n)); simpl in Hex;
          injection Hex as <- <- <- <-;
          (apply pool_inv_insert; [exact Hinv|]; simpl; congruence).
      * injection Hex as <- <- <- <-.
        apply pool_inv_insert; [exact Hinv|]. congruence.
    + destruct p; injection Hex as <- <- <- <-; auto.
  - destruct handle as [j|];
      [|simpl in Hex; injection Hex as <- <- <- <-; auto].
    unfold handle_live, live in Hlive. simpl in Hlive.
    rewrite exec_step_at in Hex.
    destruct (btns !! j) as [b|] eqn:Hl; [|discriminate].
    destruct (button_step host host_get_state host_callback (Some b)
                time_ms h) as [[[[e ob] h1] tr1]|] eqn:Hstep;
      [|discriminate].
    injection Hex as <- <- <- <-.
    apply button_step_frame in Hstep
      as (b' & -> & _ & _ & _ & _ & _ & Hal & Hac).
    apply pool_inv_insert; [exact Hinv|]. congruence.
Qed.

(** Invariant 4 holds in every pool such a client can reach. *)
Lemma run_keeps_pool_inv (cs : list api_call) (btns btns' : list button)
    (h h' : host) (rs : list (api_result * list call)) :
  pool_inv btns ->
  protocol_ok cs btns h = true ->
  run cs btns h = Some (rs, btns', h') ->
  pool_inv btns'.
Proof.
  subst run protocol_ok. revert btns h rs.
  induction cs as [|c cs IH]; intros btns h rs Hinv Hok; simpl.
  - intros [= <- <- <-]. exact Hinv.
  - simpl in Hok. apply andb_true_iff in Hok as [Hlive Hok].
    destruct (Pool.exec host host_get_state host_callback c btns h)
      as [[[[r btns1] h1] tr]|] eqn:Hex; simpl; [|discriminate].
    pose proof (exec_keeps_pool_inv _ _ _ _ _ _ _ Hinv Hlive Hex) as Hinv1.
    destruct (Pool.run host host_get_state host_callback cs btns1 h1)
      as [[[rs1 btns2] h2]|] eqn:Hrun; simpl; [|discriminate].
    intros [= <- <- <-]. eapply IH; eauto.
Qed.

(** No call but [button_enable] on handle [i] enables the instance
    behind [i], and every call on a live handle keeps invariant 4. *)
Lemma exec_keeps_inactive (c : api_call) (btns btns' : list button)
    (h h' : host) (r : api_result) (tr : list call) (i : nat) :
  pool_inv btns ->
  slot_inactive btns i ->
  handle_live c btns = true ->
  c <> ApiEnable (Some i) ->
  exec c btns h = Some (r, btns', h', tr) ->
  pool_inv btns' /\ slot_inactive btns' i.
Proof.
  intros Hinv Hin Hlive Hne Hex.
  destruct c as [f_get f_get_ctx cb cb_ctx|handle|handle|handle
                |handle p|handle time_ms];
    [simpl in Hex..|].
  - (* button_new *)
    destruct (button_new btns f_get f_get_ctx cb cb_ctx)
      as [[j|] btns1] eqn:Hnew; injection Hex as <- <- <- <-.
    + apply button_new_found in Hnew as (_ & b & Hl & Ha & ->).
      rewrite (Hinv j b Hl Ha). split.
      * apply pool_inv_insert; [exact Hinv|discriminate].
      * apply slot_inactive_insert; [exact Hin|reflexivity].
    + apply button_new_failed in Hnew as ->. auto.
  - (* button_delete *)
    destruct handle as [j|]; simpl in Hex; [|discriminate].
    injection Hex as <- <- <- <-. unfold free_button. split.
    + apply pool_inv_insert; auto.
    + apply slot_inactive_insert; auto.
  - (* button_enable *)
    destruct handle as [j|]; simpl in Hex;
      [|injection Hex as <- <- <- <-; auto].
    unfold handle_live, live in Hlive. simpl in Hlive.
    destruct (btns !! j) as [b|] eqn:Hl; simpl in Hex; [|discriminate].
    injection Hex as <- <- <- <-.
    apply (store_keeps btns i j b); auto. congruence.
  - (* button_disable *)
    destruct handle as [j|]; simpl in Hex;
      [|injection Hex as <- <- <- <-; auto].
    unfold handle_live, live in Hlive. simpl in Hlive.
    destruct (btns !! j) as [b|] eqn:Hl; simpl in Hex; [|discriminate].
    injection Hex as <- <- <- <-.
    apply (store_keeps btns i j b); auto.
  - (* button_set_param *)
    destruct handle as [j|]; simpl in Hex.
    + unfold handle_live, live in Hlive. simpl in Hlive.
      destruct (btns !! j) as [b|] eqn:Hl; simpl in Hex; [|discriminate].
      assert (Hb : j = i -> active b = false)
        by (intros ->; eapply slot_inactive_lookup; eauto).
      destruct p as [q|]; simpl in Hex.
      * destruct (get_min_pressed_pulse_count b) as [n|]; simpl in Hex;
          [|discriminate].
        destruct (negb (is_param_ok q n)); simpl in Hex;
          injection Hex as <- <- <- <-;
          apply (store_keeps btns i j b); auto.
      * injection Hex as <- <- <- <-.
        apply (store_keeps btns i j b); auto.
    + destruct p; injection Hex as <- <- <- <-; auto.
  - (* button_step *)
    destruct handle as [j|];
      [|simpl in Hex; injection Hex as <- <- <- <-; auto].
    unfold handle_live, live in Hlive. simpl in Hlive.
    rewrite exec_step_at in Hex.
    destruct (btns !! j) as [b|] eqn:Hl; [|discriminate].
    destruct (button_step host host_get_state host_callback (Some b)
                time_ms h) as [[[[e ob] h1] tr1]|] eqn:Hstep;
      [|discriminate].
    injection Hex as <- <- <- <-.
    apply button_step_frame in Hstep
      as (b' & -> & _ & _ & _ & _ & _ & Hal & Hac).
    apply (store_keeps btns i j b); auto; [congruence|].
    intros ->. rewrite Hac. eapply slot_inactive_lookup; eauto.
Qed.

Lemma run_keeps_inactive (cs : list api_call) (btns btns' : list button)
    (h h' : host) (rs : list (api_result * list call)) (i : nat) :
  pool_inv btns ->
  slot_inactive btns i ->
  protocol_ok cs btns h = true ->
  Forall (fun c => c <> ApiEnable (Some i)) cs ->
  run cs btns h = Some (rs, btns', h') ->
  pool_inv btns' /\ slot_inactive btns' i.
Proof.
  subst run protocol_ok. revert btns h rs.
  induction cs as [|c cs IH]; intros btns h rs Hinv Hin Hok Hne; simpl.
  - intros [= <- <- <-]. auto.
  - simpl in Hok. apply andb_true_iff in Hok as [Hlive Hok].
    inversion Hne as [|? ? Hc Hcs]; subst.
    destruct (Pool.exec host host_get_state host_callback c btns h)
      as [[[[r btns1] h1] tr]|] eqn:Hex; simpl; [|discriminate].
    destruct (exec_keeps_inactive _ _ _ _ _ _ _ _ Hinv Hin Hlive Hc Hex)
      as [Hinv1 Hin1].
    destruct (Pool.run host host_get_state host_callback cs btns1 h1)
      as [[[rs1 btns2] h2]|] eqn:Hrun; simpl; [|discriminate].
    intros [= <- <- <-]. eapply IH; eauto.
Qed.

(** C9. An instance that [button_new] returns is disabled, and stays so
    until [button_enable] is called on it. The client keeps to the life
    cycle from the initial pool on: after any calls [cs0], [button_new]
    returns handle [i]; after any further calls [cs], none of them
    [button_enable] on [i], a step on [i] returns DISABLED, reads no
    level, invokes no callback and leaves the pool and the host as they
    were. *)
Theorem new_instance_is_disabled_until_enabled
    (cs0 cs : list api_call) (h0 h h2 : host)
    (rs0 rs : list (api_result * list call))
    (btns btns1 btns2 : list button) (f_get f_get_ctx cb cb_ctx : Z)
    (i : nat) (time_ms : Z) :
  protocol_ok cs0 initial h0 = true ->
  run cs0 initial h0 = Some (rs0, btns, h) ->
  button_new btns f_get f_get_ctx cb cb_ctx = (Some i, btns1) ->
  protocol_ok cs btns1 h = true ->
  Forall (fun c => c <> ApiEnable (Some i)) cs ->
  run cs btns1 h = Some (rs, btns2, h2) ->
  (exists b, btns1 !! i = Some b /\ active b = false)
  /\ (exists b, btns2 !! i = Some b /\ active b = false)
  /\ exec (ApiStep (Some i) time_ms) btns2 h2
     = Some (RetError BUTTON_ERROR_DISABLED, btns2, h2, []).
Proof.
  intros Hok0 Hrun0 Hnew Hok Hne Hrun.
  pose proof (run_keeps_pool_inv _ _ _ _ _ _ pool_inv_initial Hok0 Hrun0)
    as Hinv.
  destruct (button_new_instance _ _ _ _ _ _ _ Hinv Hnew) as [Hl Hinv1].
  assert (Hin1 : slot_inactive btns1 i)
    by (eexists; split; [exact Hl|reflexivity]).
  destruct (run_keeps_inactive _ _ _ _ _ _ _ Hinv1 Hin1 Hok Hne Hrun)
    as [_ Hin2].
  split; [exact Hin1|]. split; [exact Hin2|].
  destruct Hin2 as (b & Hb & Hact).
  subst exec. simpl. rewrite Hb. simpl. rewrite Hact. simpl.
  rewrite list_insert_id by exact Hb. reflexivity.
Qed.

End PoolFacts.

(** ** The properties on the scripted host *)

Lemma well_formed_fresh_params (b : button) :
  param b = get_default_param -> get_state b <> 0 -> well_formed b.
Proof.
  intros Hp Hg. split; [|exact Hg]. rewrite Hp. split.
  - discriminate.
  - reflexivity.
Qed.

Lemma step_classifies_pressed_and_released_witness :
  (active Script.armed = true
   /\ well_formed Script.armed
   /\ elapsed_pulses Script.armed 60 <> 0)
  /\ exists btn' h' tr,
      Script.step (Some Script.armed) 60 [BUTTON_LEVEL_HIGH]
      = Some (BUTTON_ERROR_NONE, Some btn', h', tr)
      /\ waveform (data btn') = 63
      /\ emits tr BUTTON_EVT_PRESSED 0.
Proof.
  assert (Ha : active Script.armed = true) by reflexivity.
  assert (Hwf : well_formed Script.armed)
    by (apply well_formed_fresh_params; [reflexivity|discriminate]).
  assert (Hp : elapsed_pulses Script.armed 60 <> 0) by discriminate.
  split; [auto|].
  destruct (step_classifies_pressed_and_released
              Script.host Script.get_state Script.on_event
              Script.armed 60 [BUTTON_LEVEL_HIGH] Ha Hwf Hp)
    as (event & btn' & h1 & tr1 & h' & tr & Hpb & Hstep & Hw & Hpr & _ & Hem).
  exists btn', h', tr. split; [exact Hstep|]. split; [exact Hw|].
  apply Hem; [discriminate|]. apply Hpr. split; [reflexivity|].
  intros i Hi.
  assert (Hcases : i = 0 \/ i = 1 \/ i = 2 \/ i = 3 \/ i = 4 \/ i = 5)
    by (change (pulse_count (param Script.armed)) with 6 in Hi; lia).
  destruct Hcases as [->|[->|[->|[->|[->| ->]]]]]; reflexivity.
Defined.


Lemma holding_fires_on_schedule_witness :
  let h := replicate 34 BUTTON_LEVEL_HIGH in
  (active Script.held = true
   /\ well_formed Script.held
   /\ elapsed_pulses Script.held 400 <> 0)
  /\ exists btn' h' tr,
      Script.step (Some Script.held) 400 h
      = Some (BUTTON_ERROR_NONE, Some btn', h', tr)
      /\ time_repeat (data btn') = 400
      /\ emits tr BUTTON_EVT_HOLDING 0.
Proof.
  intros h.
  assert (Ha : active Script.held = true) by reflexivity.
  assert (Hwf : well_formed Script.held)
    by (apply well_formed_fresh_params; [reflexivity|discriminate]).
  assert (Hp : elapsed_pulses Script.held 400 <> 0) by discriminate.
  split; [auto|].
  destruct (holding_fires_on_schedule
              Script.host Script.get_state Script.on_event
              Script.held 400 h BUTTON_EVT_HOLDING
              (with_data (set_time_repeat 400)
                 (with_data (set_waveform (2 ^ 32 - 1)) Script.held))
              Ha Hwf Hp eq_refl)
    as (btn' & h1 & tr1 & h' & tr & _ & Hstep & _ & _ & _ & Hrep & _ & Hem).
  exists btn', h', tr. split; [exact Hstep|]. split; [now apply Hrep|].
  apply Hem; [discriminate|]. left. split; [reflexivity|].
  vm_compute. discriminate.
Defined.

Lemma clicks_reset_rule_witness :
  (active Script.let_go = true
   /\ well_formed Script.let_go
   /\ elapsed_pulses Script.let_go 700 <> 0)
  /\ exists btn' h' tr,
      Script.step (Some Script.let_go) 700 []
      = Some (BUTTON_ERROR_NONE, Some btn', h', tr)
      /\ clicks (data Script.let_go) = 1
      /\ clicks (data btn') = 0.
Proof.
  assert (Ha : active Script.let_go = true) by reflexivity.
  assert (Hwf : well_formed Script.let_go)
    by (apply well_formed_fresh_params; [reflexivity|discriminate]).
  assert (Hp : elapsed_pulses Script.let_go 700 <> 0) by discriminate.
  split; [auto|].
  destruct (clicks_reset_rule
              Script.host Script.get_state Script.on_event
              Script.let_go 700 [] Ha Hwf Hp)
    as (state & event & b2 & btn' & h1 & tr1 & h' & tr
        & Hc & _ & Hstep & _ & _ & Hreset & _).
  exists btn', h', tr. split; [exact Hstep|]. split; [reflexivity|].
  apply Hreset. vm_compute in Hc. injection Hc as <- <- <-.
  split; [repeat split; discriminate|]. vm_compute. discriminate.
Defined.

Lemma step_without_pulse_is_noop_witness :
  (active Script.held = true
   /\ sampling_interval_ms (param Script.held) <> 0
   /\ elapsed_pulses Script.held 65 = 0)
  /\ Script.step (Some Script.held) 65 [BUTTON_LEVEL_LOW]
     = Some (BUTTON_ERROR_NONE, Some Script.held, [BUTTON_LEVEL_LOW], []).
Proof.
  assert (Ha : active Script.held = true) by reflexivity.
  assert (Hs : sampling_interval_ms (param Script.held) <> 0) by discriminate.
  assert (Hp : elapsed_pulses Script.held 65 = 0) by reflexivity.
  split; [auto|].
  apply (step_without_pulse_is_noop
           Script.host Script.get_state Script.on_event
           Script.held 65 [BUTTON_LEVEL_LOW] Ha Hs Hp).
Defined.

Lemma step_error_codes_witness :
  Script.step None 10 [] = Some (BUTTON_ERROR_INVALID_PARAM, None, [], [])
  /\ Script.step (Some (set_active false Script.held)) 400 []
     = Some (BUTTON_ERROR_DISABLED, Some (set_active false Script.held),
             [], [])
  /\ exists b' h' tr,
      Script.step (Some Script.held) 400 []
      = Some (BUTTON_ERROR_NONE, Some b', h', tr).
Proof.
  split; [|split].
  - apply (step_error_codes Script.host Script.get_state Script.on_event
             None 10 []). reflexivity.
  - apply (step_error_codes Script.host Script.get_state Script.on_event
             (Some (set_active false Script.held)) 400 []); reflexivity.
  - apply (step_error_codes Script.host Script.get_state Script.on_event
             (Some Script.held) 400 [] ) with (b := Script.held);
      [reflexivity|reflexivity|].
    apply well_formed_fresh_params; [reflexivity|discriminate].
Defined.

Lemma set_param_validates_then_copies_witness :
  let quick := mk_param 5 20 100 50 250 in
  let broken := mk_param 0 20 100 50 250 in
  button_set_param (Some Script.fresh) (Some broken)
  = Some (BUTTON_ERROR_INCORRECT_PARAM, Some Script.fresh)
  /\ (exists b',
        button_set_param (Some Script.fresh) (Some quick)
        = Some (BUTTON_ERROR_NONE, Some b')
        /\ param b' = quick /\ data b' = data Script.fresh)
  /\ button_set_param (Some Script.fresh) None
     = Some (BUTTON_ERROR_INVALID_PARAM, Some Script.fresh).
Proof.
  intros quick broken.
  assert (Hs : sampling_interval_ms (param Script.fresh) <> 0)
    by discriminate.
  split; [|split].
  - apply (proj2 (set_param_validates_then_copies
                    (Some Script.fresh) (Some broken))
             Script.fresh broken eq_refl eq_refl Hs).
    reflexivity.
  - destruct (proj2 (proj2 (set_param_validates_then_copies
                              (Some Script.fresh) (Some quick))
                       Script.fresh quick eq_refl eq_refl Hs) eq_refl)
      as (b' & Hset & H1 & H2 & H3 & H4 & H5 & Hd & _).
    exists b'. split; [exact Hset|]. split; [|exact Hd].
    destruct b' as [d [] ? ? ? ? ? ? ? ?]. simpl in *. subst. reflexivity.
  - apply (proj1 (set_param_validates_then_copies
                    (Some Script.fresh) None)).
    right. reflexivity.
Defined.

Example release_from_255_wraps_on_script :
  (active Script.worn = true
   /\ well_formed Script.worn
   /\ 0 < click_window_ms (param Script.worn)
   /\ Script.process Script.worn 30720 [BUTTON_LEVEL_LOW]
      = Some (BUTTON_EVT_RELEASED, Script.worn_out, [], [CallGetState 1 0])
   /\ clicks (data Script.worn) = 255)
  /\ clicks (data Script.worn_out) = 0
  /\ exists h',
      Script.step (Some Script.worn) 30720 [BUTTON_LEVEL_LOW]
      = Some (BUTTON_ERROR_NONE, Some Script.worn_out, h',
              [CallGetState 1 0;
               CallCallback 2 BUTTON_EVT_RELEASED 0 0;
               CallCallback 2 BUTTON_EVT_CLICK 0 0]).
Proof.
  assert (Ha : active Script.worn = true) by reflexivity.
  assert (Hwf : well_formed Script.worn)
    by (apply well_formed_fresh_params; [reflexivity|discriminate]).
  assert (Hw : 0 < click_window_ms (param Script.worn)) by reflexivity.
  assert (Hpb : Script.process Script.worn 30720 [BUTTON_LEVEL_LOW]
                = Some (BUTTON_EVT_RELEASED, Script.worn_out, [],
                        [CallGetState 1 0])) by reflexivity.
  assert (H255 : clicks (data Script.worn) = 255) by reflexivity.
  split; [auto 6|].
  destruct (release_from_255_wraps
              Script.host Script.get_state Script.on_event
              _ _ _ _ _ _ Ha Hwf Hw Hpb) as [_ Hwrap].
  destruct (Hwrap H255) as [H0 Hstep].
  split; [exact H0|]. apply Hstep. discriminate.
Defined.

Lemma new_instance_is_disabled_until_enabled_witness :
  let cs0 :=
    [ApiNew 5 0 0 0;
     ApiEnable (Some 0%nat);
     ApiStep (Some 0%nat) 60;
     ApiDelete (Some 0%nat)] in
  let cs :=
    [ApiSetParam (Some 0%nat) (Some (mk_param 5 20 100 50 250));
     ApiStep (Some 0%nat) 100;
     ApiNew 3 0 0 0;
     ApiEnable (Some 1%nat);
     ApiStep (Some 1%nat) 120;
     ApiDisable (Some 0%nat);
     ApiStep (Some 0%nat) 200] in
  let h0 := replicate 40 BUTTON_LEVEL_HIGH in
  exists rs0 btns h i btns1 rs btns2 h2,
    Pool.run Script.host Script.get_state Script.on_event cs0 initial h0
    = Some (rs0, btns, h)
    /\ button_new btns 1 0 2 0 = (Some i, btns1)
    /\ Pool.protocol_ok Script.host Script.get_state Script.on_event
         cs btns1 h = true
    /\ Pool.run Script.host Script.get_state Script.on_event cs btns1 h
       = Some (rs, btns2, h2)
    /\ Pool.exec Script.host Script.get_state Script.on_event
         (ApiStep (Some i) 300) btns2 h2
       = Some (RetError BUTTON_ERROR_DISABLED, btns2, h2, []).
Proof.
  intros cs0 cs h0.
  assert (Hrun0 : exists rs0,
    Pool.run Script.host Script.get_state Script.on_event cs0 initial h0
    = Some (rs0, initial, replicate 34 BUTTON_LEVEL_HIGH))
    by (eexists; vm_compute; reflexivity).
  destruct Hrun0 as [rs0 Hrun0].
  assert (Hrun : exists rs btns2 h2,
    Pool.run Script.host Script.get_state Script.on_event cs
      (button_new initial 1 0 2 0).2 (replicate 34 BUTTON_LEVEL_HIGH)
    = Some (rs, btns2, h2))
    by (do 3 eexists; vm_compute; reflexivity).
  destruct Hrun as (rs & btns2 & h2 & Hrun).
  exists rs0, initial, (replicate 34 BUTTON_LEVEL_HIGH), 0%nat,
    (button_new initial 1 0 2 0).2, rs, btns2, h2.
  assert (Hok0 : Pool.protocol_ok Script.host Script.get_state
                   Script.on_event cs0 initial h0 = true) by reflexivity.
  assert (Hnew : button_new initial 1 0 2 0
                 = (Some 0%nat, (button_new initial 1 0 2 0).2))
    by reflexivity.
  assert (Hok : Pool.protocol_ok Script.host Script.get_state
                  Script.on_event cs (button_new initial 1 0 2 0).2
                  (replicate 34 BUTTON_LEVEL_HIGH) = true)
    by reflexivity.
  assert (Hne : Forall (fun c => c <> ApiEnable (Some 0%nat)) cs)
    by (repeat constructor; discriminate).
  split; [exact Hrun0|]. split; [exact Hnew|]. split; [exact Hok|].
  split; [exact Hrun|].
  apply (new_instance_is_disabled_until_enabled
           Script.host Script.get_state Script.on_event
           cs0 cs h0 _ h2 rs0 rs initial _ btns2 1 0 2 0 0%nat 300
           Hok0 Hrun0 Hnew Hok Hne Hrun).
Defined.

Lemma clicks_count_releases_modulo_256_witness :
  let ts := Script.times (12 * 256) 10 10 in
  let h := Script.clicks_script 256 6 in
  (active Script.fresh = true
   /\ well_formed Script.fresh
   /\ callback Script.fresh <> 0
   /\ 0 <= clicks (data Script.fresh) < 256
   /\ no_window_reset Script.host Script.get_state Script.on_event
        ts Script.fresh h = true)
  /\ exists btn' h' tr,
      button_steps Script.host Script.get_state Script.on_event
        ts Script.fresh h = Some (btn', h', tr)
      /\ released_count tr = 256%nat
      /\ clicks (data btn') = 0
      /\ last (click_args tr) = Some 0.
Proof.
  intros ts h.
  assert (Ha : active Script.fresh = true) by reflexivity.
  assert (Hwf : well_formed Script.fresh)
    by (apply well_formed_fresh_params; [reflexivity|discriminate]).
  assert (Hcb : callback Script.fresh <> 0) by discriminate.
  assert (Hrange : 0 <= clicks (data Script.fresh) < 256)
    by (split; [discriminate|reflexivity]).
  assert (Hq : no_window_reset Script.host Script.get_state Script.on_event
                 ts Script.fresh h = true)
    by (vm_compute; reflexivity).
  assert (Hk : option_map (fun r => released_count r.2)
                 (button_steps Script.host Script.get_state Script.on_event
                    ts Script.fresh h) = Some 256%nat)
    by (vm_compute; reflexivity).
  split; [auto 6|].
  destruct (button_steps Script.host Script.get_state Script.on_event
              ts Script.fresh h) as [[[btn' h'] tr]|] eqn:Hrun;
    [|discriminate].
  simpl in Hk. injection Hk as Hk.
  exists btn', h', tr. split; [reflexivity|]. split; [exact Hk|].
  apply (clicks_count_releases_modulo_256
           Script.host Script.get_state Script.on_event
           ts Script.fresh btn' h h' tr Ha Hwf Hcb Hrange Hq Hrun);
    [reflexivity|exact Hk].
Defined.

(** Scenario: 256 clicks in a row on the default parameters, stepped
    every 10 ms. No step finds the click window closed; the counter is
    back at 0 and the last CLICK carries 0. *)
Example clicks_256_in_a_row :
  match Script.steps (12 * 256) 10 10 Script.fresh
          (Script.clicks_script 256 6) with
  | Some (b, h, tr) =>
      clicks (data b) = 0
      /\ h = []
      /\ last tr = Some (CallCallback 2 BUTTON_EVT_CLICK 0 0)
  | None => False
  end.
Proof. vm_compute. repeat split. Qed.

(** * Further properties of the code *)

(** ** Samples and bits of the waveform *)

Lemma level_code_bit (l : button_level_t) (i : Z) :
  Z.testbit (level_code l) i = (i =? 0) && level_bit l.
Proof.
  destruct l; simpl.
  - rewrite Z.bits_0. now rewrite andb_false_r.
  - destruct i; reflexivity.
Qed.

Lemma update_waveform_newest (w : Z) (l : button_level_t) :
  Z.testbit (update_waveform w l) 0 = level_bit l.
Proof.
  unfold update_waveform, wrap32, wrap.
  rewrite Z.lor_spec, level_code_bit, Z.mod_pow2_bits_low by lia.
  rewrite Z.shiftl_spec by lia. simpl. reflexivity.
Qed.

Lemma update_waveform_older (w : Z) (l : button_level_t) (i : Z) :
  0 <= i -> i + 1 < 32 ->
  Z.testbit (update_waveform w l) (i + 1) = Z.testbit w i.
Proof.
  intros Hi Hlt. unfold update_waveform, wrap32, wrap.
  rewrite Z.lor_spec, level_code_bit, Z.mod_pow2_bits_low by lia.
  rewrite Z.shiftl_spec by lia.
  replace (i + 1 - 1) with i by lia.
  destruct (Z.eqb_spec (i + 1) 0); [lia|]. simpl. apply orb_false_r.
Qed.

(** The samples push the old bits up, as far as the 32 bits reach. *)
Lemma shift_in_older (levels : list button_level_t) (w i : Z) :
  0 <= i -> i + Z.of_nat (length levels) < 32 ->
  Z.testbit (shift_in w levels) (i + Z.of_nat (length levels))
  = Z.testbit w i.
Proof.
  revert w i. induction levels as [|l ls IH]; intros w i Hi Hlt.
  - simpl. now rewrite Z.add_0_r.
  - change (shift_in w (l :: ls)) with (shift_in (update_waveform w l) ls).
    simpl length in *.
    replace (i + Z.of_nat (S (length ls)))
      with ((i + 1) + Z.of_nat (length ls)) by lia.
    rewrite IH by lia. apply update_waveform_older; lia.
Qed.

(** Bit [j] of the waveform is the [j]-th most recent sample. *)
Lemma shift_in_recent (levels : list button_level_t) (w : Z) (j : nat)
    (l : button_level_t) :
  recent levels j = Some l ->
  Z.of_nat j < 32 ->
  Z.testbit (shift_in w levels) (Z.of_nat j) = level_bit l.
Proof.
  unfold recent. revert w.
  induction levels as [|l0 ls IH]; intros w Hl Hlt.
  - discriminate.
  - change (shift_in w (l0 :: ls)) with (shift_in (update_waveform w l0) ls).
    rewrite reverse_cons in Hl.
    apply lookup_app_Some in Hl as [Hl|[Hlen Hl]].
    + apply IH; assumption.
    + rewrite length_reverse in Hlen, Hl.
      destruct (j - length ls)%nat as [|k] eqn:Hk; [|destruct k; discriminate].
      injection Hl as <-.
      assert (Hj : j = length ls) by lia. subst j.
      rewrite <- (Z.add_0_l (Z.of_nat (length ls))).
      rewrite shift_in_older by lia. apply update_waveform_newest.
Qed.

Lemma recent_is_Some (levels : list button_level_t) (j : nat) :
  (j < length levels)%nat -> exists l, recent levels j = Some l /\ l ∈ levels.
Proof.
  intros Hj. unfold recent.
  destruct (lookup_lt_is_Some_2 (reverse levels) j) as [l Hl].
  { now rewrite length_reverse. }
  exists l. split; [exact Hl|].
  apply elem_of_reverse, list_elem_of_lookup. eauto.
Qed.

(** When all the samples are at one level, so are the low bits. *)
Lemma shift_in_constant (levels : list button_level_t) (w : Z)
    (l : button_level_t) (i : Z) :
  Forall (fun x => x = l) levels ->
  0 <= i < Z.of_nat (length levels) -> i < 32 ->
  Z.testbit (shift_in w levels) i = level_bit l.
Proof.
  intros Hall Hi Hlt.
  destruct (recent_is_Some levels (Z.to_nat i)) as (l' & Hr & Hin); [lia|].
  rewrite Forall_forall in Hall. rewrite (Hall l' Hin) in Hr.
  rewrite <- (Z2Nat.id i) by lia. apply shift_in_recent; [exact Hr|lia].
Qed.

Lemma land_ones_low_zero (w n : Z) :
  0 <= n ->
  (forall i, 0 <= i < n -> Z.testbit w i = false) ->
  Z.land w (Z.ones n) = 0.
Proof.
  intros Hn Hz. apply Z.bits_inj'. intros i Hi.
  rewrite Z.land_spec, Z.bits_0.
  destruct (Z.lt_ge_cases i n).
  - rewrite Hz by lia. reflexivity.
  - rewrite Z.ones_spec_high by lia. apply andb_false_r.
Qed.

Lemma step_callbacks_shape (btn : button) (event : button_event_t) :
  Forall (fun c => ~ is_sample c) (step_callbacks btn event)
  /\ (length (step_callbacks btn event) <= 2)%nat.
Proof.
  unfold step_callbacks.
  destruct (nonzero (callback btn)); [|split; [constructor|simpl; lia]].
  destruct event; simpl; split; try lia;
    repeat constructor; intros [].
Qed.

Lemma lor_range (a b : Z) :
  0 <= a < 2 ^ 32 -> 0 <= b < 2 ^ 32 -> 0 <= Z.lor a b < 2 ^ 32.
Proof.
  intros Ha Hb.
  assert (Hnn : 0 <= Z.lor a b) by (apply Z.lor_nonneg; lia).
  split; [exact Hnn|].
  destruct (Z.eq_dec (Z.lor a b) 0) as [->|Hne]; [reflexivity|].
  apply Z.log2_lt_pow2; [lia|]. rewrite Z.log2_lor by lia.
  apply Z.max_lub_lt.
  - destruct (Z.eq_dec a 0) as [->|]; [reflexivity|].
    apply Z.log2_lt_pow2; lia.
  - destruct (Z.eq_dec b 0) as [->|]; [reflexivity|].
    apply Z.log2_lt_pow2; lia.
Qed.

Lemma update_waveform_range (w : Z) (l : button_level_t) :
  0 <= update_waveform w l < 2 ^ 32.
Proof.
  unfold update_waveform. apply lor_range.
  - unfold wrap32. apply wrap_range. lia.
  - destruct l; simpl; lia.
Qed.

Lemma shift_in_range (levels : list button_level_t) (w : Z) :
  0 <= w < 2 ^ 32 -> 0 <= shift_in w levels < 2 ^ 32.
Proof.
  revert w. induction levels as [|l ls IH]; intros w Hw; [exact Hw|].
  change (shift_in w (l :: ls)) with (shift_in (update_waveform w l) ls).
  apply IH, update_waveform_range.
Qed.

(** The subtraction of [process_button] across a wrap of the counter. *)
Lemma elapsed_pulses_wrap (btn : button) (d : Z) :
  0 <= timestamp btn < 2 ^ 32 ->
  0 <= d < 2 ^ 32 ->
  elapsed_pulses btn (wrap32 (timestamp btn + d))
  = d / sampling_interval_ms (param btn).
Proof.
  intros Hts Hd. unfold elapsed_pulses, sub32, wrap32, wrap.
  rewrite Zminus_mod_idemp_l.
  replace (timestamp btn + d - timestamp btn) with d by lia.
  now rewrite Z.mod_small.
Qed.

(** ** More on the step *)

Section StepMore.

Variable host : Type.
Variable host_get_state : Z -> Z -> host -> button_level_t * host.
Variable host_callback :
  Z -> button -> button_event_t -> Z -> Z -> host -> host.

Let step := button_step host host_get_state host_callback.
Let process := process_button host host_get_state.
Let pulses_of (btn : button) (time_ms : Z) : nat :=
  Z.to_nat (elapsed_pulses btn time_ms).
Let levels_of (btn : button) (time_ms : Z) (h : host) :=
  (read_levels host host_get_state (pulses_of btn time_ms)
     (get_state btn) (get_state_ctx btn) h).1.
Let samples_of (btn : button) (time_ms : Z) : list call :=
  replicate (pulses_of btn time_ms)
    (CallGetState (get_state btn) (get_state_ctx btn)).

(** A defined, enabled step with at least one pulse, with its calls. *)
Lemma button_step_exact (btn : button) (time_ms : Z) (h : host) :
  active btn = true ->
  well_formed btn ->
  elapsed_pulses btn time_ms <> 0 ->
  let b1 := after_sampling btn (levels_of btn time_ms h) in
  let v :=
    Z.land (waveform (data b1)) (Z.ones (pulse_count (param btn) + 1)) in
  exists state event b2 h1 h',
    process_button_classify b1 time_ms v = Some (state, event, b2)
    /\ classified b1 time_ms state event b2
    /\ let btn' :=
         set_timestamp time_ms
           (if click_window_reset state b2 time_ms
            then with_data (set_clicks 0) b2 else b2) in
       process btn time_ms h
       = Some (event, btn', h1, samples_of btn time_ms)
       /\ step (Some btn) time_ms h
          = Some (BUTTON_ERROR_NONE, Some btn', h',
                  samples_of btn time_ms ++ step_callbacks btn' event).
Proof.
  intros Hact Hwf Hp b1 v.
  destruct (process_button_defined host host_get_state btn time_ms h Hwf Hp)
    as (state & event & b2 & Hc & Hpb).
  destruct (button_step_active host host_get_state host_callback
              _ _ _ _ _ _ _ Hact Hpb) as [h' Hstep].
  exists state, event, b2. do 2 eexists.
  split; [exact Hc|]. split.
  { eapply process_button_classify_classified; [|exact Hc]. apply Hwf. }
  split; [exact Hpb|exact Hstep].
Qed.

Lemma levels_of_length (btn : button) (time_ms : Z) (h : host) :
  length (levels_of btn time_ms h) = pulses_of btn time_ms.
Proof. apply read_levels_length. Qed.

(** X1. An enabled step calls the level reader exactly
    [(now_ms - timestamp) / sampling_interval_ms] times, each time with
    the bound context and before any callback; at most two callback
    invocations follow. *)
Theorem step_reads_level_once_per_pulse
    (btn : button) (time_ms : Z) (h : host) :
  active btn = true ->
  well_formed btn ->
  exists btn' h' cbs,
    step (Some btn) time_ms h
    = Some (BUTTON_ERROR_NONE, Some btn', h',
            replicate (Z.to_nat (elapsed_pulses btn time_ms))
              (CallGetState (get_state btn) (get_state_ctx btn)) ++ cbs)
    /\ Forall (fun c => ~ is_sample c) cbs
    /\ (length cbs <= 2)%nat.
Proof.
  intros Hact Hwf.
  destruct (Z.eq_dec (elapsed_pulses btn time_ms) 0) as [Hp|Hp].
  - exists btn, h, []. rewrite Hp. simpl. split; [|split; [constructor|lia]].
    apply button_step_without_pulse; [exact Hact|apply Hwf|exact Hp].
  - destruct (button_step_exact btn time_ms h Hact Hwf Hp)
      as (state & event & b2 & h1 & h' & _ & _ & _ & Hstep).
    do 3 eexists. split; [exact Hstep|]. apply step_callbacks_shape.
Qed.

(** X3. The latch follows the events. A step whose event is PRESSED
    found the latch clear and leaves it set, with [time_pressed] at
    [now_ms]; one whose event is RELEASED found it set and leaves it
    clear, with [time_released] at [now_ms] and [time_repeat] back at 0;
    HOLDING only comes with the latch set; any other step keeps the
    latch and both times. Every step with a pulse moves [timestamp] to
    [now_ms]. *)
Theorem latch_follows_events (btn : button) (time_ms : Z) (h : host) :
  active btn = true ->
  well_formed btn ->
  elapsed_pulses btn time_ms <> 0 ->
  exists event btn' h1 tr,
    process btn time_ms h = Some (event, btn', h1, tr)
    /\ timestamp btn' = time_ms
    /\ (event = BUTTON_EVT_PRESSED ->
        pressed btn = false /\ pressed btn' = true
        /\ time_pressed (data btn') = time_ms)
    /\ (event = BUTTON_EVT_RELEASED ->
        pressed btn = true /\ pressed btn' = false
        /\ time_released (data btn') = time_ms
        /\ time_repeat (data btn') = 0)
    /\ (event = BUTTON_EVT_HOLDING ->
        pressed btn = true /\ pressed btn' = true)
    /\ (event <> BUTTON_EVT_PRESSED -> event <> BUTTON_EVT_RELEASED ->
        pressed btn' = pressed btn
        /\ time_pressed (data btn') = time_pressed (data btn)
        /\ time_released (data btn') = time_released (data btn)).
Proof.
  intros Hact Hwf Hp.
  destruct (button_step_exact btn time_ms h Hact Hwf Hp)
    as (state & event & b2 & h1 & h' & _ & Hcls & Hpb & _).
  do 4 eexists. split; [exact Hpb|]. split; [reflexivity|].
  clear - Hcls.
  destruct (click_window_reset state b2 time_ms);
    inversion Hcls; subst; simpl;
    rewrite ?process_holding_instance;
    try destruct (process_holding _ _).1; simpl;
    repeat split; intros; try discriminate; try congruence; auto.
Qed.

(** Bits below [N + 1] of the waveform after the step, when every sample
    of the step is at level [l] and the step has at least [k] of them. *)
Lemma constant_step_bits (btn : button) (time_ms : Z) (h : host)
    (l : button_level_t) (k i : Z) :
  Forall (fun x => x = l) (levels_of btn time_ms h) ->
  k <= elapsed_pulses btn time_ms ->
  0 <= i < k -> i < 32 ->
  Z.testbit
    (waveform (data (after_sampling btn (levels_of btn time_ms h)))) i
  = level_bit l.
Proof.
  intros Hall Hk Hi Hlt. simpl.
  apply shift_in_constant; [exact Hall| |exact Hlt].
  rewrite levels_of_length. subst pulses_of. simpl. lia.
Qed.

(** X5. A step that comes late by more than [N] sampling intervals while
    the level reads low is silent: the masked waveform is all zero, which
    is not the release pattern, so no event is produced and no callback
    runs, whatever the latch; a latch that was set stays set. After the
    step [button_busy] is false. *)
Theorem late_low_step_is_silent (btn : button) (time_ms : Z) (h : host) :
  active btn = true ->
  well_formed btn ->
  1 <= pulse_count (param btn) ->
  pulse_count (param btn) + 1 <= elapsed_pulses btn time_ms ->
  Forall (fun x => x = BUTTON_LEVEL_LOW) (levels_of btn time_ms h) ->
  exists btn' h',
    step (Some btn) time_ms h
    = Some (BUTTON_ERROR_NONE, Some btn', h',
            replicate (Z.to_nat (elapsed_pulses btn time_ms))
              (CallGetState (get_state btn) (get_state_ctx btn)))
    /\ process btn time_ms h
       = Some (BUTTON_EVT_NONE, btn', h',
               replicate (Z.to_nat (elapsed_pulses btn time_ms))
                 (CallGetState (get_state btn) (get_state_ctx btn)))
    /\ pressed btn' = pressed btn
    /\ button_busy btn' = Some false.
Proof.
  intros Hact Hwf HN Hlate Hlow.
  pose proof (pulse_count_range btn (proj1 Hwf)) as Hrange.
  assert (Hp : elapsed_pulses btn time_ms <> 0) by lia.
  destruct (button_step_exact btn time_ms h Hact Hwf Hp)
    as (state & event & b2 & h1 & h' & _ & Hcls & Hpb & Hstep).
  set (b1 := after_sampling btn (levels_of btn time_ms h)) in *.
  assert (Hbits : forall i, 0 <= i < pulse_count (param btn) + 1 ->
                    Z.testbit (waveform (data b1)) i = false).
  { intros i Hi.
    apply (constant_step_bits btn time_ms h BUTTON_LEVEL_LOW
             (pulse_count (param btn) + 1)); auto; lia. }
  assert (Hmask : Z.land (waveform (data b1))
                    (Z.ones (pulse_count (param btn) + 1)) = 0)
    by (apply land_ones_low_zero; [lia|exact Hbits]).
  assert (Hlowz : Z.land (waveform (data b1))
                    (Z.ones (pulse_count (param btn))) = 0)
    by (apply land_ones_low_zero; [lia|intros; apply Hbits; lia]).
  assert (Hnot : ~ low_bits_set (pulse_count (param btn))
                   (waveform (data b1))).
  { intros Hs. specialize (Hs 0 ltac:(lia)).
    rewrite Hbits in Hs by lia. discriminate. }
  assert (Hq : event = BUTTON_EVT_NONE /\ b2 = b1).
  { clear - Hcls Hmask Hnot Hrange.
    inversion Hcls as [? Hs|? Hm|? Hs ?|]; subst.
    - contradiction.
    - change (param b1) with (param btn) in Hm. rewrite Hmask in Hm.
      pose proof (Z.pow_pos_nonneg 2 (pulse_count (param btn))). lia.
    - contradiction.
    - auto. }
  destruct Hq as [-> ->].
  assert (Hcbs : forall b, step_callbacks b BUTTON_EVT_NONE = []).
  { intros b. unfold step_callbacks. now destruct (nonzero (callback b)). }
  rewrite Hcbs, app_nil_r in Hstep.
  assert (Hh : h1 = h').
  { clear - Hstep Hpb Hact. subst step process.
    unfold button_step in Hstep. rewrite Hact in Hstep. simpl in Hstep.
    rewrite Hpb in Hstep. simpl in Hstep. congruence. }
  subst h1.
  do 2 eexists. split; [exact Hstep|]. split; [exact Hpb|].
  split; [now destruct (click_window_reset state b1 time_ms)|].
  unfold button_busy. rewrite is_button_up_defined.
  - assert (Hw : forall c, waveform (data (set_timestamp time_ms
               (if c : bool then with_data (set_clicks 0) b1 else b1)))
               = waveform (data b1)) by (now intros []).
    assert (Hpar : forall c, param (set_timestamp time_ms
               (if c : bool then with_data (set_clicks 0) b1 else b1))
               = param btn) by (now intros []).
    rewrite Hw, Hpar, Hlowz. reflexivity.
  - destruct (click_window_reset state b1 time_ms); apply Hwf.
Qed.

(** X6. A single late step qualifies a press: when at least [N] sampling
    intervals have elapsed, the latch is clear and the level reads high
    throughout the step, the step produces PRESSED, sets the latch and
    records [now_ms] in [time_pressed]. *)
Theorem late_high_step_presses (btn : button) (time_ms : Z) (h : host) :
  active btn = true ->
  well_formed btn ->
  elapsed_pulses btn time_ms <> 0 ->
  pulse_count (param btn) <= elapsed_pulses btn time_ms ->
  Forall (fun x => x = BUTTON_LEVEL_HIGH) (levels_of btn time_ms h) ->
  pressed btn = false ->
  exists btn' h1 h' tr,
    process btn time_ms h = Some (BUTTON_EVT_PRESSED, btn', h1, tr)
    /\ step (Some btn) time_ms h
       = Some (BUTTON_ERROR_NONE, Some btn', h',
               tr ++ step_callbacks btn' BUTTON_EVT_PRESSED)
    /\ pressed btn' = true
    /\ time_pressed (data btn') = time_ms.
Proof.
  intros Hact Hwf Hp Hlate Hhigh Hlatch.
  pose proof (pulse_count_range btn (proj1 Hwf)) as Hrange.
  destruct (button_step_exact btn time_ms h Hact Hwf Hp)
    as (state & event & b2 & h1 & h' & _ & Hcls & Hpb & Hstep).
  set (b1 := after_sampling btn (levels_of btn time_ms h)) in *.
  assert (Hset : low_bits_set (pulse_count (param btn))
                   (waveform (data b1))).
  { intros i Hi.
    apply (constant_step_bits btn time_ms h BUTTON_LEVEL_HIGH
             (pulse_count (param btn))); auto; lia. }
  assert (Hq : state = STATE_PRESSED /\ event = BUTTON_EVT_PRESSED
               /\ b2 = (process_pressed b1 time_ms).2).
  { clear - Hcls Hset Hlatch.
    inversion Hcls as [| Hl ?| Hl ? ?|]; subst; simpl in *;
      try congruence; auto; contradiction. }
  destruct Hq as (-> & -> & ->).
  change (click_window_reset STATE_PRESSED (process_pressed b1 time_ms).2
            time_ms) with false in Hpb, Hstep.
  do 4 eexists. split; [exact Hpb|]. split; [exact Hstep|].
  split; reflexivity.
Qed.

(** X7. The debounce contract, read on the samples of the step: PRESSED
    is produced only if each of the [N] most recent samples that the step
    itself read is high, and RELEASED only if each of them is low and the
    one before them, when the step read it, is high. *)
Theorem events_require_stable_samples
    (btn : button) (time_ms : Z) (h : host) :
  active btn = true ->
  well_formed btn ->
  elapsed_pulses btn time_ms <> 0 ->
  exists event btn' h1 tr,
    process btn time_ms h = Some (event, btn', h1, tr)
    /\ (event = BUTTON_EVT_PRESSED ->
        forall j l,
          Z.of_nat j < pulse_count (param btn) ->
          recent (levels_of btn time_ms h) j = Some l ->
          l = BUTTON_LEVEL_HIGH)
    /\ (event = BUTTON_EVT_RELEASED ->
        (forall j l,
            Z.of_nat j < pulse_count (param btn) ->
            recent (levels_of btn time_ms h) j = Some l ->
            l = BUTTON_LEVEL_LOW)
        /\ (forall l,
               recent (levels_of btn time_ms h)
                 (Z.to_nat (pulse_count (param btn))) = Some l ->
               l = BUTTON_LEVEL_HIGH)).
Proof.
  intros Hact Hwf Hp.
  pose proof (pulse_count_range btn (proj1 Hwf)) as Hrange.
  destruct (button_step_exact btn time_ms h Hact Hwf Hp)
    as (state & event & b2 & h1 & h' & _ & Hcls & Hpb & _).
  set (ls := levels_of btn time_ms h) in *.
  set (w' := shift_in (waveform (data btn)) ls).
  do 4 eexists. split; [exact Hpb|].
  assert (Hbit : forall j l, Z.of_nat j < 32 -> recent ls j = Some l ->
                   Z.testbit w' (Z.of_nat j) = level_bit l)
    by (intros j l Hj Hr; now apply shift_in_recent).
  split.
  - intros ->.
    assert (Hset : low_bits_set (pulse_count (param btn)) w').
    { clear - Hcls. inversion Hcls as [? Hs| |? ? ? Hev|]; subst.
      - exact Hs.
      - destruct (process_holding _ _).1; discriminate. }
    intros j l Hj Hr. specialize (Hset (Z.of_nat j) ltac:(lia)).
    rewrite (Hbit j l) in Hset by (lia || exact Hr).
    destruct l; [discriminate|reflexivity].
  - intros ->.
    assert (Hm : Z.land w' (Z.ones (pulse_count (param btn) + 1))
                 = 2 ^ pulse_count (param btn)).
    { clear - Hcls. inversion Hcls as [|? Hm|? ? ? Hev|]; subst.
      - exact Hm.
      - destruct (process_holding _ _).1; discriminate. }
    assert (Hb : forall i, 0 <= i < pulse_count (param btn) + 1 ->
                   Z.testbit w' i = (pulse_count (param btn) =? i)).
    { intros i Hi. rewrite <- Z.pow2_bits_eqb by lia. rewrite <- Hm.
      rewrite Z.land_spec, Z.ones_spec_low by lia.
      now rewrite andb_true_r. }
    split.
    + intros j l Hj Hr. specialize (Hb (Z.of_nat j) ltac:(lia)).
      rewrite (Hbit j l) in Hb by (lia || exact Hr).
      destruct (Z.eqb_spec (pulse_count (param btn)) (Z.of_nat j)); [lia|].
      destruct l; [reflexivity|discriminate].
    + intros l Hr.
      specialize (Hb (pulse_count (param btn)) ltac:(lia)).
      rewrite Z.eqb_refl in Hb.
      rewrite <- (Z2Nat.id (pulse_count (param btn))) in Hb at 1 by lia.
      rewrite (Hbit _ l) in Hb by (lia || exact Hr).
      destruct l; [discriminate|reflexivity].
Qed.

(** X4. On the value that [update_state] returns, the chain of
    [process_button] never leaves the state at STATE_IDLE: when the
    instance is neither pressed, released, down nor up, some low bit of
    the waveform is set, so the last test, [else if (waveform)], always
    holds and the state is STATE_DEBOUNCING. *)
Theorem classification_is_never_idle
    (btn btn' : button) (time_ms : Z)
    (state : button_state_t) (event : button_event_t) :
  param_defined (param btn) ->
  process_button_classify btn time_ms
    (Z.land (waveform (data btn)) (Z.ones (pulse_count (param btn) + 1)))
  = Some (state, event, btn') ->
  state <> STATE_IDLE.
Proof.
  intros Hdef. pose proof (pulse_count_range btn Hdef) as HN.
  unfold process_button_classify.
  rewrite is_button_pressed_defined by exact Hdef. simpl.
  destruct (negb (pressed btn) && _); [intros [= <- _ _]; discriminate|].
  rewrite is_button_released_defined by exact Hdef. simpl.
  destruct (pressed btn && _); [intros [= <- _ _]; discriminate|].
  rewrite is_button_down_defined by exact Hdef. simpl.
  destruct (Z.land (waveform (data btn)) (Z.ones (pulse_count (param btn)))
            =? Z.ones (pulse_count (param btn))).
  { destruct (process_holding btn time_ms).
    intros [= <- _ _]. discriminate. }
  rewrite is_button_up_defined by exact Hdef. simpl.
  destruct (Z.eqb_spec
              (Z.land (waveform (data btn))
                 (Z.ones (pulse_count (param btn)))) 0) as [|Hup];
    [intros [= <- _ _]; discriminate|].
  destruct (nonzero _) eqn:Hnz; [intros [= <- _ _]; discriminate|].
  exfalso. apply nonzero_false in Hnz. apply Hup.
  rewrite <- land_ones_ones by lia. rewrite Hnz. apply Z.land_0_l.
Qed.

(** X8. [button_busy] after a step: true when the newest sample of the
    step is high, false when the step read at least [N] samples and all
    of them low. *)
Theorem busy_tracks_recent_samples
    (btn : button) (time_ms : Z) (h : host) :
  active btn = true ->
  well_formed btn ->
  elapsed_pulses btn time_ms <> 0 ->
  1 <= pulse_count (param btn) ->
  exists event btn' h1 tr,
    process btn time_ms h = Some (event, btn', h1, tr)
    /\ (recent (levels_of btn time_ms h) 0 = Some BUTTON_LEVEL_HIGH ->
        button_busy btn' = Some true)
    /\ (pulse_count (param btn) <= elapsed_pulses btn time_ms ->
        Forall (fun x => x = BUTTON_LEVEL_LOW) (levels_of btn time_ms h) ->
        button_busy btn' = Some false).
Proof.
  intros Hact Hwf Hp HN.
  pose proof (pulse_count_range btn (proj1 Hwf)) as Hrange.
  destruct (button_step_exact btn time_ms h Hact Hwf Hp)
    as (state & event & b2 & h1 & h' & _ & Hcls & Hpb & _).
  set (b1 := after_sampling btn (levels_of btn time_ms h)) in *.
  pose proof (classified_frame _ _ _ _ _ Hcls) as
    (Hpar & _ & _ & _ & _ & _ & _ & _ & Hw).
  set (btn' := set_timestamp time_ms
                 (if click_window_reset state b2 time_ms
                  then with_data (set_clicks 0) b2 else b2)) in *.
  assert (Hw' : waveform (data btn') = waveform (data b1))
    by (subst btn'; destruct (click_window_reset state b2 time_ms);
        exact Hw).
  assert (Hpar' : param btn' = param btn)
    by (subst btn'; destruct (click_window_reset state b2 time_ms);
        exact Hpar).
  assert (Hbusy : button_busy btn'
                  = Some (negb (Z.land (waveform (data b1))
                                  (Z.ones (pulse_count (param btn)))
                                =? 0))).
  { unfold button_busy. rewrite is_button_up_defined.
    - rewrite Hw', Hpar'. reflexivity.
    - rewrite Hpar'. apply Hwf. }
  do 4 eexists. split; [exact Hpb|]. rewrite Hbusy. split.
  - intros Hnew.
    destruct (Z.eqb_spec (Z.land (waveform (data b1))
                            (Z.ones (pulse_count (param btn)))) 0)
      as [Hz|]; [|reflexivity].
    exfalso.
    assert (Hb : Z.testbit (Z.land (waveform (data b1))
                   (Z.ones (pulse_count (param btn)))) 0 = true).
    { rewrite Z.land_spec, Z.ones_spec_low by lia.
      rewrite andb_true_r. simpl.
      apply (shift_in_recent _ _ 0%nat BUTTON_LEVEL_HIGH Hnew). lia. }
    rewrite Hz, Z.bits_0 in Hb. discriminate.
  - intros Hlate Hlow. rewrite land_ones_low_zero; [reflexivity|lia|].
    intros i Hi.
    apply (constant_step_bits btn time_ms h BUTTON_LEVEL_LOW
             (pulse_count (param btn))); auto; lia.
Qed.

(** X16. A step keeps every integer field of the instance within its C
    type: the waveform and the four times below 2^32, [clicks] below
    2^8. *)
Theorem step_keeps_fields_in_range
    (btn : button) (ob : option button) (time_ms : Z) (h h' : host)
    (e : button_error_t) (tr : list call) :
  active btn = true ->
  well_formed btn ->
  in_range btn ->
  0 <= time_ms < 2 ^ 32 ->
  step (Some btn) time_ms h = Some (e, ob, h', tr) ->
  exists btn', ob = Some btn' /\ in_range btn'.
Proof.
  intros Hact Hwf Hin Ht Hstep.
  destruct (Z.eq_dec (elapsed_pulses btn time_ms) 0) as [Hp|Hp].
  { destruct (button_step_without_pulse host host_get_state host_callback
                btn time_ms h Hact (proj1 (proj1 Hwf)) Hp) as [_ Hnoop].
    subst step. rewrite Hnoop in Hstep. injection Hstep as <- <- <- <-.
    eauto. }
  destruct (button_step_exact btn time_ms h Hact Hwf Hp)
    as (state & event & b2 & h1 & h2 & _ & Hcls & _ & Hstep').
  rewrite Hstep in Hstep'. injection Hstep' as -> -> -> ->.
  eexists. split; [reflexivity|].
  destruct Hin as (Hw & Htp & Htr & Htrp & Hc & Hts).
  pose proof (shift_in_range (levels_of btn time_ms h) _ Hw) as Hw'.
  assert (Hc8 : 0 <= wrap8 (clicks (data btn) + 1) < 2 ^ 8)
    by (apply (wrap_range 8); lia).
  clear - Hcls Hw' Htp Htr Htrp Hc Hc8 Ht.
  unfold in_range.
  destruct (click_window_reset state b2 time_ms);
    inversion Hcls; subst; simpl;
    rewrite ?process_holding_instance;
    try destruct (process_holding _ _).1; simpl;
    repeat split; try apply Hw'; try apply Htp; try apply Htr;
    try apply Htrp; try apply Hc; try apply Hc8; try apply Ht;
    try reflexivity; try discriminate.
Qed.

(** X2. A step counts elapsed time correctly across a wrap of the 32-bit
    millisecond counter: when [d] milliseconds, fewer than 2^32, have
    passed since the time stamp, a step at [(timestamp + d) mod 2^32]
    reads the level [d / sampling_interval_ms] times and shifts those
    samples into the waveform, whether or not the counter wrapped in
    between; with a zero quotient it does nothing, otherwise it moves the
    time stamp to the new time. *)
Theorem step_counts_pulses_across_wraparound
    (btn : button) (d : Z) (h : host) :
  active btn = true ->
  well_formed btn ->
  0 <= timestamp btn < 2 ^ 32 ->
  0 <= d < 2 ^ 32 ->
  let now := wrap32 (timestamp btn + d) in
  let n := Z.to_nat (d / sampling_interval_ms (param btn)) in
  let reads :=
    read_levels host host_get_state n (get_state btn) (get_state_ctx btn) h in
  let samples :=
    replicate n (CallGetState (get_state btn) (get_state_ctx btn)) in
  exists event btn',
    process btn now h = Some (event, btn', reads.2, samples)
    /\ waveform (data btn') = shift_in (waveform (data btn)) reads.1
    /\ (d / sampling_interval_ms (param btn) = 0 ->
        event = BUTTON_EVT_NONE /\ btn' = btn)
    /\ (d / sampling_interval_ms (param btn) <> 0 -> timestamp btn' = now)
    /\ exists h' cbs,
        step (Some btn) now h
        = Some (BUTTON_ERROR_NONE, Some btn', h', samples ++ cbs).
Proof.
  intros Hact Hwf Hts Hd now n reads samples.
  pose proof (elapsed_pulses_wrap btn d Hts Hd) as Hel. fold now in Hel.
  destruct (Z.eq_dec (d / sampling_interval_ms (param btn)) 0) as [Hz|Hnz].
  - destruct (button_step_without_pulse host host_get_state host_callback
                btn now h Hact (proj1 (proj1 Hwf))) as [Hpb Hstep];
      [congruence|].
    subst samples reads n. rewrite Hz. simpl.
    exists BUTTON_EVT_NONE, btn. split; [exact Hpb|].
    split; [reflexivity|]. split; [auto|]. split; [contradiction|].
    exists h, []. exact Hstep.
  - assert (Hp : elapsed_pulses btn now <> 0) by congruence.
    destruct (process_button_defined host host_get_state btn now h Hwf Hp)
      as (state & event & b2 & Hc & Hpb).
    rewrite Hel in Hc, Hpb. fold n in Hc, Hpb. fold reads in Hc, Hpb.
    fold samples in Hpb.
    pose proof (process_button_classify_classified
                  (after_sampling btn reads.1) _ _ _ _ _
                  (proj1 Hwf) Hc) as Hcls.
    pose proof (classified_frame _ _ _ _ _ Hcls) as
      (_ & _ & _ & _ & _ & _ & _ & _ & Hw).
    destruct (button_step_active host host_get_state host_callback
                _ _ _ _ _ _ _ Hact Hpb) as [h' Hstep].
    do 2 eexists. split; [exact Hpb|]. split.
    { simpl. destruct (click_window_reset state b2 now); exact Hw. }
    split; [contradiction|]. split; [reflexivity|].
    do 2 eexists. exact Hstep.
Qed.

End StepMore.

(** ** More on parameters and on enabling *)

(** X9. [button_get_param] gives back what [button_set_param] installed:
    after an accepted call the candidate block, after a rejected one the
    block that was in place; on a null argument it returns INVALID_PARAM
    and leaves the caller's block alone. *)
Theorem get_param_after_set_param
    (b : button) (q out : button_param) :
  sampling_interval_ms (param b) <> 0 ->
  (is_param_ok q (pulse_count (param b)) = true ->
   exists b',
     button_set_param (Some b) (Some q) = Some (BUTTON_ERROR_NONE, Some b')
     /\ button_get_param (Some b') (Some out) = (BUTTON_ERROR_NONE, Some q))
  /\ (is_param_ok q (pulse_count (param b)) = false ->
      button_set_param (Some b) (Some q)
      = Some (BUTTON_ERROR_INCORRECT_PARAM, Some b)
      /\ button_get_param (Some b) (Some out)
         = (BUTTON_ERROR_NONE, Some (param b)))
  /\ button_get_param None (Some out)
     = (BUTTON_ERROR_INVALID_PARAM, Some out)
  /\ button_get_param (Some b) None = (BUTTON_ERROR_INVALID_PARAM, None).
Proof.
  intros Hs. unfold button_set_param.
  rewrite get_min_pressed_pulse_count_divisor by exact Hs. simpl.
  split; [|split; [|split; reflexivity]]; intros Hok; rewrite Hok; simpl.
  - eexists. split; reflexivity.
  - split; reflexivity.
Qed.

Lemma set_active_restore (b : button) :
  active b = true -> set_active true (set_active false b) = b.
Proof. destruct b. simpl. intros ->. reflexivity. Qed.

Section Disabled.

Variable host : Type.
Variable host_get_state : Z -> Z -> host -> button_level_t * host.
Variable host_callback :
  Z -> button -> button_event_t -> Z -> Z -> host -> host.

Lemma disabled_steps_do_nothing (ts : list Z) (b : button) (h : host) :
  active b = false ->
  button_steps host host_get_state host_callback ts b h = Some (b, h, []).
Proof.
  intros Hact. induction ts as [|t ts IH]; [reflexivity|].
  cbn -[button_step]. unfold button_step at 1. rewrite Hact. simpl.
  rewrite IH. reflexivity.
Qed.

(** X11. Disabling freezes an instance: [button_disable], then any
    number of steps at any times, then [button_enable] leaves an enabled
    instance exactly as it was, time stamp included; the steps call
    nothing and leave the host alone. *)
Theorem disable_steps_enable_round_trip
    (ts : list Z) (b : button) (h : host) :
  active b = true ->
  exists b_off,
    button_disable (Some b) = (BUTTON_ERROR_NONE, Some b_off)
    /\ button_steps host host_get_state host_callback ts b_off h
       = Some (b_off, h, [])
    /\ button_enable (Some b_off) = (BUTTON_ERROR_NONE, Some b).
Proof.
  intros Hact. exists (set_active false b). split; [reflexivity|]. split.
  - now apply disabled_steps_do_nothing.
  - simpl. now rewrite set_active_restore.
Qed.

End Disabled.

(** ** The conversions of libmcu/pwm.h *)

(** X17. Percent to millipercent and back is the identity as long as the
    product fits 32 bits, that is for [pct <= 4294967]; millipercent to
    percent and back rounds down to a whole percent, losing less than
    1000. *)
Theorem pwm_percent_round_trip (x : Z) :
  0 <= x < 2 ^ 32 ->
  (x * 1000 < 2 ^ 32 ->
   Pwm.PWM_MILLI_TO_PCT (Pwm.PWM_PCT_TO_MILLI x) = x)
  /\ Pwm.PWM_PCT_TO_MILLI (Pwm.PWM_MILLI_TO_PCT x) <= x
     < Pwm.PWM_PCT_TO_MILLI (Pwm.PWM_MILLI_TO_PCT x) + 1000.
Proof.
  intros Hx. unfold Pwm.PWM_MILLI_TO_PCT, Pwm.PWM_PCT_TO_MILLI, wrap32.
  split.
  - intros Hfit. rewrite wrap_small by lia. apply Z.div_mul. discriminate.
  - pose proof (Z.div_mod x 1000 ltac:(discriminate)) as Hdm.
    pose proof (Z.mod_pos_bound x 1000 ltac:(reflexivity)) as Hm.
    assert (Hq : 0 <= x / 1000) by (apply Z.div_pos; lia).
    rewrite wrap_small by lia. lia.
Qed.

(** ** More on the pool *)

Lemma new_button_loop_lowest (n k i : nat) (btns btns' : list button) :
  new_button_loop n k btns = (Some i, btns') ->
  (k <= i < k + n)%nat
  /\ forall j, (k <= j < i)%nat -> live btns j = true.
Proof.
  revert k. induction n as [|n IH]; intros k; simpl; [discriminate|].
  destruct (btns !! k) as [p|] eqn:Hl; [|discriminate].
  destruct (allocated p) eqn:Ha; simpl.
  - intros Hloop. apply IH in Hloop as [Hr Hlive]. split; [lia|].
    intros j Hj. destruct (decide (j = k)) as [->|Hne].
    + unfold live. now rewrite Hl.
    + apply Hlive. lia.
  - intros [= <- <-]. split; [lia|]. intros j Hj. lia.
Qed.

Lemma new_button_loop_all_live (n k : nat) (btns : list button) :
  (forall j, (k <= j < k + n)%nat -> live btns j = true) ->
  new_button_loop n k btns = (None, btns).
Proof.
  revert k. induction n as [|n IH]; intros k Hall; simpl; [reflexivity|].
  pose proof (Hall k ltac:(lia)) as Hk. unfold live in Hk.
  destruct (btns !! k) as [p|]; [|discriminate].
  rewrite Hk. simpl. apply IH. intros j Hj. apply Hall. lia.
Qed.

Lemma new_button_loop_none_live (n k : nat) (btns btns' : list button) :
  (k + n <= length btns)%nat ->
  new_button_loop n k btns = (None, btns') ->
  forall j, (k <= j < k + n)%nat -> live btns j = true.
Proof.
  revert k. induction n as [|n IH]; intros k Hlen; simpl; [intros; lia|].
  destruct (btns !! k) as [p|] eqn:Hl.
  - destruct (allocated p) eqn:Ha; simpl; [|discriminate].
    intros Hloop j Hj. destruct (decide (j = k)) as [->|Hne].
    + unfold live. now rewrite Hl.
    + apply (IH (S k)); [lia|exact Hloop|lia].
  - apply lookup_ge_None in Hl. lia.
Qed.

(** X12. [button_new] takes the lowest free slot: the handle it returns
    is below BUTTON_MAX, its slot was not in use and every slot below it
    was; afterwards the slot is in use, and no other slot has changed. A
    handle that is live is therefore never handed out again. *)
Theorem button_new_takes_lowest_free_slot
    (btns btns' : list button) (f_get f_get_ctx cb cb_ctx : Z) (i : nat) :
  button_new btns f_get f_get_ctx cb cb_ctx = (Some i, btns') ->
  f_get <> 0
  /\ (i < BUTTON_MAX)%nat
  /\ live btns i = false
  /\ (forall j, (j < i)%nat -> live btns j = true)
  /\ live btns' i = true
  /\ (forall j, j <> i -> btns' !! j = btns !! j)
  /\ length btns' = length btns.
Proof.
  intros Hnew.
  pose proof (button_new_found _ _ _ _ _ _ _ Hnew)
    as (Hf & b & Hl & Ha & ->).
  assert (Hloop : exists btns1,
             new_button_loop BUTTON_MAX 0 btns = (Some i, btns1)).
  { unfold button_new, new_button in Hnew.
    destruct (f_get =? 0); [discriminate|].
    destruct (new_button_loop BUTTON_MAX 0 btns) as [[k|] btns1];
      [|discriminate].
    injection Hnew as -> _. eauto. }
  destruct Hloop as [btns1 Hloop].
  apply new_button_loop_lowest in Hloop as [Hr Hlow].
  split; [exact Hf|]. split; [lia|]. split.
  { unfold live. now rewrite Hl. }
  split; [intros j Hj; apply Hlow; lia|]. split.
  { unfold live. rewrite list_lookup_insert_eq; [reflexivity|].
    eapply lookup_lt_Some. exact Hl. }
  split; [|apply length_insert].
  intros j Hne. apply list_lookup_insert_ne. congruence.
Qed.

(** X13. [button_new] fails exactly when the level reader is null or
    all BUTTON_MAX slots are in use, and a failed call leaves the pool
    as it was. *)
Theorem button_new_fails_iff_null_or_full
    (btns : list button) (f_get f_get_ctx cb cb_ctx : Z) :
  length btns = BUTTON_MAX ->
  ((button_new btns f_get f_get_ctx cb cb_ctx).1 = None <->
   f_get = 0 \/ forall j, (j < BUTTON_MAX)%nat -> live btns j = true)
  /\ ((button_new btns f_get f_get_ctx cb cb_ctx).1 = None ->
      (button_new btns f_get f_get_ctx cb cb_ctx).2 = btns).
Proof.
  intros Hlen. split.
  - unfold button_new, new_button.
    destruct (Z.eqb_spec f_get 0) as [Hf|Hf]; [simpl; tauto|].
    destruct (new_button_loop BUTTON_MAX 0 btns) as [[i|] btns1] eqn:Hloop;
      simpl.
    + split; [discriminate|]. intros [Hz|Hall]; [contradiction|].
      rewrite new_button_loop_all_live in Hloop; [discriminate|].
      intros j Hj. apply Hall. lia.
    + split; [|reflexivity]. intros _. right. intros j Hj.
      eapply new_button_loop_none_live; [|exact Hloop|]; lia.
  - destruct (button_new btns f_get f_get_ctx cb cb_ctx) as [r btns1] eqn:Hnew.
    simpl. intros ->. eapply button_new_failed. exact Hnew.
Qed.

(** X14. [button_delete] makes room: it zeroes the slot and nothing
    else, the handle is no longer live, and the next [button_new] with a
    level reader succeeds, on that slot or a lower one. *)
Theorem button_delete_makes_room
    (btns : list button) (i : nat) (f_get f_get_ctx cb cb_ctx : Z) :
  length btns = BUTTON_MAX ->
  (i < BUTTON_MAX)%nat ->
  f_get <> 0 ->
  exists btns1 k btns2,
    button_delete btns (Some i) = Some btns1
    /\ btns1 !! i = Some zero_button
    /\ live btns1 i = false
    /\ (forall j, j <> i -> btns1 !! j = btns !! j)
    /\ button_new btns1 f_get f_get_ctx cb cb_ctx = (Some k, btns2)
    /\ (k <= i)%nat.
Proof.
  intros Hlen Hi Hf.
  assert (Hz : free_button i btns !! i = Some zero_button)
    by (apply list_lookup_insert_eq; lia).
  assert (Hdead : live (free_button i btns) i = false)
    by (unfold live; now rewrite Hz).
  destruct (button_new (free_button i btns) f_get f_get_ctx cb cb_ctx)
    as [[k|] btns2] eqn:Hnew.
  - exists (free_button i btns), k, btns2.
    split; [reflexivity|]. split; [exact Hz|]. split; [exact Hdead|].
    split; [intros j Hne; apply list_lookup_insert_ne; congruence|].
    split; [exact Hnew|].
    unfold button_new, new_button in Hnew.
    destruct (f_get =? 0); [discriminate|].
    destruct (new_button_loop BUTTON_MAX 0 (free_button i btns))
      as [[k'|] btns3] eqn:Hloop; [|discriminate].
    injection Hnew as -> _.
    apply new_button_loop_lowest in Hloop as [_ Hlow].
    destruct (le_lt_dec k i) as [|Hlt]; [assumption|].
    specialize (Hlow i ltac:(lia)). congruence.
  - exfalso. unfold button_new, new_button in Hnew.
    destruct (Z.eqb_spec f_get 0); [contradiction|].
    destruct (new_button_loop BUTTON_MAX 0 (free_button i btns))
      as [[k'|] btns3] eqn:Hloop; [discriminate|].
    assert (Hlive : live (free_button i btns) i = true).
    { eapply new_button_loop_none_live; [|exact Hloop|lia].
      unfold free_button. rewrite length_insert. lia. }
    congruence.
Qed.

Section PoolMore.

Variable host : Type.
Variable host_get_state : Z -> Z -> host -> button_level_t * host.
Variable host_callback :
  Z -> button -> button_event_t -> Z -> Z -> host -> host.

Let exec := Pool.exec host host_get_state host_callback.
Let run := Pool.run host host_get_state host_callback.
Let protocol_ok := Pool.protocol_ok host host_get_state host_callback.

(** X15. The instance [button_new] hands out, in any pool a client that
    keeps to the life cycle can reach: default parameters, the functions
    and contexts it was given, an empty waveform, no clicks, all times
    and the time stamp at 0, latch clear, disabled; every computation of
    a step is defined on it. *)
Theorem new_instance_has_defaults
    (cs0 : list api_call) (h0 h : host)
    (rs0 : list (api_result * list call))
    (btns btns1 : list button) (f_get f_get_ctx cb cb_ctx : Z) (i : nat) :
  protocol_ok cs0 initial h0 = true ->
  run cs0 initial h0 = Some (rs0, btns, h) ->
  button_new btns f_get f_get_ctx cb cb_ctx = (Some i, btns1) ->
  exists b,
    btns1 !! i = Some b
    /\ param b = get_default_param
    /\ data b = mk_data 0 0 0 0 0
    /\ get_state b = f_get /\ get_state_ctx b = f_get_ctx
    /\ callback b = cb /\ callback_ctx b = cb_ctx
    /\ timestamp b = 0
    /\ pressed b = false /\ active b = false /\ allocated b = true
    /\ well_formed b.
Proof.
  intros Hok0 Hrun0 Hnew.
  pose proof (run_keeps_pool_inv host host_get_state host_callback
                _ _ _ _ _ _ pool_inv_initial Hok0 Hrun0) as Hinv.
  destruct (button_new_instance _ _ _ _ _ _ _ Hinv Hnew) as [Hl _].
  destruct (button_new_found _ _ _ _ _ _ _ Hnew) as [Hf _].
  eexists. split; [exact Hl|]. simpl.
  repeat (split; [reflexivity|]).
  split; [|exact Hf]. split; [discriminate|reflexivity].
Qed.

End PoolMore.

(** ** The further properties on the scripted host *)

Lemma well_formed_script (b : button) :
  param b = get_default_param -> get_state b = 1 -> well_formed b.
Proof.
  intros Hp Hg. apply well_formed_fresh_params; [exact Hp|].
  rewrite Hg. discriminate.
Qed.

Lemma step_reads_level_once_per_pulse_witness :
  let h := replicate 34 BUTTON_LEVEL_HIGH in
  (active Script.held = true /\ well_formed Script.held)
  /\ exists btn' h' cbs,
      Script.step (Some Script.held) 400 h
      = Some (BUTTON_ERROR_NONE, Some btn', h',
              replicate 34 (CallGetState 1 0) ++ cbs)
      /\ (length cbs <= 2)%nat.
Proof.
  intros h.
  assert (Ha : active Script.held = true) by reflexivity.
  assert (Hwf : well_formed Script.held)
    by (apply well_formed_script; reflexivity).
  split; [auto|].
  destruct (step_reads_level_once_per_pulse
              Script.host Script.get_state Script.on_event
              Script.held 400 h Ha Hwf)
    as (btn' & h' & cbs & Hstep & _ & Hlen).
  exists btn', h', cbs. split; [exact Hstep|exact Hlen].
Defined.

Lemma step_counts_pulses_across_wraparound_witness :
  let b := set_timestamp (2 ^ 32 - 5) Script.fresh in
  let h := [BUTTON_LEVEL_HIGH; BUTTON_LEVEL_HIGH; BUTTON_LEVEL_LOW] in
  (active b = true /\ well_formed b
   /\ 0 <= timestamp b < 2 ^ 32 /\ 0 <= 25 < 2 ^ 32)
  /\ wrap32 (timestamp b + 25) = 20
  /\ exists event btn',
      Script.process b 20 h
      = Some (event, btn', [BUTTON_LEVEL_LOW],
              [CallGetState 1 0; CallGetState 1 0])
      /\ waveform (data btn') = 3
      /\ timestamp btn' = 20.
Proof.
  intros b h.
  assert (Ha : active b = true) by reflexivity.
  assert (Hwf : well_formed b) by (apply well_formed_script; reflexivity).
  assert (Hts : 0 <= timestamp b < 2 ^ 32) by (simpl; lia).
  assert (Hd : 0 <= 25 < 2 ^ 32) by lia.
  split; [auto 6|]. split; [reflexivity|].
  destruct (step_counts_pulses_across_wraparound
              Script.host Script.get_state Script.on_event
              b 25 h Ha Hwf Hts Hd)
    as (event & btn' & Hpb & Hw & _ & Hstamp & _).
  exists event, btn'. split; [exact Hpb|]. split; [exact Hw|].
  apply Hstamp. discriminate.
Defined.

Lemma latch_follows_events_witness :
  (active Script.armed = true
   /\ well_formed Script.armed
   /\ elapsed_pulses Script.armed 60 <> 0)
  /\ exists event btn' h1 tr,
      Script.process Script.armed 60 [BUTTON_LEVEL_HIGH]
      = Some (event, btn', h1, tr)
      /\ timestamp btn' = 60.
Proof.
  assert (Ha : active Script.armed = true) by reflexivity.
  assert (Hwf : well_formed Script.armed)
    by (apply well_formed_script; reflexivity).
  assert (Hp : elapsed_pulses Script.armed 60 <> 0) by discriminate.
  split; [auto|].
  destruct (latch_follows_events Script.host Script.get_state
              Script.on_event Script.armed 60 [BUTTON_LEVEL_HIGH] Ha Hwf Hp)
    as (event & btn' & h1 & tr & Hpb & Hts & _).
  exists event, btn', h1, tr. auto.
Defined.

Lemma classification_is_never_idle_witness :
  let b := with_data (set_waveform 5) Script.fresh in
  param_defined (param b)
  /\ process_button_classify b 10 (Z.land 5 (Z.ones 7))
     = Some (STATE_DEBOUNCING, BUTTON_EVT_NONE, b)
  /\ STATE_DEBOUNCING <> STATE_IDLE.
Proof.
  intros b.
  assert (Hdef : param_defined (param b))
    by (split; [discriminate|reflexivity]).
  assert (Hc : process_button_classify b 10
                 (Z.land (waveform (data b))
                    (Z.ones (pulse_count (param b) + 1)))
               = Some (STATE_DEBOUNCING, BUTTON_EVT_NONE, b))
    by reflexivity.
  split; [exact Hdef|]. split; [exact Hc|].
  apply (classification_is_never_idle b b 10 _ _ Hdef Hc).
Defined.

Lemma late_low_step_is_silent_witness :
  (active Script.held = true
   /\ well_formed Script.held
   /\ 1 <= pulse_count (param Script.held)
   /\ pulse_count (param Script.held) + 1 <= elapsed_pulses Script.held 130
   /\ pressed Script.held = true)
  /\ exists btn' h',
      Script.step (Some Script.held) 130 []
      = Some (BUTTON_ERROR_NONE, Some btn', h',
              replicate 7 (CallGetState 1 0))
      /\ pressed btn' = true.
Proof.
  assert (Ha : active Script.held = true) by reflexivity.
  assert (Hwf : well_formed Script.held)
    by (apply well_formed_script; reflexivity).
  assert (HN : 1 <= pulse_count (param Script.held)) by discriminate.
  assert (Hlate : pulse_count (param Script.held) + 1
                  <= elapsed_pulses Script.held 130) by discriminate.
  split; [auto 6|].
  destruct (late_low_step_is_silent
              Script.host Script.get_state Script.on_event
              Script.held 130 [] Ha Hwf HN Hlate)
    as (btn' & h' & Hstep & _ & Hlatch & _).
  { repeat constructor. }
  exists btn', h'. split; [exact Hstep|exact Hlatch].
Defined.

Lemma late_high_step_presses_witness :
  let h := replicate 6 BUTTON_LEVEL_HIGH in
  (active Script.fresh = true
   /\ well_formed Script.fresh
   /\ pulse_count (param Script.fresh) <= elapsed_pulses Script.fresh 60
   /\ pressed Script.fresh = false)
  /\ exists btn' h1 tr,
      Script.process Script.fresh 60 h
      = Some (BUTTON_EVT_PRESSED, btn', h1, tr)
      /\ pressed btn' = true.
Proof.
  intros h.
  assert (Ha : active Script.fresh = true) by reflexivity.
  assert (Hwf : well_formed Script.fresh)
    by (apply well_formed_script; reflexivity).
  assert (Hp : elapsed_pulses Script.fresh 60 <> 0) by discriminate.
  assert (Hlate : pulse_count (param Script.fresh)
                  <= elapsed_pulses Script.fresh 60) by discriminate.
  assert (Hl : pressed Script.fresh = false) by reflexivity.
  split; [auto 6|].
  destruct (late_high_step_presses
              Script.host Script.get_state Script.on_event
              Script.fresh 60 h Ha Hwf Hp Hlate)
    as (btn' & h1 & h' & tr & Hpb & _ & Hlatch & _).
  { repeat constructor. }
  { exact Hl. }
  exists btn', h1, tr. split; [exact Hpb|exact Hlatch].
Defined.

Lemma events_require_stable_samples_witness :
  (active Script.armed = true
   /\ well_formed Script.armed
   /\ elapsed_pulses Script.armed 60 <> 0)
  /\ exists event btn' h1 tr,
      Script.process Script.armed 60 [BUTTON_LEVEL_LOW]
      = Some (event, btn', h1, tr)
      /\ event <> BUTTON_EVT_PRESSED.
Proof.
  assert (Ha : active Script.armed = true) by reflexivity.
  assert (Hwf : well_formed Script.armed)
    by (apply well_formed_script; reflexivity).
  assert (Hp : elapsed_pulses Script.armed 60 <> 0) by discriminate.
  split; [auto|].
  destruct (events_require_stable_samples Script.host Script.get_state
              Script.on_event Script.armed 60 [BUTTON_LEVEL_LOW] Ha Hwf Hp)
    as (event & btn' & h1 & tr & Hpb & Hpr & _).
  exists event, btn', h1, tr. split; [exact Hpb|].
  intros He. specialize (Hpr He 0%nat BUTTON_LEVEL_LOW).
  discriminate Hpr; reflexivity.
Defined.

Lemma busy_tracks_recent_samples_witness :
  (active Script.fresh = true
   /\ well_formed Script.fresh
   /\ elapsed_pulses Script.fresh 10 <> 0
   /\ 1 <= pulse_count (param Script.fresh))
  /\ exists event btn' h1 tr,
      Script.process Script.fresh 10 [BUTTON_LEVEL_HIGH]
      = Some (event, btn', h1, tr)
      /\ button_busy Script.fresh = Some false
      /\ button_busy btn' = Some true.
Proof.
  assert (Ha : active Script.fresh = true) by reflexivity.
  assert (Hwf : well_formed Script.fresh)
    by (apply well_formed_script; reflexivity).
  assert (Hp : elapsed_pulses Script.fresh 10 <> 0) by discriminate.
  assert (HN : 1 <= pulse_count (param Script.fresh)) by discriminate.
  split; [auto 6|].
  destruct (busy_tracks_recent_samples Script.host Script.get_state
              Script.on_event Script.fresh 10 [BUTTON_LEVEL_HIGH] Ha Hwf Hp HN)
    as (event & btn' & h1 & tr & Hpb & Hbusy & _).
  exists event, btn', h1, tr. split; [exact Hpb|].
  split; [reflexivity|]. apply Hbusy. reflexivity.
Defined.

Lemma step_keeps_fields_in_range_witness :
  let h := replicate 34 BUTTON_LEVEL_HIGH in
  (active Script.held = true
   /\ well_formed Script.held
   /\ in_range Script.held
   /\ 0 <= 400 < 2 ^ 32)
  /\ exists e btn' h' tr,
      button_step Script.host Script.get_state Script.on_event
        (Some Script.held) 400 h = Some (e, Some btn', h', tr)
      /\ in_range btn'.
Proof.
  intros h.
  assert (Ha : active Script.held = true) by reflexivity.
  assert (Hwf : well_formed Script.held)
    by (apply well_formed_script; reflexivity).
  assert (Hin : in_range Script.held) by (unfold in_range; simpl; lia).
  assert (Ht : 0 <= 400 < 2 ^ 32) by lia.
  split; [auto 6|].
  assert (Hstep : exists e ob h' tr,
            button_step Script.host Script.get_state Script.on_event
        (Some Script.held) 400 h = Some (e, ob, h', tr))
    by (do 4 eexists; vm_compute; reflexivity).
  destruct Hstep as (e & ob & h' & tr & Hstep).
  destruct (step_keeps_fields_in_range
              Script.host Script.get_state Script.on_event
              Script.held ob 400 h h' e tr Ha Hwf Hin Ht Hstep)
    as (btn' & -> & Hin').
  exists e, btn', h', tr. split; [exact Hstep|exact Hin'].
Defined.

Lemma get_param_after_set_param_witness :
  let quick := mk_param 5 20 100 50 250 in
  sampling_interval_ms (param Script.fresh) <> 0
  /\ is_param_ok quick (pulse_count (param Script.fresh)) = true
  /\ exists b',
      button_set_param (Some Script.fresh) (Some quick)
      = Some (BUTTON_ERROR_NONE, Some b')
      /\ button_get_param (Some b') (Some get_default_param)
         = (BUTTON_ERROR_NONE, Some quick).
Proof.
  intros quick.
  assert (Hs : sampling_interval_ms (param Script.fresh) <> 0)
    by discriminate.
  assert (Hok : is_param_ok quick (pulse_count (param Script.fresh)) = true)
    by reflexivity.
  split; [exact Hs|]. split; [exact Hok|].
  apply (proj1 (get_param_after_set_param Script.fresh quick
                  get_default_param Hs) Hok).
Defined.

Lemma set_param_checks_instance_pulse_count_witness :
  let quick := mk_param 5 20 100 50 250 in
  sampling_interval_ms (param Script.fresh) <> 0
  /\ (sampling_interval_ms quick <> 0
      /\ repeat_delay_ms quick <> 0
      /\ repeat_rate_ms quick <> 0
      /\ click_window_ms quick <> 0
      /\ sampling_interval_ms quick <= min_press_time_ms quick
      /\ pulse_count (param Script.fresh) < WAVEFORM_BITS - 2).
Proof.
  intros quick.
  assert (Hs : sampling_interval_ms (param Script.fresh) <> 0)
    by discriminate.
  split; [exact Hs|].
  apply (set_param_checks_instance_pulse_count Script.fresh quick Hs).
  reflexivity.
Defined.

Lemma disable_steps_enable_round_trip_witness :
  active Script.held = true
  /\ exists b_off,
      button_disable (Some Script.held) = (BUTTON_ERROR_NONE, Some b_off)
      /\ button_steps Script.host Script.get_state Script.on_event
           [100; 250; 900] b_off [BUTTON_LEVEL_HIGH]
         = Some (b_off, [BUTTON_LEVEL_HIGH], [])
      /\ button_enable (Some b_off) = (BUTTON_ERROR_NONE, Some Script.held).
Proof.
  assert (Ha : active Script.held = true) by reflexivity.
  split; [exact Ha|].
  apply (disable_steps_enable_round_trip
           Script.host Script.get_state Script.on_event
           [100; 250; 900] Script.held [BUTTON_LEVEL_HIGH] Ha).
Defined.

Lemma pwm_percent_round_trip_witness :
  (0 <= 50 < 2 ^ 32 /\ 50 * 1000 < 2 ^ 32)
  /\ Pwm.PWM_MILLI_TO_PCT (Pwm.PWM_PCT_TO_MILLI 50) = 50.
Proof.
  assert (Hx : 0 <= 50 < 2 ^ 32) by lia.
  assert (Hfit : 50 * 1000 < 2 ^ 32) by lia.
  split; [auto|].
  apply (proj1 (pwm_percent_round_trip 50 Hx) Hfit).
Defined.

Lemma button_new_takes_lowest_free_slot_witness :
  let btns := (button_new initial 1 0 2 0).2 in
  exists btns',
    button_new btns 3 0 0 0 = (Some 1%nat, btns')
    /\ live btns 0 = true
    /\ live btns 1 = false
    /\ live btns' 1 = true.
Proof.
  intros btns. exists (button_new btns 3 0 0 0).2.
  assert (Hnew : button_new btns 3 0 0 0
                 = (Some 1%nat, (button_new btns 3 0 0 0).2))
    by reflexivity.
  split; [exact Hnew|].
  destruct (button_new_takes_lowest_free_slot _ _ _ _ _ _ _ Hnew)
    as (_ & _ & Hfree & Hlow & Hlive & _).
  split; [apply Hlow; lia|]. split; [exact Hfree|exact Hlive].
Defined.

Lemma button_new_fails_iff_null_or_full_witness :
  length initial = BUTTON_MAX
  /\ (button_new initial 0 0 2 0).1 = None
  /\ (button_new initial 0 0 2 0).2 = initial.
Proof.
  assert (Hlen : length initial = BUTTON_MAX) by reflexivity.
  split; [exact Hlen|].
  destruct (button_new_fails_iff_null_or_full initial 0 0 2 0 Hlen)
    as [Hiff Hsame].
  assert (Hnone : (button_new initial 0 0 2 0).1 = None)
    by (apply Hiff; left; reflexivity).
  split; [exact Hnone|apply Hsame, Hnone].
Defined.

Lemma button_delete_makes_room_witness :
  let btns := (button_new initial 1 0 2 0).2 in
  (length btns = BUTTON_MAX /\ (0 < BUTTON_MAX)%nat /\ 3 <> 0)
  /\ exists btns1 k btns2,
      button_delete btns (Some 0%nat) = Some btns1
      /\ live btns1 0 = false
      /\ button_new btns1 3 0 0 0 = (Some k, btns2)
      /\ (k <= 0)%nat.
Proof.
  intros btns.
  assert (Hlen : length btns = BUTTON_MAX) by reflexivity.
  assert (Hi : (0 < BUTTON_MAX)%nat) by (unfold BUTTON_MAX; lia).
  assert (Hf : 3 <> 0) by discriminate.
  split; [auto|].
  destruct (button_delete_makes_room btns 0 3 0 0 0 Hlen Hi Hf)
    as (btns1 & k & btns2 & Hdel & _ & Hdead & _ & Hnew & Hk).
  exists btns1, k, btns2. auto.
Defined.

Lemma new_instance_has_defaults_witness :
  let cs0 :=
    [ApiNew 5 0 0 0;
     ApiEnable (Some 0%nat);
     ApiStep (Some 0%nat) 60;
     ApiDelete (Some 0%nat);
     ApiNew 7 0 0 0] in
  let h0 := replicate 40 BUTTON_LEVEL_HIGH in
  exists rs0 btns h btns1 b,
    Pool.protocol_ok Script.host Script.get_state Script.on_event
      cs0 initial h0 = true
    /\ Pool.run Script.host Script.get_state Script.on_event cs0 initial h0
       = Some (rs0, btns, h)
    /\ button_new btns 1 0 2 0 = (Some 1%nat, btns1)
    /\ btns1 !! 1%nat = Some b
    /\ param b = get_default_param
    /\ active b = false.
Proof.
  intros cs0 h0.
  assert (Hok0 : Pool.protocol_ok Script.host Script.get_state
                   Script.on_event cs0 initial h0 = true) by reflexivity.
  assert (Hrun0 : exists rs0 btns h,
    Pool.run Script.host Script.get_state Script.on_event cs0 initial h0
    = Some (rs0, btns, h)
    /\ button_new btns 1 0 2 0 = (Some 1%nat, (button_new btns 1 0 2 0).2))
    by (do 3 eexists; split; vm_compute; reflexivity).
  destruct Hrun0 as (rs0 & btns & h & Hrun0 & Hnew).
  destruct (new_instance_has_defaults
              Script.host Script.get_state Script.on_event
              cs0 h0 h rs0 btns _ 1 0 2 0 1%nat Hok0 Hrun0 Hnew)
    as (b & Hl & Hp & _ & _ & _ & _ & _ & _ & _ & Hact & _).
  exists rs0, btns, h, (button_new btns 1 0 2 0).2, b. auto 7.
Defined.

